(** * Block Kit view builders of the project-updates bot

    A shallow embedding of the two builder families of the repository and of
    the home handler's state decoder:

    - [Types], [Builders]: ui/types.ts and ui/builders.ts (the CardItem
      family: [buildHome], [buildHeader], [buildTabs], [buildContent],
      [buildCardList], [buildCard], ...);
    - [Models], [Header], [Cards], [Tabs], [Nav], [Views]: src/data/models.ts
      and src/ui/{header,cards,tabs,nav,views}.ts (the Task/Risk family);
    - [Home]: src/handlers/home.ts ([getStateFromView]).

    The builders return plain JavaScript object literals, so blocks are
    modelled as untyped JavaScript values ([JS.value]): an object is the
    ordered list of its own properties, and a property written with the value
    [undefined] is there, with that value.  JavaScript strings are modelled as
    [string], the bytes of their UTF-8 encoding. *)

From Stdlib Require Import String Ascii List Bool Arith ZArith Lia DecimalString.
Import ListNotations.

Local Open Scope string_scope.
Local Open Scope list_scope.

(** Template literals are concatenations. *)
Notation "a +++ b" := (String.append a b) (right associativity, at level 60).

(* ================================================================== *)
(** ** The JavaScript runtime the builders rely on *)
(* ================================================================== *)

Module JS.

#[local] Set Warnings "-register-all".

(** JavaScript values.  A number is kept as its decimal literal: no builder
    stores a number in a block (lengths are only interpolated into text), so
    numbers only come out of [JSON.parse] and nothing computes on them. *)
Inductive value : Type :=
| VUndefined
| VNull
| VBool (b : bool)
| VNum (literal : string)
| VStr (s : string)
| VArr (elements : list value)
| VObj (props : list (string * value)).

(** An exception in flight, or a returned value. *)
Inductive result (A : Type) : Type :=
| Ok (a : A)
| Throw (error : string).
Arguments Ok {A} a.
Arguments Throw {A} error.

(** [try { body } catch { handler }] *)
Definition try_catch {A} (body : result A) (handler : result A) : result A :=
  match body with
  | Ok a => Ok a
  | Throw _ => handler
  end.

(** *** Strings *)

Definition dquote : ascii := "034"%char.
Definition backslash : ascii := "092"%char.
Definition newline : string := String "010"%char EmptyString.

Definition is_empty (s : string) : bool :=
  match s with
  | EmptyString => true
  | String _ _ => false
  end.

(** An optional string ([string | undefined]) as a value. *)
Definition of_opt (o : option string) : value :=
  match o with
  | None => VUndefined
  | Some s => VStr s
  end.

(** Truthiness of a [string | undefined]: [undefined] and the empty string
    are falsy. *)
Definition truthy (o : option string) : bool :=
  match o with
  | None => false
  | Some s => negb (is_empty s)
  end.

(** [a && f a] for a [string | undefined]: a falsy [a] is the result. *)
Definition and_then (a : option string) (f : string -> string) : option string :=
  match a with
  | None => None
  | Some s => if is_empty s then Some s else Some (f s)
  end.

(** [a ? f a : d] *)
Definition cond (a : option string) (f : string -> string) (d : string) : string :=
  match a with
  | None => d
  | Some s => if is_empty s then d else f s
  end.

(** [a ?? d] *)
Definition nullish (a : option string) (d : string) : string :=
  match a with
  | None => d
  | Some s => s
  end.

(** [a || d] *)
Definition or_else (a : option string) (d : string) : string :=
  match a with
  | None => d
  | Some s => if is_empty s then d else s
  end.

(** [Array.prototype.join]: an [undefined] element is written as the empty
    string. *)
Fixpoint join (sep : string) (l : list (option string)) : string :=
  match l with
  | [] => EmptyString
  | [x] => nullish x EmptyString
  | x :: rest => nullish x EmptyString +++ sep +++ join sep rest
  end.

(** A number in a template literal: lengths are non-negative integers. *)
Definition string_of_nat (n : nat) : string :=
  NilZero.string_of_uint (Nat.to_uint n).

(** [String.prototype.toUpperCase], on the ASCII letters. *)
Definition upper_char (c : ascii) : ascii :=
  let n := nat_of_ascii c in
  if ((97 <=? n) && (n <=? 122))%nat then ascii_of_nat (n - 32) else c.

Fixpoint toUpperCase (s : string) : string :=
  match s with
  | EmptyString => EmptyString
  | String c rest => String (upper_char c) (toUpperCase rest)
  end.

(** [s.replace(a, b)] for one-character strings [a] and [b]: the first
    occurrence only. *)
Fixpoint replace (a b : ascii) (s : string) : string :=
  match s with
  | EmptyString => EmptyString
  | String c rest =>
      if Ascii.eqb c a then String b rest else String c (replace a b rest)
  end.

(** [String.prototype.trim].  The white space and line terminators of
    ECMAScript, as UTF-8 byte sequences:
    U+0009..U+000D, U+0020; U+00A0 (C2 A0); U+1680 (E1 9A 80);
    U+2000..U+200A, U+2028, U+2029, U+202F (E2 80 80..8A, A8, A9, AF);
    U+205F (E2 81 9F); U+3000 (E3 80 80); U+FEFF (EF BB BF). *)
Definition is_ascii_space (c : ascii) : bool :=
  let n := nat_of_ascii c in
  (((9 <=? n) && (n <=? 13)) || (n =? 32))%nat.

(** The three-byte white-space characters, by their bytes. *)
Definition three_byte_space (a b c : nat) : bool :=
  (((a =? 225) && (b =? 154) && (c =? 128))
   || ((a =? 226) && (b =? 128)
       && (((128 <=? c) && (c <=? 138)) || (c =? 168) || (c =? 169) || (c =? 175)))
   || ((a =? 226) && (b =? 129) && (c =? 159))
   || ((a =? 227) && (b =? 128) && (c =? 128))
   || ((a =? 239) && (b =? 187) && (c =? 191)))%nat.

(** The number of bytes of the white-space character [s] starts with; [0] when
    it starts with none. *)
Definition space_width (s : string) : nat :=
  match s with
  | EmptyString => 0
  | String c rest =>
      if is_ascii_space c then 1
      else
        match rest with
        | EmptyString => 0
        | String d rest' =>
            if ((nat_of_ascii c =? 194) && (nat_of_ascii d =? 160))%nat then 2
            else
              match rest' with
              | EmptyString => 0
              | String e _ =>
                  if three_byte_space (nat_of_ascii c) (nat_of_ascii d)
                                      (nat_of_ascii e)
                  then 3 else 0
              end
        end
  end.

Fixpoint drop (n : nat) (s : string) : string :=
  match n, s with
  | S n', String _ rest => drop n' rest
  | _, _ => s
  end.

(** Every step removes at least one byte, so [length s] steps are enough. *)
Fixpoint trimStart_loop (steps : nat) (s : string) : string :=
  match steps with
  | O => s
  | S steps' =>
      match space_width s with
      | O => s
      | w => trimStart_loop steps' (drop w s)
      end
  end.

Definition trimStart (s : string) : string := trimStart_loop (String.length s) s.

Definition all_space (s : string) : bool := is_empty (trimStart s).

Fixpoint trimEnd (s : string) : string :=
  match s with
  | EmptyString => EmptyString
  | String c rest => if all_space s then EmptyString else String c (trimEnd rest)
  end.

Definition trim (s : string) : string := trimEnd (trimStart s).

(** *** Arrays *)

(** [l.forEach((x, index) => body)], the body acting on the state [st] it
    mutates. *)
Fixpoint forEach_from {A St : Type} (index : nat) (l : list A)
    (body : A -> nat -> St -> St) (st : St) : St :=
  match l with
  | [] => st
  | x :: rest => forEach_from (S index) rest body (body x index st)
  end.

Definition forEach {A St : Type} (l : list A) (body : A -> nat -> St -> St)
    (st : St) : St :=
  forEach_from 0 l body st.

(** [new Set(l).size] for a list of [string | undefined]. *)
Definition same_value (a b : option string) : bool :=
  match a, b with
  | None, None => true
  | Some x, Some y => String.eqb x y
  | _, _ => false
  end.

Fixpoint Set_of (l : list (option string)) (seen : list (option string))
  : list (option string) :=
  match l with
  | [] => seen
  | x :: rest =>
      if existsb (same_value x) seen then Set_of rest seen
      else Set_of rest (seen ++ [x])
  end.

Definition Set_size (l : list (option string)) : nat := length (Set_of l []).

(** *** Objects *)

(** [o.k]: the value of the own property [k], [undefined] when there is none
    (and for a value that has no own properties). *)
Fixpoint lookup (k : string) (props : list (string * value)) : value :=
  match props with
  | [] => VUndefined
  | (k', v) :: rest => if String.eqb k k' then v else lookup k rest
  end.

Definition get (o : value) (k : string) : value :=
  match o with
  | VObj props => lookup k props
  | _ => VUndefined
  end.

(** [Object.keys(o)] *)
Definition keys (o : value) : list string :=
  match o with
  | VObj props => map fst props
  | _ => []
  end.

(** [o.k = v]: an existing property keeps its place, a new one comes last. *)
Fixpoint assign (k : string) (v : value) (props : list (string * value))
  : list (string * value) :=
  match props with
  | [] => [(k, v)]
  | (k', v') :: rest =>
      if String.eqb k k' then (k, v) :: rest else (k', v') :: assign k v rest
  end.

Definition set (o : value) (k : string) (v : value) : value :=
  match o with
  | VObj props => VObj (assign k v props)
  | _ => o
  end.

(** The elements of an array value. *)
Definition elements_of (v : value) : list value :=
  match v with
  | VArr l => l
  | _ => []
  end.

(** The string a value is, when it is one. *)
Definition str_of (v : value) : option string :=
  match v with
  | VStr s => Some s
  | _ => None
  end.

End JS.

Import JS.

(* ================================================================== *)
(** ** [JSON.stringify] and [JSON.parse] *)
(* ================================================================== *)

Module JSON.

(** *** [JSON.stringify] *)

Definition hex_char (n : nat) : ascii :=
  if (n <? 10)%nat then ascii_of_nat (48 + n) else ascii_of_nat (87 + n).

(** QuoteJSONString, one character: the two-character escapes, [\u00xx] for
    the other control characters, and the character itself otherwise (the
    bytes of a character above U+007F are copied). *)
Definition escape_char (c : ascii) : string :=
  let n := nat_of_ascii c in
  if (n =? 8)%nat then String backslash "b"
  else if (n =? 9)%nat then String backslash "t"
  else if (n =? 10)%nat then String backslash "n"
  else if (n =? 12)%nat then String backslash "f"
  else if (n =? 13)%nat then String backslash "r"
  else if (n =? 34)%nat then String backslash (String dquote EmptyString)
  else if (n =? 92)%nat then String backslash (String backslash EmptyString)
  else if (n <? 32)%nat then
    String backslash
      (String "u" (String "0" (String "0"
         (String (hex_char (n / 16)) (String (hex_char (n mod 16)) EmptyString)))))
  else String c EmptyString.

Fixpoint escape (s : string) : string :=
  match s with
  | EmptyString => EmptyString
  | String c rest => escape_char c +++ escape rest
  end.

Definition quote (s : string) : string :=
  String dquote (escape s +++ String dquote EmptyString).

Definition somes {A : Type} (l : list (option A)) : list A :=
  flat_map (fun o => match o with Some a => [a] | None => [] end) l.

(** SerializeJSONProperty: [None] is [undefined].  An [undefined] element of
    an array is written [null]; a property whose value is [undefined] is left
    out. *)
Fixpoint stringify (v : value) : option string :=
  match v with
  | VUndefined => None
  | VNull => Some "null"
  | VBool b => Some (if b then "true" else "false")
  | VNum literal => Some literal
  | VStr s => Some (quote s)
  | VArr l =>
      Some ("[" +++ String.concat ","
                      (map (fun x => match stringify x with
                                     | Some t => t
                                     | None => "null"
                                     end) l)
            +++ "]")
  | VObj props =>
      Some ("{" +++ String.concat ","
                      (somes (map (fun kv => match stringify (snd kv) with
                                             | Some t => Some (quote (fst kv) +++ ":" +++ t)
                                             | None => None
                                             end) props))
            +++ "}")
  end.

(** *** [JSON.parse] *)

Definition is_ws (c : ascii) : bool :=
  let n := nat_of_ascii c in
  ((n =? 32) || (n =? 9) || (n =? 10) || (n =? 13))%nat.

Fixpoint skip_ws (s : string) : string :=
  match s with
  | String c rest => if is_ws c then skip_ws rest else s
  | EmptyString => s
  end.

Definition is_digit (c : ascii) : bool :=
  let n := nat_of_ascii c in ((48 <=? n) && (n <=? 57))%nat.

Definition hex_value (c : ascii) : option N :=
  let n := N_of_ascii c in
  (if (48 <=? n) && (n <=? 57) then Some (n - 48)
   else if (97 <=? n) && (n <=? 102) then Some (n - 87)
   else if (65 <=? n) && (n <=? 70) then Some (n - 55)
   else None)%N.

Definition hex4 (a b c d : ascii) : option N :=
  match hex_value a, hex_value b, hex_value c, hex_value d with
  | Some x, Some y, Some z, Some w => Some (((x * 16 + y) * 16 + z) * 16 + w)%N
  | _, _, _, _ => None
  end.

(** The UTF-8 bytes of a code point; a surrogate that stands alone is written
    with the three-byte pattern as well. *)
Definition utf8 (n : N) : string :=
  (if n <? 128 then String (ascii_of_N n) EmptyString
   else if n <? 2048 then
     String (ascii_of_N (192 + n / 64))
       (String (ascii_of_N (128 + n mod 64)) EmptyString)
   else if n <? 65536 then
     String (ascii_of_N (224 + n / 4096))
       (String (ascii_of_N (128 + (n / 64) mod 64))
          (String (ascii_of_N (128 + n mod 64)) EmptyString))
   else
     String (ascii_of_N (240 + n / 262144))
       (String (ascii_of_N (128 + (n / 4096) mod 64))
          (String (ascii_of_N (128 + (n / 64) mod 64))
             (String (ascii_of_N (128 + n mod 64)) EmptyString))))%N.

Definition is_high_surrogate (n : N) : bool := ((55296 <=? n) && (n <=? 56319))%N.
Definition is_low_surrogate (n : N) : bool := ((56320 <=? n) && (n <=? 57343))%N.

Definition surrogate_pair (hi lo : N) : N :=
  (65536 + (hi - 55296) * 1024 + (lo - 56320))%N.

(** The character a two-character escape stands for. *)
Definition simple_escape (e : ascii) : option ascii :=
  let n := nat_of_ascii e in
  (if n =? 34 then Some dquote
   else if n =? 92 then Some backslash
   else if n =? 47 then Some "/"%char
   else if n =? 98 then Some "008"%char
   else if n =? 102 then Some "012"%char
   else if n =? 110 then Some "010"%char
   else if n =? 114 then Some "013"%char
   else if n =? 116 then Some "009"%char
   else None)%nat.

Definition prepend {A : Type} (pre : string) (r : option (string * A))
  : option (string * A) :=
  match r with
  | Some (t, rest) => Some (pre +++ t, rest)
  | None => None
  end.

(** The characters of a string literal after its opening quote, up to the
    closing quote: the string, and the text after it. *)
Fixpoint parse_chars (s : string) : option (string * string) :=
  match s with
  | EmptyString => None
  | String c rest =>
      if Ascii.eqb c dquote then Some (EmptyString, rest)
      else if Ascii.eqb c backslash then
        match rest with
        | EmptyString => None
        | String e rest1 =>
            match simple_escape e with
            | Some c' => prepend (String c' EmptyString) (parse_chars rest1)
            | None =>
                if Ascii.eqb e "u" then
                  match rest1 with
                  | String h1 (String h2 (String h3 (String h4 rest2))) =>
                      match hex4 h1 h2 h3 h4 with
                      | None => None
                      | Some hi =>
                          let single := prepend (utf8 hi) (parse_chars rest2) in
                          if is_high_surrogate hi then
                            match rest2 with
                            | String b (String u (String l1 (String l2
                                (String l3 (String l4 rest3))))) =>
                                match (if Ascii.eqb b backslash && Ascii.eqb u "u"
                                       then hex4 l1 l2 l3 l4 else None) with
                                | Some lo =>
                                    if is_low_surrogate lo
                                    then prepend (utf8 (surrogate_pair hi lo))
                                                 (parse_chars rest3)
                                    else single
                                | None => single
                                end
                            | _ => single
                            end
                          else single
                      end
                  | _ => None
                  end
                else None
            end
        end
      else if (nat_of_ascii c <? 32)%nat then None
      else prepend (String c EmptyString) (parse_chars rest)
  end.

Fixpoint span_digits (s : string) : string * string :=
  match s with
  | String c rest =>
      if is_digit c
      then let (ds, r) := span_digits rest in (String c ds, r)
      else (EmptyString, s)
  | EmptyString => (EmptyString, s)
  end.

(** A number literal: an optional minus sign; the integer part, [0] or a
    non-zero digit and any digits; an optional fraction, a dot and at least
    one digit; an optional exponent, [e] or [E], an optional sign and at least
    one digit.  The result is the literal's text and the text after it. *)
Definition parse_number (s : string) : option (string * string) :=
  let (sign, s1) :=
    match s with
    | String c r => if Ascii.eqb c "-" then ("-", r) else (EmptyString, s)
    | EmptyString => (EmptyString, s)
    end in
  let int :=
    match s1 with
    | String c r =>
        if Ascii.eqb c "0" then Some ("0", r)
        else if is_digit c
        then let (ds, r') := span_digits r in Some (String c ds, r')
        else None
    | EmptyString => None
    end in
  match int with
  | None => None
  | Some (i, s2) =>
      let frac :=
        match s2 with
        | String c r =>
            if Ascii.eqb c "." then
              let (ds, r') := span_digits r in
              if is_empty ds then None else Some ("." +++ ds, r')
            else Some (EmptyString, s2)
        | EmptyString => Some (EmptyString, s2)
        end in
      match frac with
      | None => None
      | Some (f, s3) =>
          let exp :=
            match s3 with
            | String c r =>
                if Ascii.eqb c "e" || Ascii.eqb c "E" then
                  let (esign, r1) :=
                    match r with
                    | String d r' =>
                        if Ascii.eqb d "+" || Ascii.eqb d "-"
                        then (String d EmptyString, r') else (EmptyString, r)
                    | EmptyString => (EmptyString, r)
                    end in
                  let (ds, r2) := span_digits r1 in
                  if is_empty ds then None
                  else Some (String c esign +++ ds, r2)
                else Some (EmptyString, s3)
            | EmptyString => Some (EmptyString, s3)
            end in
          match exp with
          | None => None
          | Some (e, s4) => Some (sign +++ i +++ f +++ e, s4)
          end
      end
  end.

(** [strip_prefix p s]: what follows [p] in [s]. *)
Fixpoint strip_prefix (p s : string) : option string :=
  match p, s with
  | EmptyString, _ => Some s
  | String a p', String b s' => if Ascii.eqb a b then strip_prefix p' s' else None
  | String _ _, EmptyString => None
  end.

(** A value, the members of an object after its first brace and the elements
    of an array after its first bracket.  Every call hands on a shorter text
    and one unit of fuel less, so [S (length text)] is enough fuel for any
    text.  A repeated key keeps its place and takes the last value. *)
Fixpoint parse_value (fuel : nat) (s : string) {struct fuel}
  : option (value * string) :=
  match fuel with
  | O => None
  | S fuel' =>
      match skip_ws s with
      | EmptyString => None
      | String c rest =>
          if Ascii.eqb c "{" then
            match skip_ws rest with
            | String c2 rest2 =>
                if Ascii.eqb c2 "}" then Some (VObj [], rest2)
                else parse_members fuel' rest []
            | EmptyString => None
            end
          else if Ascii.eqb c "[" then
            match skip_ws rest with
            | String c2 rest2 =>
                if Ascii.eqb c2 "]" then Some (VArr [], rest2)
                else parse_elements fuel' rest []
            | EmptyString => None
            end
          else if Ascii.eqb c dquote then
            match parse_chars rest with
            | Some (t, rest') => Some (VStr t, rest')
            | None => None
            end
          else if Ascii.eqb c "t" then
            option_map (fun r => (VBool true, r)) (strip_prefix "rue" rest)
          else if Ascii.eqb c "f" then
            option_map (fun r => (VBool false, r)) (strip_prefix "alse" rest)
          else if Ascii.eqb c "n" then
            option_map (fun r => (VNull, r)) (strip_prefix "ull" rest)
          else
            match parse_number (String c rest) with
            | Some (literal, rest') => Some (VNum literal, rest')
            | None => None
            end
      end
  end
with parse_members (fuel : nat) (s : string) (acc : list (string * value))
    {struct fuel} : option (value * string) :=
  match fuel with
  | O => None
  | S fuel' =>
      match skip_ws s with
      | String q rest =>
          if Ascii.eqb q dquote then
            match parse_chars rest with
            | Some (k, rest1) =>
                match skip_ws rest1 with
                | String colon rest2 =>
                    if Ascii.eqb colon ":" then
                      match parse_value fuel' rest2 with
                      | Some (v, rest3) =>
                          match skip_ws rest3 with
                          | String d rest4 =>
                              if Ascii.eqb d "," then
                                parse_members fuel' rest4 (assign k v acc)
                              else if Ascii.eqb d "}" then
                                Some (VObj (assign k v acc), rest4)
                              else None
                          | EmptyString => None
                          end
                      | None => None
                      end
                    else None
                | EmptyString => None
                end
            | None => None
            end
          else None
      | EmptyString => None
      end
  end
with parse_elements (fuel : nat) (s : string) (acc : list value)
    {struct fuel} : option (value * string) :=
  match fuel with
  | O => None
  | S fuel' =>
      match parse_value fuel' s with
      | Some (v, rest) =>
          match skip_ws rest with
          | String d rest' =>
              if Ascii.eqb d "," then parse_elements fuel' rest' (acc ++ [v])
              else if Ascii.eqb d "]" then Some (VArr (acc ++ [v]), rest')
              else None
          | EmptyString => None
          end
      | None => None
      end
  end.

(** [JSON.parse(text)]: the value, or a [SyntaxError] thrown. *)
Definition parse (text : string) : result value :=
  match parse_value (S (String.length text)) text with
  | Some (v, rest) =>
      if is_empty (skip_ws rest) then Ok v else Throw "SyntaxError"
  | None => Throw "SyntaxError"
  end.

End JSON.

(* ================================================================== *)
(** ** ui/types.ts *)
(* ================================================================== *)

Module Types.

Record Confirm : Type := {
  confirm_title : string;
  confirm_text : string
}.

(** [style?: 'primary' | 'danger'] is a string at run time. *)
Record Action : Type := {
  action_id : string;
  action_text : string;
  action_style : option string;
  action_confirm : option Confirm
}.

(** [status] is declared as one of four literals; at run time it is whatever
    string the caller's data holds ([getStatusEmoji] takes a [string]). *)
Record Meta : Type := {
  meta_owner : option string;
  meta_date : option string;
  meta_status : option string
}.

Record CardItem : Type := {
  card_id : string;
  card_title : string;
  card_subtitle : option string;
  card_meta : Meta;
  card_content : option string;
  card_actions : option (list Action)
}.

(** [tab] is declared as ['overview' | 'my-updates' | 'admin']; the switch of
    [buildContent] has a default branch for any other string. *)
Record HomeTab : Type := {
  tab : string;
  items : list CardItem
}.

Record HeaderConfig : Type := {
  header_icon : string;
  header_title : string;
  header_subtitle : option string;
  header_actions : option (list Action)
}.

Record EmptyStateConfig : Type := {
  empty_icon : string;
  empty_title : string;
  empty_hint : string;
  empty_cta : Action
}.

Record ToggleConfig : Type := {
  toggle_id : string;
  collapsedView : list value;
  expandedView : list value;
  isExpanded : bool
}.

(** [DESIGN_TOKENS] *)
Module DESIGN_TOKENS.

Module ICONS.
Definition PIN := "📌".
Definition CHECK := "✅".
Definition FOLDER := "🗂️".
Definition COMPASS := "🧭".
Definition SETTINGS := "⚙️".
Definition USER := "👤".
Definition CALENDAR := "📅".
Definition CLOCK := "⏰".
Definition PLUS := "➕".
Definition EDIT := "✏️".
Definition DELETE := "🗑️".
Definition EXPAND := "🔽".
Definition COLLAPSE := "🔼".
End ICONS.

(** [buildTabs] reads this table with a computed key, so it is kept as a
  table beside its entries. *)
Module ACTION_IDS.
Definition TAB_OVERVIEW := "tab_overview".
Definition TAB_MY_UPDATES := "tab_my_updates".
Definition TAB_ADMIN := "tab_admin".
Definition TOGGLE_PREFIX := "toggle_".
Definition CARD_ACTION_PREFIX := "card_action_".
Definition HEADER_ACTION_PREFIX := "header_action_".

Definition table : list (string * value) :=
  [ ("TAB_OVERVIEW", VStr TAB_OVERVIEW);
    ("TAB_MY_UPDATES", VStr TAB_MY_UPDATES);
    ("TAB_ADMIN", VStr TAB_ADMIN);
    ("TOGGLE_PREFIX", VStr TOGGLE_PREFIX);
    ("CARD_ACTION_PREFIX", VStr CARD_ACTION_PREFIX);
    ("HEADER_ACTION_PREFIX", VStr HEADER_ACTION_PREFIX) ].
End ACTION_IDS.

Module BLOCK_IDS.
Definition HOME_HEADER := "home_header".
Definition HOME_TABS := "home_tabs".
Definition HOME_CONTENT := "home_content".
Definition CARD_PREFIX := "card_".
Definition TOGGLE_PREFIX := "toggle_".
End BLOCK_IDS.

End DESIGN_TOKENS.

End Types.

(* ================================================================== *)
(** ** ui/builders.ts: the CardItem family *)
(* ================================================================== *)

Module Builders.

Import Types.
Import DESIGN_TOKENS.

Definition divider : value := VObj [("type", VStr "divider")].

Definition mrkdwn (text : string) : value :=
  VObj [("type", VStr "mrkdwn"); ("text", VStr text)].

Definition plain_text (text : string) : value :=
  VObj [("type", VStr "plain_text"); ("text", VStr text)].

(** [function getStatusEmoji(status?: string): string] *)
Definition getStatusEmoji (status : option string) : string :=
  match status with
  | Some s =>
      if String.eqb s "active" then "🟢"
      else if String.eqb s "paused" then "🟡"
      else if String.eqb s "completed" then "✅"
      else if String.eqb s "pending" then "⏳"
      else "⚪"
  | None => "⚪"
  end.

(** [export function buildEmptyState(config: EmptyStateConfig): Block[]] *)
Definition buildEmptyState (config : EmptyStateConfig) : list value :=
  [ VObj [ ("type", VStr "section");
           ("text", mrkdwn (empty_icon config +++ " *" +++ empty_title config
                            +++ "*" +++ newline +++ empty_hint config)) ];
    VObj [ ("type", VStr "actions");
           ("elements", VArr
              [ VObj [ ("type", VStr "button");
                       ("action_id", VStr (action_id (empty_cta config)));
                       ("text", plain_text (action_text (empty_cta config)));
                       ("style", VStr (or_else (action_style (empty_cta config))
                                               "primary")) ] ]) ] ].

(** [export function buildToggle(config: ToggleConfig): Block[]] *)
Definition buildToggle (config : ToggleConfig) : list value :=
  let toggleIcon := if isExpanded config then ICONS.COLLAPSE else ICONS.EXPAND in
  [ VObj [ ("type", VStr "actions");
           ("block_id", VStr (BLOCK_IDS.TOGGLE_PREFIX +++ toggle_id config));
           ("elements", VArr
              [ VObj [ ("type", VStr "button");
                       ("action_id",
                        VStr (ACTION_IDS.TOGGLE_PREFIX +++ toggle_id config));
                       ("text", plain_text
                          (toggleIcon +++ " "
                           +++ (if isExpanded config then "Collapse" else "Expand")))
                     ] ]) ] ]
  ++ (if isExpanded config then expandedView config else collapsedView config).

(** One button of a card's actions block. *)
Definition card_button (item : CardItem) (action : Action) : value :=
  VObj [ ("type", VStr "button");
         ("action_id", VStr (ACTION_IDS.CARD_ACTION_PREFIX +++ action_id action));
         ("text", plain_text (action_text action));
         ("style", of_opt (action_style action));
         ("value", VStr (card_id item));
         ("confirm",
          match action_confirm action with
          | Some c => VObj [ ("title", plain_text (confirm_title c));
                             ("text", mrkdwn (confirm_text c)) ]
          | None => VUndefined
          end) ].

(** [item.actions && item.actions.length > 0]: an array is truthy, also an
    empty one. *)
Definition has_actions (actions : option (list Action)) : bool :=
  match actions with
  | Some (_ :: _) => true
  | _ => false
  end.

Definition actions_or_nil (actions : option (list Action)) : list Action :=
  match actions with
  | Some l => l
  | None => []
  end.

(** The [metaText] of [buildCard]. *)
Definition metaText (item : CardItem) : string :=
  let statusEmoji := getStatusEmoji (meta_status (card_meta item)) in
  join " • "
    (filter truthy
       [ and_then (meta_owner (card_meta item)) (fun owner => "👤 " +++ owner);
         and_then (meta_date (card_meta item)) (fun date => "📅 " +++ date);
         and_then (meta_status (card_meta item))
                  (fun status => statusEmoji +++ " " +++ status) ]).

(** [export function buildCard(item: CardItem): Block[]] *)
Definition buildCard (item : CardItem) : list value :=
  let blocks :=
    [ VObj [ ("type", VStr "section");
             ("block_id", VStr (BLOCK_IDS.CARD_PREFIX +++ card_id item));
             ("text", mrkdwn
                ("*" +++ card_title item +++ "*"
                 +++ cond (card_subtitle item)
                          (fun subtitle => newline +++ "_" +++ subtitle +++ "_")
                          EmptyString)) ] ] in
  let blocks :=
    if negb (is_empty (metaText item))
    then blocks ++ [ VObj [ ("type", VStr "context");
                            ("elements", VArr [ mrkdwn (metaText item) ]) ] ]
    else blocks in
  let blocks :=
    if has_actions (card_actions item)
    then blocks ++ [ VObj [ ("type", VStr "actions");
                            ("elements",
                             VArr (map (card_button item)
                                       (actions_or_nil (card_actions item)))) ] ]
    else blocks in
  blocks.

(** [export function buildCardList(items: CardItem[]): Block[]]:
    the [forEach] pushes the card, then a divider while
    [index < items.length - 1]. *)
Definition buildCardList (items : list CardItem) : list value :=
  forEach items
    (fun item index blocks =>
       let blocks := blocks ++ buildCard item in
       if (Z.of_nat index <? Z.of_nat (length items) - 1)%Z
       then blocks ++ [divider]
       else blocks)
    [].

(** [export function buildHeader(config: HeaderConfig): Block[]]:
    [blocks[0].accessory = ...] when [config.actions] holds an action. *)
Definition buildHeader (config : HeaderConfig) : list value :=
  let blocks :=
    [ VObj [ ("type", VStr "section");
             ("block_id", VStr BLOCK_IDS.HOME_HEADER);
             ("text", mrkdwn
                (header_icon config +++ " *" +++ header_title config +++ "*"
                 +++ cond (header_subtitle config)
                          (fun subtitle => newline +++ subtitle)
                          EmptyString)) ] ] in
  if has_actions (header_actions config)
  then
    match blocks with
    | first :: rest =>
        set first "accessory"
          (VObj [ ("type", VStr "overflow");
                  ("action_id", VStr "header_actions");
                  ("options",
                   VArr (map (fun action =>
                                VObj [ ("text", plain_text (action_text action));
                                       ("value", VStr (action_id action)) ])
                             (actions_or_nil (header_actions config)))) ])
        :: rest
    | [] => blocks
    end
  else blocks.

(** The [tabs] table of [buildTabs]: id, text, icon. *)
Definition tabs : list (string * string * string) :=
  [ ("overview", "Overview", ICONS.COMPASS);
    ("my-updates", "My Updates", ICONS.USER);
    ("admin", "Admin", ICONS.SETTINGS) ].

(** [`TAB_${tab.id.toUpperCase().replace('-', '_')}`] *)
Definition tab_action_key (id : string) : string :=
  "TAB_" +++ replace "-"%char "_"%char (toUpperCase id).

(** [export function buildTabs(activeTab: HomeTab['tab']): Block[]] *)
Definition buildTabs (activeTab : string) : list value :=
  [ VObj [ ("type", VStr "actions");
           ("block_id", VStr BLOCK_IDS.HOME_TABS);
           ("elements",
            VArr (map (fun '(id, text, icon) =>
                         VObj [ ("type", VStr "button");
                                ("action_id",
                                 lookup (tab_action_key id) ACTION_IDS.table);
                                ("text", plain_text (icon +++ " " +++ text));
                                ("style",
                                 if String.eqb id activeTab
                                 then VStr "primary" else VUndefined);
                                ("value", VStr id) ])
                      tabs)) ] ].

(** The literal [{ id: 'refresh', text: 'Refresh' }] of [buildHome],
    [buildContent] and [buildOverviewContent]. *)
Definition refresh_cta : Action :=
  {| action_id := "refresh"; action_text := "Refresh";
     action_style := None; action_confirm := None |}.

(** [export function buildOverviewContent(items: CardItem[]): Block[]] *)
Definition buildOverviewContent (items : list CardItem) : list value :=
  if (length items =? 0)%nat then
    buildEmptyState
      {| empty_icon := ICONS.CHECK;
         empty_title := "All caught up!";
         empty_hint := "No pending updates from your team";
         empty_cta := refresh_cta |}
  else
    let blocks :=
      [ VObj [ ("type", VStr "section");
               ("text", mrkdwn ("*Recent Updates* ("
                                +++ string_of_nat (length items) +++ ")")) ];
        divider ]
      ++ buildCardList (firstn 5 items) in
    if (5 <? length items)%nat
    then blocks
         ++ [ VObj [ ("type", VStr "section");
                     ("text", mrkdwn ("_... and "
                                      +++ string_of_nat (length items - 5)
                                      +++ " more updates_")) ] ]
    else blocks.

(** [export function buildMyUpdatesContent(items: CardItem[]): Block[]] *)
Definition buildMyUpdatesContent (items : list CardItem) : list value :=
  let myItems :=
    filter (fun item => same_value (meta_owner (card_meta item)) (Some "me"))
           items in
  if (length myItems =? 0)%nat then
    buildEmptyState
      {| empty_icon := ICONS.USER;
         empty_title := "No updates from you";
         empty_hint := "Share your progress with the team";
         empty_cta := {| action_id := "create_update";
                         action_text := "Create Update";
                         action_style := Some "primary";
                         action_confirm := None |} |}
  else
    [ VObj [ ("type", VStr "section");
             ("text", mrkdwn ("*Your Updates* ("
                              +++ string_of_nat (length myItems) +++ ")")) ];
      divider ]
    ++ buildCardList myItems.

(** [export function buildAdminContent(items: CardItem[]): Block[]] *)
Definition buildAdminContent (items : list CardItem) : list value :=
  [ VObj [ ("type", VStr "section"); ("text", mrkdwn "*Admin Panel*") ];
    divider;
    VObj [ ("type", VStr "section");
           ("text", mrkdwn
              ("• *Total Updates:* " +++ string_of_nat (length items)
               +++ newline +++ "• *Active Users:* "
               +++ string_of_nat
                     (Set_size (map (fun i => meta_owner (card_meta i)) items))
               +++ newline +++ "• *Pending Reviews:* "
               +++ string_of_nat
                     (length (filter
                                (fun i => same_value (meta_status (card_meta i))
                                                     (Some "pending"))
                                items)))) ];
    divider;
    VObj [ ("type", VStr "actions");
           ("elements", VArr
              [ VObj [ ("type", VStr "button");
                       ("action_id", VStr "admin_manage_users");
                       ("text", plain_text (ICONS.USER +++ " Manage Users")) ];
                VObj [ ("type", VStr "button");
                       ("action_id", VStr "admin_settings");
                       ("text", plain_text (ICONS.SETTINGS +++ " Settings")) ] ]) ] ].

(** [export function buildContent(config: HomeTab): Block[]] *)
Definition buildContent (config : HomeTab) : list value :=
  if String.eqb (tab config) "overview" then buildOverviewContent (items config)
  else if String.eqb (tab config) "my-updates" then buildMyUpdatesContent (items config)
  else if String.eqb (tab config) "admin" then buildAdminContent (items config)
  else
    buildEmptyState
      {| empty_icon := ICONS.FOLDER;
         empty_title := "No content available";
         empty_hint := "Select a different tab to view content";
         empty_cta := refresh_cta |}.

(** [export function buildHome(config: HomeTab): View] *)
Definition buildHome (config : HomeTab) : value :=
  let blocks :=
    buildHeader
      {| header_icon := ICONS.PIN;
         header_title := "Project Updates";
         header_subtitle := Some "Track team progress and manage updates";
         header_actions := Some [ refresh_cta ] |}
    ++ buildTabs (tab config)
    ++ [ divider ]
    ++ buildContent config in
  VObj [ ("type", VStr "home"); ("blocks", VArr blocks) ].

End Builders.

(* ================================================================== *)
(** ** src/data/models.ts *)
(* ================================================================== *)

Module Models.

Record Project : Type := {
  project_id : string;
  project_name : string;
  project_description : option string
}.

(** The status, priority, likelihood and impact unions are strings at run
    time; the builders only interpolate them. *)
Record Task : Type := {
  task_id : string;
  task_projectId : string;
  task_title : string;
  task_description : option string;
  task_status : string;
  task_priority : string;
  task_owner : string;
  task_dueDate : option string;
  task_lastUpdated : string;
  task_linkedRiskIds : option (list string)
}.

Record Risk : Type := {
  risk_id : string;
  risk_projectId : string;
  risk_title : string;
  risk_description : string;
  risk_likelihood : string;
  risk_impact : string;
  risk_owner : string;
  risk_mitigationPlan : option string;
  risk_status : string;
  risk_relatedTaskIds : option (list string);
  risk_lastUpdated : string
}.

End Models.

(* ================================================================== *)
(** ** src/ui/header.ts *)
(* ================================================================== *)

Module Header.

Record HeaderParams : Type := {
  icon : option string;
  title : string;
  subtitle : option string
}.

(** [export function buildHeader({ icon, title, subtitle })]: one block, not
    a list. *)
Definition buildHeader (params : HeaderParams) : value :=
  VObj [ ("type", VStr "section");
         ("block_id", VStr "hdr");
         ("text", Builders.mrkdwn
            (trim ("*" +++ nullish (icon params) "📘" +++ " " +++ title params
                   +++ "*" +++ newline
                   +++ "_" +++ nullish (subtitle params) EmptyString +++ "_"))) ].

End Header.

(* ================================================================== *)
(** ** src/ui/cards.ts *)
(* ================================================================== *)

Module Cards.

Import Models.

Definition divider : value := Builders.divider.
Definition mrkdwn := Builders.mrkdwn.
Definition plain_text := Builders.plain_text.

(** One entry of an overflow menu. *)
Definition menu_option (text val : string) : value :=
  VObj [ ("text", plain_text text); ("value", VStr val) ].

(** [export function buildTaskCard(t: Task)] *)
Definition buildTaskCard (t : Task) : list value :=
  [ VObj [ ("type", VStr "section");
           ("block_id", VStr ("task_" +++ task_id t));
           ("text", mrkdwn
              ("*🗂️ " +++ task_title t +++ "*  _(" +++ task_status t +++ " • "
               +++ task_priority t +++ ")_" +++ newline
               +++ nullish (task_description t) EmptyString));
           ("accessory",
            VObj [ ("type", VStr "overflow");
                   ("action_id", VStr ("task_menu_" +++ task_id t));
                   ("options", VArr
                      [ menu_option "Open" ("open_" +++ task_id t);
                        menu_option "Edit" ("edit_" +++ task_id t);
                        menu_option "Change status" ("status_" +++ task_id t);
                        menu_option "Archive" ("archive_" +++ task_id t) ]) ]) ];
    VObj [ ("type", VStr "context");
           ("elements", VArr
              [ mrkdwn ("*Owner:* <@" +++ task_owner t +++ ">  •  *Due:* "
                        +++ nullish (task_dueDate t) "—" +++ "  •  *Updated:* "
                        +++ task_lastUpdated t) ]) ];
    divider ].

(** [export function buildRiskCard(r: Risk)] *)
Definition buildRiskCard (r : Risk) : list value :=
  [ VObj [ ("type", VStr "section");
           ("block_id", VStr ("risk_" +++ risk_id r));
           ("text", mrkdwn
              ("*⚠️ " +++ risk_title r +++ "*  _(" +++ risk_likelihood r +++ " × "
               +++ risk_impact r +++ ")_" +++ newline +++ risk_description r));
           ("accessory",
            VObj [ ("type", VStr "overflow");
                   ("action_id", VStr ("risk_menu_" +++ risk_id r));
                   ("options", VArr
                      [ menu_option "Open" ("open_" +++ risk_id r);
                        menu_option "Edit" ("edit_" +++ risk_id r);
                        menu_option "Update status" ("status_" +++ risk_id r);
                        menu_option "Close risk" ("close_" +++ risk_id r) ]) ]) ];
    VObj [ ("type", VStr "context");
           ("elements", VArr
              [ mrkdwn ("*Owner:* <@" +++ risk_owner r +++ ">  •  *Status:* "
                        +++ risk_status r +++ "  •  *Updated:* "
                        +++ risk_lastUpdated r) ]) ];
    divider ].

(** [items.flatMap(buildTaskCard)], [items.flatMap(buildRiskCard)] *)
Definition buildTaskList (items : list Task) : list value :=
  flat_map buildTaskCard items.

Definition buildRiskList (items : list Risk) : list value :=
  flat_map buildRiskCard items.

End Cards.

(* ================================================================== *)
(** ** src/ui/tabs.ts *)
(* ================================================================== *)

Module Tabs.

(** The [tabs] table: text, value. *)
Definition tabs : list (string * string) :=
  [ ("Summary", "summary"); ("Tasks", "tasks"); ("Risks", "risks") ].

(** [export function buildProjectTabs(active: ProjectTab)]; [ProjectTab] is
    a string at run time (the handler casts the value of the clicked
    button). *)
Definition buildProjectTabs (active : string) : value :=
  VObj [ ("type", VStr "actions");
         ("block_id", VStr "tabs");
         ("elements",
          VArr (map (fun '(text, val) =>
                       VObj [ ("type", VStr "button");
                              ("action_id", VStr ("tab_" +++ val));
                              ("text", Builders.plain_text text);
                              ("style",
                               if String.eqb active val
                               then VStr "primary" else VUndefined);
                              ("value", VStr val) ])
                    tabs)) ].

End Tabs.

(* ================================================================== *)
(** ** src/ui/nav.ts *)
(* ================================================================== *)

Module Nav.

Import Models.

(** The block pushed for the project [p]. *)
Definition nav_row (selectedId : option string) (p : Project) : value :=
  VObj [ ("type", VStr "section");
         ("block_id", VStr ("nav_" +++ project_id p));
         ("text", Builders.mrkdwn
            ((if same_value selectedId (Some (project_id p)) then "•" else "◦")
             +++ " *" +++ project_name p +++ "*"));
         ("accessory",
          VObj [ ("type", VStr "button");
                 ("action_id", VStr ("nav_open_" +++ project_id p));
                 ("text", Builders.plain_text
                    (if same_value selectedId (Some (project_id p))
                     then "Open" else "View"));
                 ("value", VStr (project_id p)) ]) ].

(** [export function buildProjectNav(projects: Project[], selectedId?: string)] *)
Definition buildProjectNav (projects : list Project)
    (selectedId : option string) : list value :=
  let blocks :=
    [ VObj [ ("type", VStr "context");
             ("elements", VArr [ Builders.mrkdwn "*Projects*" ]) ] ] in
  let blocks :=
    forEach projects (fun p _ blocks => blocks ++ [ nav_row selectedId p ]) blocks in
  let blocks := blocks ++ [ Builders.divider ] in
  blocks.

End Nav.

(* ================================================================== *)
(** ** src/ui/views.ts *)
(* ================================================================== *)

Module Views.

Import Models.

Record HomeViewParams : Type := {
  projects : list Project;
  selectedProject : option Project;
  activeTab : option string;
  tasks : option (list Task);
  risks : option (list Risk)
}.

(** A destructuring default, [x = d]. *)
Definition default {A : Type} (o : option A) (d : A) : A :=
  match o with
  | Some a => a
  | None => d
  end.

Definition button_accessory (action_id text : string) : value :=
  VObj [ ("type", VStr "button");
         ("action_id", VStr action_id);
         ("text", Builders.plain_text text) ].

(** The [bodyBlocks] of [buildHomeView], after the chain of [if]s; the chain
    has no final [else]. *)
Definition bodyBlocks (selectedProject : option Project) (activeTab : string)
    (tasks : list Task) (risks : list Risk) : list value :=
  match selectedProject with
  | None =>
      [ VObj [ ("type", VStr "section");
               ("block_id", VStr "empty");
               ("text", Builders.mrkdwn
                  ("*🧭 No project selected*" +++ newline
                   +++ "_Select one from the left to view details._"));
               ("accessory", button_accessory "new_project" "New Project") ] ]
  | Some project =>
      if String.eqb activeTab "summary" then
        [ VObj [ ("type", VStr "section");
                 ("text", Builders.mrkdwn
                    ("*Project Summary*" +++ newline
                     +++ nullish (project_description project) "_No description_")) ];
          VObj [ ("type", VStr "context");
                 ("elements", VArr
                    [ Builders.mrkdwn
                        ("*Tasks:* " +++ string_of_nat (length tasks)
                         +++ "  •  *Risks:* " +++ string_of_nat (length risks)) ]) ] ]
      else if String.eqb activeTab "tasks" then
        [ VObj [ ("type", VStr "section");
                 ("text", Builders.mrkdwn "*Tasks*");
                 ("accessory", button_accessory "task_new" "New Task") ];
          Builders.divider ]
        ++ (if negb (length tasks =? 0)%nat then Cards.buildTaskList tasks
            else [ VObj [ ("type", VStr "section");
                          ("text", Builders.mrkdwn
                             ("*No tasks yet*" +++ newline
                              +++ "_Add your first task to get rolling._"));
                          ("accessory", button_accessory "task_new" "Add Task") ] ])
      else if String.eqb activeTab "risks" then
        [ VObj [ ("type", VStr "section");
                 ("text", Builders.mrkdwn "*Risks*");
                 ("accessory", button_accessory "risk_new" "New Risk") ];
          Builders.divider ]
        ++ (if negb (length risks =? 0)%nat then Cards.buildRiskList risks
            else [ VObj [ ("type", VStr "section");
                          ("text", Builders.mrkdwn
                             ("*No risks captured*" +++ newline
                              +++ "_Add the first risk to start mitigation planning._"));
                          ("accessory", button_accessory "risk_new" "Add Risk") ] ])
      else []
  end.

(** The [state] object of [buildHomeView]. *)
Definition state (selectedProject : option Project) (activeTab : string) : value :=
  VObj [ ("selectedProjectId", of_opt (option_map project_id selectedProject));
         ("activeTab", VStr activeTab) ].

(** [export function buildHomeView(params)] *)
Definition buildHomeView (params : HomeViewParams) : value :=
  let projects := projects params in
  let selectedProject := selectedProject params in
  let activeTab := default (activeTab params) "summary" in
  let tasks := default (tasks params) [] in
  let risks := default (risks params) [] in
  let leftNav := Nav.buildProjectNav projects (option_map project_id selectedProject) in
  let header :=
    Header.buildHeader
      {| Header.icon := Some "📘";
         Header.title := default (option_map project_name selectedProject)
                                 "AI Project Hub";
         Header.subtitle :=
           Some (match selectedProject with
                 | Some _ => "Your calm command center"
                 | None => "Choose a project to begin"
                 end) |} in
  let tabBar :=
    match selectedProject with
    | Some _ => Some (Tabs.buildProjectTabs activeTab)
    | None => None
    end in
  VObj [ ("type", VStr "home");
         ("private_metadata", of_opt (JSON.stringify (state selectedProject activeTab)));
         ("blocks",
          VArr (leftNav
                ++ [ header; Builders.divider ]
                ++ (match tabBar with
                    | Some bar => [ bar; Builders.divider ]
                    | None => []
                    end)
                ++ bodyBlocks selectedProject activeTab tasks risks)) ].

End Views.

(* ================================================================== *)
(** ** src/handlers/home.ts *)
(* ================================================================== *)

Module Home.

(** The view of an interaction payload, as far as [getStateFromView] reads
    it: the [private_metadata] string, when the view has one. *)
Record View : Type := {
  private_metadata : option string
}.

(** [function getStateFromView(view?: any)]:
    [try { return view?.private_metadata ? JSON.parse(view.private_metadata) : {}; }
     catch { return {}; }] *)
Definition getStateFromView (view : option View) : result value :=
  try_catch
    (match view with
     | Some v =>
         match private_metadata v with
         | Some text => if negb (is_empty text) then JSON.parse text else Ok (VObj [])
         | None => Ok (VObj [])
         end
     | None => Ok (VObj [])
     end)
    (Ok (VObj [])).

(** The view a published home view comes back as: the platform echoes the
    [private_metadata] string of the document. *)
Definition view_of (document : value) : View :=
  {| private_metadata := str_of (get document "private_metadata") |}.

End Home.

(* ================================================================== *)
(** ** src/data/seed.ts *)
(* ================================================================== *)

Module Seed.

Import Models.

Definition p1 : Project :=
  {| project_id := "p1"; project_name := "AI Project Hub";
     project_description := Some "Slack-native PM hub with Notion-like UI." |}.

Definition p2 : Project :=
  {| project_id := "p2"; project_name := "Website Refresh";
     project_description := Some "New marketing site & docs." |}.

Definition projects : list Project := [ p1; p2 ].

Definition t1 : Task :=
  {| task_id := "t1"; task_projectId := "p1"; task_title := "Home view scaffold";
     task_description := Some "Build header, nav, tabs, and summary.";
     task_status := "In Progress"; task_priority := "High"; task_owner := "U12345";
     task_dueDate := Some "2025-10-15"; task_lastUpdated := "2025-10-10";
     task_linkedRiskIds := None |}.

Definition t2 : Task :=
  {| task_id := "t2"; task_projectId := "p1"; task_title := "Task card component";
     task_description := Some "Reusable builder for task rows/cards.";
     task_status := "To Do"; task_priority := "Medium"; task_owner := "U12345";
     task_dueDate := None; task_lastUpdated := "2025-10-10";
     task_linkedRiskIds := None |}.

Definition r1 : Risk :=
  {| risk_id := "r1"; risk_projectId := "p1"; risk_title := "Slack rate limits";
     risk_description := "Rapid view updates might hit rate limits.";
     risk_likelihood := "Medium"; risk_impact := "High"; risk_owner := "U12345";
     risk_mitigationPlan := Some "Batch updates; debounce actions.";
     risk_status := "Open"; risk_relatedTaskIds := None;
     risk_lastUpdated := "2025-10-10" |}.

Definition t3 : Task :=
  {| task_id := "t3"; task_projectId := "p2"; task_title := "Page inventory";
     task_description := Some "List current pages and target IA.";
     task_status := "Blocked"; task_priority := "High"; task_owner := "U67890";
     task_dueDate := Some "2025-10-20"; task_lastUpdated := "2025-10-09";
     task_linkedRiskIds := None |}.

Definition r2 : Risk :=
  {| risk_id := "r2"; risk_projectId := "p2"; risk_title := "Asset delays";
     risk_description := "Design assets may arrive late.";
     risk_likelihood := "High"; risk_impact := "Medium"; risk_owner := "U67890";
     risk_mitigationPlan := None;
     risk_status := "Open"; risk_relatedTaskIds := None;
     risk_lastUpdated := "2025-10-08" |}.

Definition tasks : list Task := [ t1; t2; t3 ].

Definition risks : list Risk := [ r1; r2 ].

End Seed.

(* ================================================================== *)
(** ** What the properties observe of a block sequence *)
(* ================================================================== *)

Module Obs.

(** The value is the string [s]. *)
Definition is_str (v : value) (s : string) : bool :=
  match v with
  | VStr t => String.eqb t s
  | _ => false
  end.

Definition has_type (t : string) (block : value) : bool :=
  is_str (get block "type") t.



(** The last block of a sequence, [undefined] for the empty one. *)
Definition last_block (blocks : list value) : value := last blocks VUndefined.

(** The groups of blocks of the records, a separator between two consecutive
    groups and none after the last. *)
Fixpoint separated (sep : value) (groups : list (list value)) : list value :=
  match groups with
  | [] => []
  | [g] => g
  | g :: rest => g ++ sep :: separated sep rest
  end.


(** [s] has [needle] somewhere in it. *)
Definition contains (needle s : string) : bool :=
  match String.index 0 needle s with
  | Some _ => true
  | None => false
  end.

(** The text of the context block of a card, when it has one. *)
Definition context_text (blocks : list value) : option string :=
  match filter (has_type "context") blocks with
  | block :: _ =>
      match elements_of (get block "elements") with
      | element :: _ => str_of (get element "text")
      | [] => None
      end
  | [] => None
  end.

(** The text of a section block. *)
Definition section_text (block : value) : option string :=
  str_of (get (get block "text") "text").

(** The buttons of an actions block. *)
Definition buttons (block : value) : list value :=
  elements_of (get block "elements").

Definition styles (block : value) : list value :=
  map (fun button => get button "style") (buttons block).

Definition count_primary (block : value) : nat :=
  length (filter (fun button => is_str (get button "style") "primary") (buttons block)).

(** [delete o.k] *)
Definition without (k : string) (o : value) : value :=
  match o with
  | VObj props => VObj (filter (fun kv => negb (String.eqb (fst kv) k)) props)
  | _ => o
  end.

(** A navigation block without what it displays: the block without its text,
    and its accessory without its label. *)
Definition without_labels (block : value) : value :=
  match without "text" block with
  | VObj props =>
      VObj (map (fun kv =>
                   if String.eqb (fst kv) "accessory"
                   then (fst kv, without "text" (snd kv)) else kv)
                props)
  | other => other
  end.

(** The first block of the navigation. *)
Definition nav_label : value :=
  VObj [ ("type", VStr "context");
         ("elements", VArr [ Builders.mrkdwn "*Projects*" ]) ].

(** The note under a truncated overview: "... and [n] more updates", in
    italics. *)
Definition more_note (n : nat) : value :=
  VObj [ ("type", VStr "section");
         ("text", Builders.mrkdwn
            ("_" +++ ("... and " +++ string_of_nat n +++ " more updates") +++ "_")) ].

(** The heading of the overview. *)
Definition recent_heading (n : nat) : value :=
  VObj [ ("type", VStr "section");
         ("text", Builders.mrkdwn ("*Recent Updates* (" +++ string_of_nat n +++ ")")) ].

(** The empty state of an overview without items. *)
Definition all_caught_up : list value :=
  Builders.buildEmptyState
    {| Types.empty_icon := Types.DESIGN_TOKENS.ICONS.CHECK;
       Types.empty_title := "All caught up!";
       Types.empty_hint := "No pending updates from your team";
       Types.empty_cta := Builders.refresh_cta |}.

(** The empty state of the default branch of [buildContent]. *)
Definition no_content : list value :=
  Builders.buildEmptyState
    {| Types.empty_icon := Types.DESIGN_TOKENS.ICONS.FOLDER;
       Types.empty_title := "No content available";
       Types.empty_hint := "Select a different tab to view content";
       Types.empty_cta := Builders.refresh_cta |}.

(** The style of the button of the tab [val] when [active] is the active
    tab. *)
Definition tab_style (active val : string) : value :=
  if String.eqb val active then VStr "primary" else VUndefined.

(** The closed enumeration of [CardItem.meta.status]. *)
Definition statuses : list string := [ "active"; "paused"; "completed"; "pending" ].

(** The entries of [metaText] for the owner and the date. *)
Definition owner_and_date (item : Types.CardItem) : list (option string) :=
  [ and_then (Types.meta_owner (Types.card_meta item)) (fun owner => "👤 " +++ owner);
    and_then (Types.meta_date (Types.card_meta item)) (fun date => "📅 " +++ date) ].

(** A header input with all the fields a caller may hold,
    [{ icon?, title, subtitle?, actions? }]. *)
Record HeaderInput : Type := {
  input_icon : option string;
  input_title : string;
  input_subtitle : option string;
  input_actions : option (list Types.Action)
}.

(** [buildHeader] of src/ui/header.ts called with such an object: its
    parameter pattern [{ icon, title, subtitle }] takes these three
    properties and no other. *)
Definition header_ts (input : HeaderInput) : value :=
  Header.buildHeader
    {| Header.icon := input_icon input;
       Header.title := input_title input;
       Header.subtitle := input_subtitle input |}.

(** The section block [buildHeader] of ui/builders.ts starts from. *)
Definition header_section (config : Types.HeaderConfig) : value :=
  VObj [ ("type", VStr "section");
         ("block_id", VStr Types.DESIGN_TOKENS.BLOCK_IDS.HOME_HEADER);
         ("text", Builders.mrkdwn
            (Types.header_icon config +++ " *" +++ Types.header_title config +++ "*"
             +++ cond (Types.header_subtitle config)
                      (fun subtitle => newline +++ subtitle) EmptyString)) ].

(** The overflow accessory of a header for the actions [actions]: one
    (text, value) option per action, the value being the action's id. *)
Definition overflow_menu (actions : list Types.Action) : value :=
  VObj [ ("type", VStr "overflow");
         ("action_id", VStr "header_actions");
         ("options",
          VArr (map (fun action =>
                       VObj [ ("text", Builders.plain_text (Types.action_text action));
                              ("value", VStr (Types.action_id action)) ])
                    actions)) ].

(** The text of the members of an object whose values are strings. *)
Fixpoint members (l : list (string * string)) : string :=
  match l with
  | [] => EmptyString
  | [ (k, v) ] => JSON.quote k +++ ":" +++ JSON.quote v
  | (k, v) :: rest => JSON.quote k +++ ":" +++ JSON.quote v +++ "," +++ members rest
  end.

(** A view whose token is missing, empty or not JSON. *)
Definition unusable_token (view : option Home.View) : Prop :=
  match view with
  | None => True
  | Some v =>
      match Home.private_metadata v with
      | None => True
      | Some text =>
          text = EmptyString \/ exists error, JSON.parse text = Throw error
      end
  end.

(** A state object, [{selectedProjectId?, activeTab?}]. *)
Definition state_object (selectedProjectId activeTab : option string) : value :=
  VObj [ ("selectedProjectId", of_opt selectedProjectId);
         ("activeTab", of_opt activeTab) ].

(** The view that carries the token of a state object. *)
Definition view_with_state (state : value) : Home.View :=
  {| Home.private_metadata := JSON.stringify state |}.

(** The properties of an object that [JSON.stringify] writes. *)
Definition defined (o : value) : value :=
  match o with
  | VObj props =>
      VObj (filter (fun kv => match snd kv with VUndefined => false | _ => true end)
                   props)
  | _ => o
  end.

End Obs.

Import Obs.

(* ================================================================== *)
(** ** Inputs the properties are tried on *)
(* ================================================================== *)

Module Samples.

Import Types.

Definition no_meta : Meta :=
  {| meta_owner := None; meta_date := None; meta_status := None |}.

(** The minimal card of ui/__tests__/builders.test.ts. *)
Definition minimal_card : CardItem :=
  {| card_id := "test-2"; card_title := "Minimal Update"; card_subtitle := None;
     card_meta := no_meta; card_content := None; card_actions := None |}.

(** A card with an owner and no status. *)
Definition owner_only_card : CardItem :=
  {| card_id := "update-1"; card_title := "API Integration"; card_subtitle := None;
     card_meta := {| meta_owner := Some "Sarah"; meta_date := None;
                     meta_status := None |};
     card_content := None; card_actions := None |}.

(** A card whose status is none of the four. *)
Definition archived_card : CardItem :=
  {| card_id := "update-2"; card_title := "Old Update"; card_subtitle := None;
     card_meta := {| meta_owner := Some "Sarah"; meta_date := None;
                     meta_status := Some "archived" |};
     card_content := None; card_actions := None |}.

(** A card whose status is one of the four. *)
Definition active_card : CardItem :=
  {| card_id := "update-3"; card_title := "Live Update"; card_subtitle := None;
     card_meta := {| meta_owner := Some "Sarah"; meta_date := None;
                     meta_status := Some "active" |};
     card_content := None; card_actions := None |}.

Definition numbered_card (n : string) : CardItem :=
  {| card_id := n; card_title := "Update " +++ n; card_subtitle := None;
     card_meta := no_meta; card_content := None; card_actions := None |}.

Definition seven_cards : list CardItem :=
  map numbered_card [ "1"; "2"; "3"; "4"; "5"; "6"; "7" ].

Definition three_cards : list CardItem :=
  map numbered_card [ "1"; "2"; "3" ].

(** A header of the Task/Risk family with a title only. *)
Definition title_only : Header.HeaderParams :=
  {| Header.icon := None; Header.title := "Roadmap"; Header.subtitle := None |}.

Definition full_header : Header.HeaderParams :=
  {| Header.icon := None; Header.title := "Roadmap";
     Header.subtitle := Some "Your calm command center" |}.

Definition refresh_header : HeaderConfig :=
  {| header_icon := DESIGN_TOKENS.ICONS.PIN; header_title := "Project Updates";
     header_subtitle := None;
     header_actions := Some [ Builders.refresh_cta ] |}.

(** A header input that has an action. *)
Definition header_with_action : HeaderInput :=
  {| input_icon := None; input_title := "Roadmap";
     input_subtitle := Some "Your calm command center";
     input_actions := Some [ Builders.refresh_cta ] |}.

(** A tab value outside both enumerations. *)
Definition settings_tab : HomeTab := {| tab := "settings"; items := [] |}.

Definition settings_view : Views.HomeViewParams :=
  {| Views.projects := Seed.projects;
     Views.selectedProject := Some Seed.p1;
     Views.activeTab := Some "settings";
     Views.tasks := Some [ Seed.t1; Seed.t2 ];
     Views.risks := Some [ Seed.r1 ] |}.

(** A token that is not JSON. *)
Definition broken_view : Home.View :=
  {| Home.private_metadata := Some "{selectedProjectId" |}.

End Samples.

(* ================================================================== *)
(** ** More of the runtime, for the handlers *)
(* ================================================================== *)

Module Runtime.

(** [v == null]: [null] or [undefined]. *)
Definition is_nullish (v : value) : bool :=
  match v with
  | VUndefined | VNull => true
  | _ => false
  end.

(** [o.k]: a [TypeError] for [null] and [undefined], the property otherwise. *)
Definition member (o : value) (k : string) : result value :=
  if is_nullish o then Throw "TypeError" else Ok (get o k).

Definition bind {A B : Type} (r : result A) (k : A -> result B) : result B :=
  match r with
  | Ok a => k a
  | Throw e => Throw e
  end.

(** [/^p/.test(s)] is [String.prefix p s]. *)
Definition starts_with (p s : string) : bool := String.prefix p s.

(** [s.includes(needle)] *)
Fixpoint includes (needle s : string) : bool :=
  String.prefix needle s
  || match s with
     | String _ rest => includes needle rest
     | EmptyString => false
     end.

(** [s.replace(pattern, replacement)] for a string pattern and a replacement
    without [$]: the first occurrence only. *)
Fixpoint replaceString (pattern replacement s : string) : string :=
  match JSON.strip_prefix pattern s with
  | Some rest => replacement +++ rest
  | None =>
      match s with
      | String c rest => String c (replaceString pattern replacement rest)
      | EmptyString => EmptyString
      end
  end.

End Runtime.

Import Runtime.

Notation "x <- a ;; b" := (Runtime.bind a (fun x => b))
  (at level 61, a at next level, right associativity).

(* ================================================================== *)
(** ** src/handlers/home.ts: the store functions and the handlers *)
(* ================================================================== *)

Module Handlers.

Import Models.

(** The handlers read the arrays of src/data/seed.ts; here they take the
    arrays as arguments, and [Registered] below hands them the seed. *)
Section Store.

Variable projects : list Project.
Variable tasks : list Task.
Variable risks : list Risk.

(** [projects.find(p => p.id === id)] *)
Definition getProjectById (id : value) : option Project :=
  find (fun p => is_str id (project_id p)) projects.

(** [tasks.filter(t => t.projectId === projectId)] *)
Definition getTasks (projectId : value) : list Task :=
  filter (fun t => is_str projectId (task_projectId t)) tasks.

(** [risks.filter(r => r.projectId === projectId)] *)
Definition getRisks (projectId : value) : list Risk :=
  filter (fun r => is_str projectId (risk_projectId r)) risks.

(** [projects[0]] *)
Definition first_project : option Project := nth_error projects 0.

(** [projects[0].id]: a [TypeError] when there is no project. *)
Definition first_project_id : result value :=
  match first_project with
  | Some p => Ok (VStr (project_id p))
  | None => Throw "TypeError"
  end.

(** [app.event("app_home_opened", ...)]: the view it publishes. *)
Definition home_opened_view : result value :=
  let defaultProject := first_project in
  id <- first_project_id ;;
  Ok (Views.buildHomeView
        {| Views.projects := projects;
           Views.selectedProject := defaultProject;
           Views.activeTab := Some "summary";
           Views.tasks := Some (getTasks id);
           Views.risks := Some (getRisks id) |}).

(** [app.action(/^nav_open_/, ...)]: the view it publishes, after [ack()],
    for the value of the clicked button. *)
Definition nav_open_view (action_value : value) : value :=
  let projectId := action_value in
  let selected := getProjectById projectId in
  Views.buildHomeView
    {| Views.projects := projects;
       Views.selectedProject := selected;
       Views.activeTab := Some "summary";
       Views.tasks := Some (getTasks projectId);
       Views.risks := Some (getRisks projectId) |}.

(** [app.action(/^tab_/, ...)]: the view it publishes, after [ack()], for the
    value of the clicked button and the view the click came from;
    [prev.selectedProjectId ?? projects[0].id] reads [projects[0].id] only
    when the stored id is [null] or [undefined]. *)
Definition tab_view (action_value : option string) (view : option Home.View)
  : result value :=
  prev <- Home.getStateFromView view ;;
  stored <- member prev "selectedProjectId" ;;
  projectId <- (if is_nullish stored then first_project_id else Ok stored) ;;
  let selected :=
    match getProjectById projectId with
    | Some p => Some p
    | None => first_project
    end in
  Ok (Views.buildHomeView
        {| Views.projects := projects;
           Views.selectedProject := selected;
           Views.activeTab := action_value;
           Views.tasks := Some (getTasks projectId);
           Views.risks := Some (getRisks projectId) |}).

End Store.

(** The handlers as [registerHomeHandlers] registers them, on the seed. *)
Module Registered.
Definition home_opened_view := home_opened_view Seed.projects Seed.tasks Seed.risks.
Definition nav_open_view := nav_open_view Seed.projects Seed.tasks Seed.risks.
Definition tab_view := tab_view Seed.projects Seed.tasks Seed.risks.
End Registered.

End Handlers.

(* ================================================================== *)
(** ** examples/usage-example.ts: what the action handlers read *)
(* ================================================================== *)

Module Example.

(** The [/^card_action_/] handler, after its guards: the line it logs for the
    [action_id] and the [value] of the clicked button. *)
Definition card_action_log (actionId updateId : string) : option string :=
  if includes "view" actionId then Some ("Viewing update: " +++ updateId)
  else if includes "edit" actionId then Some ("Editing update: " +++ updateId)
  else None.

(** The [/^toggle_/] handler: [action.action_id.replace('toggle_', '')]. *)
Definition toggleId (action_id : string) : string :=
  replaceString "toggle_" EmptyString action_id.

End Example.

(* ================================================================== *)
(** ** What the further properties observe *)
(* ================================================================== *)

Module Layout.

Import Models.

(** The [block_id]s of a block sequence, in order. *)
Definition block_ids (blocks : list value) : list string :=
  flat_map (fun block => match get block "block_id" with
                         | VStr id => [ id ]
                         | _ => []
                         end) blocks.

(** The blocks of a document. *)
Definition blocks_of (document : value) : list value :=
  elements_of (get document "blocks").

(** The button of a section block. *)
Definition accessory (block : value) : value := get block "accessory".

Definition action_id_of (element : value) : option string :=
  str_of (get element "action_id").

Definition value_of (element : value) : option string :=
  str_of (get element "value").

(** The label of a button. *)
Definition label_of (element : value) : option string :=
  str_of (get (get element "text") "text").

(** A navigation row shown as selected: its button reads "Open". *)
Definition shown_selected (block : value) : bool :=
  is_str (get (get (accessory block) "text") "text") "Open".

(** The project has the id [selectedId]. *)
Definition is_selected (selectedId : option string) (p : Project) : bool :=
  same_value selectedId (Some (project_id p)).

(** The items [buildMyUpdatesContent] keeps. *)
Definition mine (item : Types.CardItem) : bool :=
  same_value (Types.meta_owner (Types.card_meta item)) (Some "me").

Definition is_pending (item : Types.CardItem) : bool :=
  same_value (Types.meta_status (Types.card_meta item)) (Some "pending").

(** An item has something to show in its context block. *)
Definition has_meta (item : Types.CardItem) : bool :=
  truthy (Types.meta_owner (Types.card_meta item))
  || truthy (Types.meta_date (Types.card_meta item))
  || truthy (Types.meta_status (Types.card_meta item)).

(** The number of blocks of a card. *)
Definition card_size (item : Types.CardItem) : nat :=
  1 + (if has_meta item then 1 else 0)
    + (if Builders.has_actions (Types.card_actions item) then 1 else 0).

(** The text of the statistics block of the admin tab. *)
Definition statistics_text (total users pending : nat) : string :=
  "• *Total Updates:* " +++ string_of_nat total
  +++ newline +++ "• *Active Users:* " +++ string_of_nat users
  +++ newline +++ "• *Pending Reviews:* " +++ string_of_nat pending.

(** The heading of the my-updates tab. *)
Definition your_heading (n : nat) : value :=
  VObj [ ("type", VStr "section");
         ("text", Builders.mrkdwn ("*Your Updates* (" +++ string_of_nat n +++ ")")) ].

(** The empty state of the my-updates tab. *)
Definition no_updates_from_you : list value :=
  Builders.buildEmptyState
    {| Types.empty_icon := Types.DESIGN_TOKENS.ICONS.USER;
       Types.empty_title := "No updates from you";
       Types.empty_hint := "Share your progress with the team";
       Types.empty_cta := {| Types.action_id := "create_update";
                             Types.action_text := "Create Update";
                             Types.action_style := Some "primary";
                             Types.action_confirm := None |} |}.

(** The header block of every [buildHomeView] document. *)
Definition home_header (selectedProject : option Project) : value :=
  Header.buildHeader
    {| Header.icon := Some "📘";
       Header.title := Views.default (option_map project_name selectedProject)
                                     "AI Project Hub";
       Header.subtitle :=
         Some (match selectedProject with
               | Some _ => "Your calm command center"
               | None => "Choose a project to begin"
               end) |}.

(** The tab bar and its divider, when a project is selected. *)
Definition tab_bar (selectedProject : option Project) (activeTab : string)
  : list value :=
  match selectedProject with
  | Some _ => [ Tabs.buildProjectTabs activeTab; Builders.divider ]
  | None => []
  end.

(** The block ids of the body of a [buildHomeView] document. *)
Definition body_ids (selectedProject : option Project) (activeTab : string)
    (tasks : list Task) (risks : list Risk) : list string :=
  match selectedProject with
  | None => [ "empty" ]
  | Some _ =>
      if String.eqb activeTab "tasks"
      then map (fun t => "task_" +++ task_id t) tasks
      else if String.eqb activeTab "risks"
           then map (fun r => "risk_" +++ risk_id r) risks
      else []
  end.

(** The section shown when no project is selected. *)
Definition no_project_selected : value :=
  VObj [ ("type", VStr "section");
         ("block_id", VStr "empty");
         ("text", Builders.mrkdwn
            ("*🧭 No project selected*" +++ newline
             +++ "_Select one from the left to view details._"));
         ("accessory", Views.button_accessory "new_project" "New Project") ].

(** The view parameters the handlers build. *)
Definition handler_params (projects : list Project) (tasks : list Task)
    (risks : list Risk) (selected : option Project) (activeTab : option string)
    (projectId : value) : Views.HomeViewParams :=
  {| Views.projects := projects;
     Views.selectedProject := selected;
     Views.activeTab := activeTab;
     Views.tasks := Some (Handlers.getTasks tasks projectId);
     Views.risks := Some (Handlers.getRisks risks projectId) |}.

(** The cards the content of a home shows: the first five items on the
    overview, the items of "me" on my-updates, none on the other tabs. *)
Definition shown_cards (config : Types.HomeTab) : list Types.CardItem :=
  if String.eqb (Types.tab config) "overview" then firstn 5 (Types.items config)
  else if String.eqb (Types.tab config) "my-updates"
       then filter mine (Types.items config)
  else [].

(** The line the card action handler logs for an action of the id [id] on the
    card of the id [card]. *)
Definition logged_for (id card : string) : option string :=
  if includes "view" id then Some ("Viewing update: " +++ card)
  else if includes "edit" id then Some ("Editing update: " +++ card)
  else None.

(** Equality of [string | undefined] values is decidable. *)
Definition owner_eq_dec (a b : option string) : {a = b} + {a <> b}.
Proof.
  decide equality. apply string_dec.
Defined.

End Layout.

Import Layout.

(* ================================================================== *)
(** ** Inputs the further properties are tried on *)
(* ================================================================== *)

Module Trials.

Import Types.

(** The complete card of ui/__tests__/builders.test.ts. *)
Definition complete_card : CardItem :=
  {| card_id := "test-1"; card_title := "Test Update";
     card_subtitle := Some "Test subtitle";
     card_meta := {| meta_owner := Some "John Doe"; meta_date := Some "2025-09-22";
                     meta_status := Some "active" |};
     card_content := None;
     card_actions :=
       Some [ {| action_id := "view"; action_text := "View Details";
                 action_style := None; action_confirm := None |};
              {| action_id := "edit"; action_text := "Edit";
                 action_style := Some "primary"; action_confirm := None |} ] |}.

(** A card of the user "me". *)
Definition my_card : CardItem :=
  {| card_id := "mine-1"; card_title := "My Update"; card_subtitle := None;
     card_meta := {| meta_owner := Some "me"; meta_date := None;
                     meta_status := Some "pending" |};
     card_content := None; card_actions := None |}.

(** The collapsed toggle of ui/__tests__/builders.test.ts. *)
Definition collapsed_toggle : ToggleConfig :=
  {| toggle_id := "test-toggle";
     collapsedView :=
       [ VObj [ ("type", VStr "section");
                ("text", Builders.mrkdwn "Collapsed content") ] ];
     expandedView :=
       [ VObj [ ("type", VStr "section");
                ("text", Builders.mrkdwn "Expanded content") ];
         VObj [ ("type", VStr "section");
                ("text", Builders.mrkdwn "More details") ] ];
     isExpanded := false |}.

(** The home of the overview tab with the complete card and the card of
    "me". *)
Definition overview_home : HomeTab :=
  {| tab := "overview"; items := [ complete_card; my_card ] |}.

(** The parameters of the tasks tab of the first seed project. *)
Definition tasks_of_p1 : Views.HomeViewParams :=
  {| Views.projects := Seed.projects;
     Views.selectedProject := Some Seed.p1;
     Views.activeTab := Some "tasks";
     Views.tasks := Some [ Seed.t1; Seed.t2 ];
     Views.risks := Some [ Seed.r1 ] |}.

(** The parameters of a home view without a selected project. *)
Definition nothing_selected : Views.HomeViewParams :=
  {| Views.projects := Seed.projects;
     Views.selectedProject := None;
     Views.activeTab := Some "risks";
     Views.tasks := Some Seed.tasks;
     Views.risks := None |}.

(** A view whose token is the JSON text [null]. *)
Definition null_view : Home.View :=
  {| Home.private_metadata := Some "null" |}.

End Trials.

(** Case analysis on every [match] of a hypothesis. *)
Ltac parse_cases H :=
  repeat match type of H with
         | context [match ?x with _ => _ end] => destruct x eqn:?
         end;
  try discriminate H.

(* ================================================================== *)
(** ** Lemmas on the runtime *)
(* ================================================================== *)

Lemma append_assoc (a b c : string) : (a +++ b) +++ c = a +++ (b +++ c).
Proof.
  induction a as [|x a IH]; simpl; [reflexivity | now rewrite IH].
Qed.

Lemma append_empty_r (a : string) : a +++ EmptyString = a.
Proof.
  induction a as [|x a IH]; simpl; [reflexivity | now rewrite IH].
Qed.

(** A [forEach] that only pushes one block per element is a [map]. *)
Lemma forEach_from_push {A : Type} (f : A -> value) (l : list A) :
  forall index acc,
    forEach_from index l (fun x _ blocks => blocks ++ [f x]) acc = acc ++ map f l.
Proof.
  induction l as [|x l IH]; intros index acc; simpl.
  - now rewrite app_nil_r.
  - rewrite IH, <- app_assoc. reflexivity.
Qed.

(* ================================================================== *)
(** ** The model on texts and inputs of the repository *)
(* ================================================================== *)

Example parse_array :
  JSON.parse " [1, [true, null], -2.5e3 ] "
  = Ok (VArr [ VNum "1"; VArr [ VBool true; VNull ]; VNum "-2.5e3" ]).
Proof. reflexivity. Qed.

Example parse_rejects :
  JSON.parse "[1,]" = Throw "SyntaxError" /\
  JSON.parse "01" = Throw "SyntaxError" /\
  JSON.parse "{a:1}" = Throw "SyntaxError" /\
  JSON.parse "[1] x" = Throw "SyntaxError" /\
  JSON.parse EmptyString = Throw "SyntaxError".
Proof. repeat split; reflexivity. Qed.

(** A repeated key keeps its place and takes the last value. *)
Example parse_repeated_key :
  JSON.parse ("{" +++ JSON.quote "a" +++ ": 1, " +++ JSON.quote "b" +++ ": [], "
              +++ JSON.quote "a" +++ ": {} }")
  = Ok (VObj [ ("a", VObj []); ("b", VArr []) ]).
Proof. reflexivity. Qed.

Example parse_escapes :
  JSON.parse (String dquote ("\u00e9\ud83d\ude00\n\/" +++ String dquote EmptyString))
  = Ok (VStr ("é😀" +++ newline +++ "/")).
Proof. reflexivity. Qed.

Example stringify_escapes :
  JSON.stringify (VArr [ VStr ("a" +++ newline +++ String dquote "\");
                         VUndefined;
                         VObj [ ("k", VUndefined); ("é", VNull) ] ])
  = Some ("[" +++ String dquote ("a\n\" +++ String dquote ("\\" +++ String dquote
            (",null,{" +++ String dquote ("é" +++ String dquote ":null}]"))))).
Proof. reflexivity. Qed.

Example trim_examples :
  trim ("  a b " +++ newline) = "a b" /\
  trim "　 x　" = "x" /\
  trim "   " = EmptyString /\
  trim "*x*" = "*x*".
Proof. repeat split; reflexivity. Qed.

(** The admin scenario of ui/__tests__/builders.test.ts: two items, two
    owners, one pending. *)
Example admin_statistics :
  section_text
    (nth 2 (Builders.buildAdminContent
              [ {| Types.card_id := "1"; Types.card_title := "Test";
                   Types.card_subtitle := None;
                   Types.card_meta := {| Types.meta_owner := Some "User1";
                                         Types.meta_date := None;
                                         Types.meta_status := Some "active" |};
                   Types.card_content := None; Types.card_actions := None |};
                {| Types.card_id := "2"; Types.card_title := "Test2";
                   Types.card_subtitle := None;
                   Types.card_meta := {| Types.meta_owner := Some "User2";
                                         Types.meta_date := None;
                                         Types.meta_status := Some "pending" |};
                   Types.card_content := None; Types.card_actions := None |} ])
         VUndefined)
  = Some ("• *Total Updates:* 2" +++ newline +++ "• *Active Users:* 2" +++ newline
          +++ "• *Pending Reviews:* 1").
Proof. reflexivity. Qed.

(** The summary tab of the first seed project without tasks and risks. *)
Example summary_counts :
  context_text
    (Views.bodyBlocks (Some Seed.p1) "summary" [] [])
  = Some "*Tasks:* 0  •  *Risks:* 0".
Proof. reflexivity. Qed.

(* ================================================================== *)
(** ** Divider placement in the list composers *)
(* ================================================================== *)

Section CardList.

Import Types.

(** The loop of [buildCardList], from any index: the cards pushed so far,
    then the remaining cards with a divider between two of them. *)
Lemma buildCardList_loop (n : nat) (items : list CardItem) :
  forall index acc,
    index + length items = n ->
    forEach_from index items
      (fun item index blocks =>
         let blocks := blocks ++ Builders.buildCard item in
         if (Z.of_nat index <? Z.of_nat n - 1)%Z
         then blocks ++ [Builders.divider] else blocks)
      acc
    = acc ++ separated Builders.divider (map Builders.buildCard items).
Proof.
  induction items as [|item rest IH]; intros index acc Hn; simpl.
  - now rewrite app_nil_r.
  - destruct rest as [|next rest'].
    + simpl in *.
      replace (Z.of_nat index <? Z.of_nat n - 1)%Z with false
        by (symmetry; apply Z.ltb_ge; lia).
      reflexivity.
    + replace (Z.of_nat index <? Z.of_nat n - 1)%Z with true
        by (symmetry; apply Z.ltb_lt; simpl in Hn; lia).
      rewrite IH by (simpl in *; lia).
      rewrite <- !app_assoc. reflexivity.
Qed.

Lemma buildCardList_separated (items : list CardItem) :
  Builders.buildCardList items
  = separated Builders.divider (map Builders.buildCard items).
Proof.
  unfold Builders.buildCardList, forEach.
  now rewrite (buildCardList_loop (length items)).
Qed.




Lemma last_block_app (a b : list value) :
  b <> [] -> last_block (a ++ b) = last_block b.
Proof.
  unfold last_block. intros Hb.
  induction a as [|x a IH]; simpl; [reflexivity|].
  destruct (a ++ b) eqn:E; [|exact IH].
  apply app_eq_nil in E. tauto.
Qed.





End CardList.

Section TaskRiskLists.

Import Models.





End TaskRiskLists.



(* ================================================================== *)
(** ** Navigation *)
(* ================================================================== *)

Section Navigation.

Import Models.

Lemma buildProjectNav_rows (projects : list Project) (selectedId : option string) :
  Nav.buildProjectNav projects selectedId
  = nav_label :: map (Nav.nav_row selectedId) projects ++ [ Builders.divider ].
Proof.
  unfold Nav.buildProjectNav, forEach.
  rewrite forEach_from_push. reflexivity.
Qed.

(** The two rows of a project under two selections, seen through [observe],
    when [observe] does not look at what a row displays. *)
Lemma nav_rows_agree {B : Type} (observe : value -> B) (projects : list Project)
    (sel1 sel2 : option string) :
  (forall p, observe (Nav.nav_row sel1 p) = observe (Nav.nav_row sel2 p)) ->
  map observe (Nav.buildProjectNav projects sel1)
  = map observe (Nav.buildProjectNav projects sel2).
Proof.
  intros H. rewrite !buildProjectNav_rows. simpl. f_equal.
  rewrite !map_app, !map_map. f_equal. apply map_ext. exact H.
Qed.

End Navigation.

(** C9: whatever the selection, [buildProjectNav] gives the Projects context
    block, one section row per project in input order and a trailing divider;
    under two selections the outputs have the same length and, block by
    block, the same type, block_id, action_id and button value: they are equal
    once the block text and the button label are taken away.  A row is the
    section with the block id "nav_" and the project's id, the text made of a
    glyph, a space and the project's name in bold, and the button with the
    action id "nav_open_" and the project's id, a label and the project's id
    as value; the glyph is "•" and the label "Open" for the project whose id
    is the selected id, "◦" and "View" for the others.  So, block by block,
    the outputs under two selections are equal or are the row of the same
    project with two glyphs and two labels. *)
Theorem nav_selection_is_presentational
    (projects : list Models.Project) (sel1 sel2 : option string) :
  let selected := fun (sel : option string) (p : Models.Project) =>
    match sel with
    | Some id => String.eqb id (Models.project_id p)
    | None => false
    end in
  let row := fun (glyph label : string) (p : Models.Project) =>
    VObj [ ("type", VStr "section");
           ("block_id", VStr ("nav_" +++ Models.project_id p));
           ("text",
            VObj [ ("type", VStr "mrkdwn");
                   ("text", VStr (glyph +++ " *" +++ Models.project_name p
                                  +++ "*")) ]);
           ("accessory",
            VObj [ ("type", VStr "button");
                   ("action_id", VStr ("nav_open_" +++ Models.project_id p));
                   ("text", VObj [ ("type", VStr "plain_text");
                                   ("text", VStr label) ]);
                   ("value", VStr (Models.project_id p)) ]) ] in
  Nav.buildProjectNav projects sel1
  = nav_label :: map (Nav.nav_row sel1) projects ++ [ Builders.divider ] /\
  length (Nav.buildProjectNav projects sel1) = length projects + 2 /\
  length (Nav.buildProjectNav projects sel1)
  = length (Nav.buildProjectNav projects sel2) /\
  map (fun block => get block "type") (Nav.buildProjectNav projects sel1)
  = map (fun block => get block "type") (Nav.buildProjectNav projects sel2) /\
  map (fun block => get block "block_id") (Nav.buildProjectNav projects sel1)
  = map (fun block => get block "block_id") (Nav.buildProjectNav projects sel2) /\
  map (fun block => get (get block "accessory") "action_id")
      (Nav.buildProjectNav projects sel1)
  = map (fun block => get (get block "accessory") "action_id")
        (Nav.buildProjectNav projects sel2) /\
  map (fun block => get (get block "accessory") "value")
      (Nav.buildProjectNav projects sel1)
  = map (fun block => get (get block "accessory") "value")
        (Nav.buildProjectNav projects sel2) /\
  map without_labels (Nav.buildProjectNav projects sel1)
  = map without_labels (Nav.buildProjectNav projects sel2) /\
  (forall sel,
     Nav.buildProjectNav projects sel
     = VObj [ ("type", VStr "context");
              ("elements",
               VArr [ VObj [ ("type", VStr "mrkdwn");
                             ("text", VStr "*Projects*") ] ]) ]
       :: map (fun p => if selected sel p
                        then row "•" "Open" p else row "◦" "View" p)
              projects
       ++ [ VObj [ ("type", VStr "divider") ] ]) /\
  Forall2 (fun block1 block2 =>
             block1 = block2 \/
             exists p glyph1 label1 glyph2 label2,
               In glyph1 [ "•"; "◦" ] /\ In glyph2 [ "•"; "◦" ] /\
               In label1 [ "Open"; "View" ] /\ In label2 [ "Open"; "View" ] /\
               block1 = row glyph1 label1 p /\ block2 = row glyph2 label2 p)
          (Nav.buildProjectNav projects sel1)
          (Nav.buildProjectNav projects sel2).
Proof.
  intros selected row.
  assert (Hrow : forall sel p,
            Nav.nav_row sel p
            = if selected sel p then row "•" "Open" p else row "◦" "View" p).
  { intros sel p. unfold Nav.nav_row, selected, row.
    destruct sel as [id|]; cbn [same_value];
      [destruct (String.eqb id (Models.project_id p))|]; reflexivity. }
  split; [apply buildProjectNav_rows|].
  split; [rewrite buildProjectNav_rows; simpl;
          rewrite length_app, length_map; simpl; lia|].
  split; [rewrite !buildProjectNav_rows; simpl;
          rewrite !length_app, !length_map; reflexivity|].
  do 5 (split; [apply nav_rows_agree; intros p; reflexivity|]).
  split.
  - intros sel. rewrite buildProjectNav_rows.
    change nav_label
      with (VObj [ ("type", VStr "context");
                   ("elements",
                    VArr [ VObj [ ("type", VStr "mrkdwn");
                                  ("text", VStr "*Projects*") ] ]) ]).
    f_equal. f_equal. apply map_ext. intros p. apply Hrow.
  - rewrite !buildProjectNav_rows.
    constructor; [now left|].
    apply Forall2_app; [|constructor; [now left | constructor]].
    induction projects as [|p rest IH]; [constructor|].
    cbn [map]. constructor; [|exact IH].
    right. rewrite !Hrow.
    destruct (selected sel1 p), (selected sel2 p);
      [ exists p, "•", "Open", "•", "Open"
      | exists p, "•", "Open", "◦", "View"
      | exists p, "◦", "View", "•", "Open"
      | exists p, "◦", "View", "◦", "View" ];
      cbn [In]; tauto.
Qed.

(* ================================================================== *)
(** ** Tab bars *)
(* ================================================================== *)

(** C8: for an active tab of the enumeration, [buildProjectTabs] gives one
    actions block and [buildTabs] a list of one actions block, with one button
    per tab of the enumeration, in order; the button whose value is the active
    tab has the style primary, the others have no style, and so exactly one
    button is primary. *)
Theorem tab_bar_has_one_primary_button :
  (forall active,
     In active [ "summary"; "tasks"; "risks" ] ->
     let bar := Tabs.buildProjectTabs active in
     has_type "actions" bar = true /\
     map (fun button => get button "value") (buttons bar)
     = [ VStr "summary"; VStr "tasks"; VStr "risks" ] /\
     styles bar = map (tab_style active) [ "summary"; "tasks"; "risks" ] /\
     count_primary bar = 1) /\
  (forall active,
     In active [ "overview"; "my-updates"; "admin" ] ->
     exists bar,
       Builders.buildTabs active = [ bar ] /\
       has_type "actions" bar = true /\
       map (fun button => get button "value") (buttons bar)
       = [ VStr "overview"; VStr "my-updates"; VStr "admin" ] /\
       styles bar = map (tab_style active) [ "overview"; "my-updates"; "admin" ] /\
       count_primary bar = 1).
Proof.
  split; intros active Hin; simpl in Hin.
  - destruct Hin as [<-|[<-|[<-|[]]]]; repeat split; reflexivity.
  - destruct Hin as [<-|[<-|[<-|[]]]]; eexists;
      (split; [reflexivity|]); repeat split; reflexivity.
Qed.

Lemma tab_bar_has_one_primary_button_witness :
  (In "tasks" [ "summary"; "tasks"; "risks" ] /\
   count_primary (Tabs.buildProjectTabs "tasks") = 1) /\
  (In "admin" [ "overview"; "my-updates"; "admin" ] /\
   exists bar, Builders.buildTabs "admin" = [ bar ] /\ count_primary bar = 1).
Proof.
  split.
  - split; [simpl; tauto|].
    apply (proj1 tab_bar_has_one_primary_button "tasks"). simpl; tauto.
  - split; [simpl; tauto|].
    destruct (proj2 tab_bar_has_one_primary_button "admin") as (bar & E & _ & _ & _ & H);
      [simpl; tauto|].
    exists bar. split; assumption.
Defined.

(* ================================================================== *)
(** ** The two home documents *)
(* ================================================================== *)

(** C10: the document of [buildHome] has the two properties [type], which is
    "home", and [blocks], an array, and no [private_metadata]; the document of
    [buildHomeView] has a [private_metadata] string between the two. *)
Theorem buildHome_has_no_state_token :
  (forall config,
     keys (Builders.buildHome config) = [ "type"; "blocks" ] /\
     get (Builders.buildHome config) "type" = VStr "home" /\
     (exists blocks, get (Builders.buildHome config) "blocks" = VArr blocks) /\
     get (Builders.buildHome config) "private_metadata" = VUndefined) /\
  (forall params,
     keys (Views.buildHomeView params) = [ "type"; "private_metadata"; "blocks" ] /\
     get (Views.buildHomeView params) "type" = VStr "home" /\
     exists token, get (Views.buildHomeView params) "private_metadata" = VStr token).
Proof.
  split.
  - intros config. repeat split; try reflexivity.
    eexists. reflexivity.
  - intros params. repeat split; try reflexivity.
    unfold Views.buildHomeView, Views.state.
    destruct (Views.selectedProject params); eexists; reflexivity.
Qed.

(* ================================================================== *)
(** ** The tab switches *)
(* ================================================================== *)

(** C7, as stated, fails for [buildHomeView]: with the project p1 selected
    and the tab "settings", the body is empty, and the document ends with the
    divider under the tab bar. *)
Lemma buildHomeView_unknown_tab_has_no_body :
  Views.bodyBlocks (Some Seed.p1) "settings" [ Seed.t1; Seed.t2 ] [ Seed.r1 ] = [] /\
  elements_of (get (Views.buildHomeView Samples.settings_view) "blocks")
  = Nav.buildProjectNav Seed.projects (Some "p1")
    ++ [ Header.buildHeader
           {| Header.icon := Some "📘"; Header.title := "AI Project Hub";
              Header.subtitle := Some "Your calm command center" |};
         Builders.divider;
         Tabs.buildProjectTabs "settings";
         Builders.divider ].
Proof.
  split; reflexivity.
Qed.

(** C7, amended: the switch of [buildContent] has a default branch, and for a
    tab outside overview, my-updates and admin the content is the "No content
    available" empty state, a section and an actions block; the chain of
    [buildHomeView] has no default branch, and with a project selected and a
    tab outside summary, tasks and risks the body has no block. *)
Theorem unknown_tab_content :
  (forall config,
     Types.tab config <> "overview" ->
     Types.tab config <> "my-updates" ->
     Types.tab config <> "admin" ->
     Builders.buildContent config = no_content /\
     map (fun block => get block "type") (Builders.buildContent config)
     = [ VStr "section"; VStr "actions" ]) /\
  (forall project activeTab tasks risks,
     activeTab <> "summary" ->
     activeTab <> "tasks" ->
     activeTab <> "risks" ->
     Views.bodyBlocks (Some project) activeTab tasks risks = []) /\
  (forall params project activeTab,
     Views.selectedProject params = Some project ->
     Views.activeTab params = Some activeTab ->
     activeTab <> "summary" ->
     activeTab <> "tasks" ->
     activeTab <> "risks" ->
     elements_of (get (Views.buildHomeView params) "blocks")
     = Nav.buildProjectNav (Views.projects params)
                           (Some (Models.project_id project))
       ++ [ Header.buildHeader
              {| Header.icon := Some "📘";
                 Header.title := Models.project_name project;
                 Header.subtitle := Some "Your calm command center" |};
            Builders.divider;
            Tabs.buildProjectTabs activeTab;
            Builders.divider ]).
Proof.
  assert (Hbody : forall project activeTab tasks risks,
            activeTab <> "summary" ->
            activeTab <> "tasks" ->
            activeTab <> "risks" ->
            Views.bodyBlocks (Some project) activeTab tasks risks = []).
  { intros project activeTab tasks risks H1 H2 H3. unfold Views.bodyBlocks.
    apply String.eqb_neq in H1, H2, H3. rewrite H1, H2, H3. reflexivity. }
  split; [|split; [exact Hbody|]].
  - intros config H1 H2 H3. unfold Builders.buildContent.
    apply String.eqb_neq in H1, H2, H3. rewrite H1, H2, H3.
    split; reflexivity.
  - intros params project activeTab Hp Ht H1 H2 H3.
    unfold Views.buildHomeView. rewrite Hp, Ht.
    cbn [Views.default option_map get lookup String.eqb Ascii.eqb Bool.eqb
         elements_of].
    rewrite Hbody by assumption.
    cbn [get lookup elements_of]. rewrite app_nil_r.
    reflexivity.
Qed.

Lemma unknown_tab_content_witness :
  Builders.buildContent Samples.settings_tab = no_content /\
  Views.bodyBlocks (Some Seed.p1) "settings" [ Seed.t1 ] [] = [] /\
  length (elements_of (get (Views.buildHomeView Samples.settings_view) "blocks")) = 8.
Proof.
  destruct unknown_tab_content as (Hcontent & Hbody & Hview).
  split; [|split].
  - apply (Hcontent Samples.settings_tab); discriminate.
  - apply (Hbody Seed.p1 "settings"); discriminate.
  - rewrite (Hview Samples.settings_view Seed.p1 "settings");
      [reflexivity | reflexivity | reflexivity | discriminate ..].
Defined.

(* ================================================================== *)
(** ** The overview *)
(* ================================================================== *)

(** The note, with its text as the template literal writes it. *)
Lemma more_note_text (n : nat) :
  more_note n
  = VObj [ ("type", VStr "section");
           ("text", Builders.mrkdwn
              ("_... and " +++ string_of_nat n +++ " more updates_")) ].
Proof.
  unfold more_note. simpl. rewrite append_assoc. reflexivity.
Qed.

(** C4: for more than five items the overview is its heading, a divider, the
    cards of the first five items in input order with a divider between two of
    them, and one note, "_... and N more updates_" with N the number of items
    left out; for one to five items it is the heading, a divider and the cards
    of all the items, with no note; for no item it is the "All caught up!"
    empty state; seven items give the note "_... and 2 more updates_". *)
Theorem overview_truncates_to_five (items : list Types.CardItem) :
  (5 < length items ->
   Builders.buildOverviewContent items
   = [ recent_heading (length items); Builders.divider ]
     ++ separated Builders.divider (map Builders.buildCard (firstn 5 items))
     ++ [ more_note (length items - 5) ]) /\
  (0 < length items <= 5 ->
   Builders.buildOverviewContent items
   = [ recent_heading (length items); Builders.divider ]
     ++ separated Builders.divider (map Builders.buildCard items)) /\
  (length items = 7 ->
   section_text (last_block (Builders.buildOverviewContent items))
   = Some "_... and 2 more updates_" /\
   contains "... and 2 more updates" "_... and 2 more updates_" = true) /\
  (length items = 0 ->
   Builders.buildOverviewContent items = all_caught_up).
Proof.
  assert (Hmore : 5 < length items ->
     Builders.buildOverviewContent items
     = [ recent_heading (length items); Builders.divider ]
       ++ separated Builders.divider (map Builders.buildCard (firstn 5 items))
       ++ [ more_note (length items - 5) ]).
  { intros H. unfold Builders.buildOverviewContent.
    replace (length items =? 0)%nat with false by (symmetry; apply Nat.eqb_neq; lia).
    replace (5 <? length items)%nat with true by (symmetry; apply Nat.ltb_lt; lia).
    rewrite buildCardList_separated, <- app_assoc, more_note_text. reflexivity. }
  split; [exact Hmore|]. split.
  - intros [H0 H5]. unfold Builders.buildOverviewContent.
    replace (length items =? 0)%nat with false by (symmetry; apply Nat.eqb_neq; lia).
    replace (5 <? length items)%nat with false by (symmetry; apply Nat.ltb_ge; lia).
    rewrite buildCardList_separated. rewrite firstn_all2 by lia. reflexivity.
  - split.
    + intros H7. split; [|reflexivity]. rewrite Hmore by lia.
      rewrite app_assoc, last_block_app by discriminate.
      rewrite H7. reflexivity.
    + intros H0. destruct items; [reflexivity | discriminate H0].
Qed.

Lemma overview_truncates_to_five_witness :
  Builders.buildOverviewContent Samples.seven_cards
  = [ recent_heading 7; Builders.divider ]
    ++ separated Builders.divider
         (map Builders.buildCard (firstn 5 Samples.seven_cards))
    ++ [ more_note 2 ] /\
  Builders.buildOverviewContent Samples.three_cards
  = [ recent_heading 3; Builders.divider ]
    ++ separated Builders.divider (map Builders.buildCard Samples.three_cards) /\
  section_text (last_block (Builders.buildOverviewContent Samples.seven_cards))
  = Some "_... and 2 more updates_".
Proof.
  split; [|split].
  - apply (proj1 (overview_truncates_to_five Samples.seven_cards)).
    simpl; lia.
  - apply (proj1 (proj2 (overview_truncates_to_five Samples.three_cards))).
    simpl; lia.
  - apply (proj1 (proj2 (proj2 (overview_truncates_to_five Samples.seven_cards)))).
    reflexivity.
Defined.

(* ================================================================== *)
(** ** The status glyph of a card *)
(* ================================================================== *)

Section StatusGlyph.

Import Types.

Lemma context_text_buildCard (item : CardItem) :
  context_text (Builders.buildCard item)
  = if is_empty (Builders.metaText item) then None
    else Some (Builders.metaText item).
Proof.
  unfold Builders.buildCard.
  destruct (is_empty (Builders.metaText item));
    destruct (Builders.has_actions (card_actions item)); reflexivity.
Qed.

Lemma list_ascii_of_string_append (a b : string) :
  list_ascii_of_string (a +++ b)
  = list_ascii_of_string a ++ list_ascii_of_string b.
Proof.
  induction a as [|c a IH]; [reflexivity|]. simpl. now rewrite IH.
Qed.

Lemma is_empty_append_r (a : string) (c : ascii) (b : string) :
  is_empty (a +++ String c b) = false.
Proof.
  destruct a; reflexivity.
Qed.

(** With a status that is a non-empty string, the status entry comes last in
    [metaText]. *)
Lemma metaText_status_last (item : CardItem) (status : string) :
  meta_status (card_meta item) = Some status ->
  status <> EmptyString ->
  exists before,
    Builders.metaText item
    = before +++ Builders.getStatusEmoji (Some status) +++ " " +++ status.
Proof.
  intros Hs Hne. unfold Builders.metaText. rewrite Hs.
  destruct status as [|c status]; [congruence|].
  set (entry := Builders.getStatusEmoji (Some (String c status)) +++ " "
                +++ String c status).
  assert (Hentry : negb (is_empty entry) = true).
  { unfold entry.
    change (" " +++ String c status) with (String " "%char (String c status)).
    now rewrite is_empty_append_r. }
  unfold and_then at 3. cbn [is_empty]. fold entry.
  destruct (meta_owner (card_meta item)) as [[|o owner]|];
    destruct (meta_date (card_meta item)) as [[|d date]|];
    cbn [and_then is_empty filter truthy negb String.append]; rewrite Hentry;
    cbn [join nullish].
  all: try (exists EmptyString; reflexivity).
  all: try (eexists; rewrite <- !append_assoc; reflexivity).
Qed.

(** Without a status, or with the empty string for one, [metaText] is made
    of the owner and the date alone. *)
Lemma metaText_without_status (item : CardItem) :
  truthy (meta_status (card_meta item)) = false ->
  Builders.metaText item = join " • " (filter truthy (owner_and_date item)).
Proof.
  intros Hs. unfold Builders.metaText, owner_and_date.
  destruct (meta_status (card_meta item)) as [[|c status]|];
    try discriminate Hs;
    destruct (meta_owner (card_meta item)) as [[|o owner]|];
    destruct (meta_date (card_meta item)) as [[|d date]|];
    reflexivity.
Qed.

End StatusGlyph.

(** C5, as stated, fails: the minimal card, with an empty [meta], is its
    section alone and has no context block; a card with an owner and no status
    has the context text "👤 Sarah", without the glyph. *)
Lemma card_without_status_shows_no_glyph :
  map (fun block => get block "type") (Builders.buildCard Samples.minimal_card)
  = [ VStr "section" ] /\
  context_text (Builders.buildCard Samples.minimal_card) = None /\
  context_text (Builders.buildCard Samples.owner_only_card) = Some "👤 Sarah" /\
  contains "⚪" "👤 Sarah" = false.
Proof.
  repeat split; reflexivity.
Qed.

(** C5, amended: [getStatusEmoji] is total, gives ⚪ for an absent status and
    for any string outside the enumeration, and never gives the empty string;
    a card whose status is a non-empty string outside the enumeration has a
    context block whose text ends with "⚪ " and the status; a card whose
    status is absent or empty has no status entry, its context text is made of
    the owner and the date alone, and with neither it has no context block.
    On the enumeration [getStatusEmoji] gives 🟢, 🟡, ✅ and ⏳, so it gives ⚪
    exactly for an absent status and for a string outside the enumeration;
    the context text of a card whose status is a non-empty string ends with
    the glyph of the status, a space and the status, and it ends with "⚪ "
    and the status exactly when the status is outside the enumeration. *)
Theorem status_glyph_default :
  (forall status,
     (forall s, status = Some s -> ~ In s statuses) ->
     Builders.getStatusEmoji status = "⚪") /\
  (forall status, Builders.getStatusEmoji status <> EmptyString) /\
  (forall item status,
     Types.meta_status (Types.card_meta item) = Some status ->
     status <> EmptyString ->
     ~ In status statuses ->
     exists before,
       context_text (Builders.buildCard item)
       = Some (before +++ "⚪ " +++ status)) /\
  (forall item,
     truthy (Types.meta_status (Types.card_meta item)) = false ->
     Builders.metaText item = join " • " (filter truthy (owner_and_date item)) /\
     (truthy (Types.meta_owner (Types.card_meta item)) = false ->
      truthy (Types.meta_date (Types.card_meta item)) = false ->
      context_text (Builders.buildCard item) = None)) /\
  (Builders.getStatusEmoji (Some "active") = "🟢" /\
   Builders.getStatusEmoji (Some "paused") = "🟡" /\
   Builders.getStatusEmoji (Some "completed") = "✅" /\
   Builders.getStatusEmoji (Some "pending") = "⏳") /\
  (forall status,
     Builders.getStatusEmoji status = "⚪"
     <-> (forall s, status = Some s -> ~ In s statuses)) /\
  (forall item status,
     Types.meta_status (Types.card_meta item) = Some status ->
     status <> EmptyString ->
     (exists before,
        context_text (Builders.buildCard item)
        = Some (before +++ Builders.getStatusEmoji (Some status)
                +++ " " +++ status)) /\
     ((exists before,
         context_text (Builders.buildCard item)
         = Some (before +++ "⚪ " +++ status))
      <-> ~ In status statuses)).
Proof.
  assert (Hdefault : forall status,
            (forall s, status = Some s -> ~ In s statuses) ->
            Builders.getStatusEmoji status = "⚪").
  { intros [s|] H; [|reflexivity]. specialize (H s eq_refl).
    unfold Builders.getStatusEmoji.
    destruct (String.eqb_spec s "active") as [->|_]; [exfalso; apply H; simpl; tauto|].
    destruct (String.eqb_spec s "paused") as [->|_]; [exfalso; apply H; simpl; tauto|].
    destruct (String.eqb_spec s "completed") as [->|_]; [exfalso; apply H; simpl; tauto|].
    destruct (String.eqb_spec s "pending") as [->|_]; [exfalso; apply H; simpl; tauto|].
    reflexivity. }
  assert (Hlast : forall item status,
            Types.meta_status (Types.card_meta item) = Some status ->
            status <> EmptyString ->
            exists before,
              context_text (Builders.buildCard item)
              = Some (before +++ Builders.getStatusEmoji (Some status)
                      +++ " " +++ status)).
  { intros item status Hs Hne.
    destruct (metaText_status_last item status Hs Hne) as [before E].
    exists before. rewrite context_text_buildCard, E.
    destruct status as [|c status]; [congruence|].
    change (" " +++ String c status) with (String " "%char (String c status)).
    rewrite <- append_assoc, is_empty_append_r.
    now rewrite append_assoc. }
  assert (Hshown : forall item status,
            Types.meta_status (Types.card_meta item) = Some status ->
            status <> EmptyString ->
            ~ In status statuses ->
            exists before,
              context_text (Builders.buildCard item)
              = Some (before +++ "⚪ " +++ status)).
  { intros item status Hs Hne Hout.
    destruct (Hlast item status Hs Hne) as [before E].
    rewrite (Hdefault (Some status)) in E
      by (intros s [= <-]; exact Hout).
    exists before. exact E. }
  split; [exact Hdefault|]. split; [|split; [exact Hshown|]].
  - intros [s|]; [|discriminate]. unfold Builders.getStatusEmoji.
    destruct (String.eqb s "active"); [discriminate|].
    destruct (String.eqb s "paused"); [discriminate|].
    destruct (String.eqb s "completed"); [discriminate|].
    destruct (String.eqb s "pending"); discriminate.
  - split; [|split; [|split]].
    + intros item Hs. split; [now apply metaText_without_status|].
      intros Ho Hd.
      rewrite context_text_buildCard, metaText_without_status by exact Hs.
      unfold owner_and_date.
      destruct (Types.meta_owner (Types.card_meta item)) as [[|o owner]|];
        try discriminate Ho;
        destruct (Types.meta_date (Types.card_meta item)) as [[|d date]|];
        try discriminate Hd; reflexivity.
    + repeat split; reflexivity.
    + intros status. split; [|apply Hdefault].
      intros E s -> Hin.
      destruct Hin as [<-|[<-|[<-|[<-|[]]]]]; discriminate E.
    + intros item status Hs Hne. split; [now apply Hlast|].
      split; [|now apply Hshown].
      intros [before E] Hin.
      destruct (Hlast item status Hs Hne) as [before' E'].
      rewrite E' in E. injection E as E.
      apply (f_equal list_ascii_of_string) in E.
      rewrite !list_ascii_of_string_append in E.
      apply (f_equal (@rev ascii)) in E.
      rewrite !rev_app_distr in E.
      destruct Hin as [<-|[<-|[<-|[<-|[]]]]]; simpl in E; congruence.
Qed.

Lemma status_glyph_default_witness :
  Builders.getStatusEmoji (Some "archived") = "⚪" /\
  (exists before,
     context_text (Builders.buildCard Samples.archived_card)
     = Some (before +++ "⚪ " +++ "archived")) /\
  context_text (Builders.buildCard Samples.minimal_card) = None /\
  (exists before,
     context_text (Builders.buildCard Samples.active_card)
     = Some (before +++ "🟢" +++ " " +++ "active")) /\
  ~ (exists before,
       context_text (Builders.buildCard Samples.active_card)
       = Some (before +++ "⚪ " +++ "active")).
Proof.
  destruct status_glyph_default
    as (Hdefault & _ & Hshown & Hhidden & _ & _ & Hentry).
  split; [|split; [|split; [|split]]].
  - apply Hdefault. intros s [= <-]. simpl. intuition discriminate.
  - apply Hshown; [reflexivity | discriminate | simpl; intuition discriminate].
  - apply (Hhidden Samples.minimal_card); reflexivity.
  - apply (Hentry Samples.active_card "active"); [reflexivity | discriminate].
  - intros H.
    apply (Hentry Samples.active_card "active") in H;
      [apply H; simpl; tauto | reflexivity | discriminate].
Defined.

(* ================================================================== *)
(** ** The two header builders *)
(* ================================================================== *)

Section Trim.

Lemma three_byte_space_underscore (a b : nat) : three_byte_space a b 95 = false.
Proof.
  unfold three_byte_space. simpl.
  rewrite !andb_false_r. reflexivity.
Qed.

(** A white-space character at the head of [y ++ "_"] lies within [y]. *)
Lemma drop_space_width (y : string) :
  exists y', drop (space_width (y +++ "_")) (y +++ "_") = y' +++ "_".
Proof.
  destruct y as [|c [|d [|e y]]]; simpl.
  - exists EmptyString. reflexivity.
  - destruct (is_ascii_space c); [exists EmptyString; reflexivity|].
    rewrite andb_false_r. exists (String c EmptyString). reflexivity.
  - destruct (is_ascii_space c); [exists (String d EmptyString); reflexivity|].
    destruct ((nat_of_ascii c =? 194)%nat && (nat_of_ascii d =? 160)%nat);
      [exists EmptyString; reflexivity|].
    rewrite three_byte_space_underscore.
    exists (String c (String d EmptyString)). reflexivity.
  - destruct (is_ascii_space c); [exists (String d (String e y)); reflexivity|].
    destruct ((nat_of_ascii c =? 194)%nat && (nat_of_ascii d =? 160)%nat);
      [exists (String e y); reflexivity|].
    destruct (three_byte_space (nat_of_ascii c) (nat_of_ascii d) (nat_of_ascii e));
      [exists y; reflexivity|].
    exists (String c (String d (String e y))). reflexivity.
Qed.

Lemma trimStart_loop_underscore (steps : nat) :
  forall y, exists y', trimStart_loop steps (y +++ "_") = y' +++ "_".
Proof.
  induction steps as [|steps IH]; intros y; cbn [trimStart_loop].
  - exists y. reflexivity.
  - destruct (drop_space_width y) as [y1 E].
    destruct (space_width (y +++ "_")) as [|w].
    + exists y. reflexivity.
    + rewrite E. apply IH.
Qed.

Lemma all_space_underscore (y : string) : all_space (y +++ "_") = false.
Proof.
  unfold all_space, trimStart.
  destruct (trimStart_loop_underscore (String.length (y +++ "_")) y) as [y' E].
  rewrite E. apply is_empty_append_r.
Qed.

Lemma trimEnd_underscore (y : string) : trimEnd (y +++ "_") = y +++ "_".
Proof.
  induction y as [|c y IH].
  - reflexivity.
  - change (String c y +++ "_") with (String c (y +++ "_")).
    cbn [trimEnd].
    change (String c (y +++ "_")) with (String c y +++ "_") at 1.
    rewrite all_space_underscore, IH. reflexivity.
Qed.

(** [trim] leaves a text from a star to an underscore as it is. *)
Lemma trim_star_underscore (y : string) :
  trim (String "*" (y +++ "_")) = String "*" (y +++ "_").
Proof.
  unfold trim.
  assert (E : trimStart (String "*" (y +++ "_")) = String "*" (y +++ "_")).
  { unfold trimStart. cbn [String.length trimStart_loop].
    destruct (y +++ "_") as [|d [|e z]]; reflexivity. }
  rewrite E. apply (trimEnd_underscore (String "*" y)).
Qed.

End Trim.

(** The text of the header of src/ui/header.ts, whatever its input: the
    [trim] changes nothing. *)
Lemma Header_buildHeader_text (params : Header.HeaderParams) :
  Header.buildHeader params
  = VObj [ ("type", VStr "section");
           ("block_id", VStr "hdr");
           ("text", Builders.mrkdwn
              ("*" +++ nullish (Header.icon params) "📘" +++ " "
               +++ Header.title params +++ "*" +++ newline
               +++ "_" +++ nullish (Header.subtitle params) EmptyString +++ "_")) ].
Proof.
  unfold Header.buildHeader. do 4 f_equal.
  set (i := nullish (Header.icon params) "📘").
  set (u := nullish (Header.subtitle params) EmptyString).
  replace ("*" +++ i +++ " " +++ Header.title params +++ "*" +++ newline
           +++ "_" +++ u +++ "_")
    with (String "*" ((i +++ " " +++ Header.title params +++ "*" +++ newline
                       +++ "_" +++ u) +++ "_"))
    by (rewrite !append_assoc; reflexivity).
  now rewrite trim_star_underscore.
Qed.

(** C6, as stated, fails for the header of src/ui/header.ts: called with an
    input that has an action, it gives a block without accessory; and with a
    title only, the text still has the line break and the empty italics of the
    absent subtitle after the title. *)
Lemma header_ts_has_no_accessory_and_keeps_markup :
  (Builders.has_actions (input_actions Samples.header_with_action) = true /\
   get (header_ts Samples.header_with_action) "accessory" = VUndefined /\
   keys (header_ts Samples.header_with_action) = [ "type"; "block_id"; "text" ]) /\
  (section_text (Header.buildHeader Samples.title_only)
   = Some ("*📘 Roadmap*" +++ newline +++ "__") /\
   section_text (Header.buildHeader Samples.title_only) <> Some "*📘 Roadmap*").
Proof.
  split; [repeat split; reflexivity|].
  split; [reflexivity | discriminate].
Qed.

(** C6, amended: [buildHeader] of ui/builders.ts gives one section block
    whose text is the icon (required, without a default), the title in bold
    and, for a non-empty subtitle only, a line break and the subtitle; the
    block has the overflow accessory exactly when the configuration has one
    action or more, with one (text, value = action.id) option per action in
    order.  [buildHeader] of src/ui/header.ts gives one section block without
    any accessory; its icon is 📘 when none is given, and with a subtitle its
    text is the icon and the title in bold, a line break and the subtitle in
    italics. *)
Theorem header_builders :
  (forall config,
     exists block,
       Builders.buildHeader config = [ block ] /\
       has_type "section" block = true /\
       section_text block
       = Some (Types.header_icon config +++ " *" +++ Types.header_title config +++ "*"
               +++ cond (Types.header_subtitle config)
                        (fun subtitle => newline +++ subtitle) EmptyString) /\
       (truthy (Types.header_subtitle config) = false ->
        section_text block
        = Some (Types.header_icon config +++ " *" +++ Types.header_title config +++ "*")) /\
       (forall action actions,
          Types.header_actions config = Some (action :: actions) ->
          get block "accessory" = overflow_menu (action :: actions)) /\
       (Types.header_actions config = None \/ Types.header_actions config = Some [] ->
        keys block = [ "type"; "block_id"; "text" ])) /\
  (forall params,
     has_type "section" (Header.buildHeader params) = true /\
     keys (Header.buildHeader params) = [ "type"; "block_id"; "text" ] /\
     (forall subtitle,
        Header.subtitle params = Some subtitle ->
        subtitle <> EmptyString ->
        section_text (Header.buildHeader params)
        = Some ("*" +++ nullish (Header.icon params) "📘" +++ " "
                +++ Header.title params +++ "*" +++ newline
                +++ "_" +++ subtitle +++ "_")) /\
     (forall subtitle,
        Header.icon params = None ->
        Header.subtitle params = Some subtitle ->
        subtitle <> EmptyString ->
        section_text (Header.buildHeader params)
        = Some ("*📘 " +++ Header.title params +++ "*" +++ newline
                +++ "_" +++ subtitle +++ "_"))).
Proof.
  split.
  - intros config.
    exists (if Builders.has_actions (Types.header_actions config)
            then set (header_section config) "accessory"
                     (overflow_menu (Builders.actions_or_nil
                                       (Types.header_actions config)))
            else header_section config).
    split; [unfold Builders.buildHeader;
            destruct (Builders.has_actions (Types.header_actions config));
            reflexivity|].
    split; [destruct (Builders.has_actions (Types.header_actions config));
            reflexivity|].
    split; [destruct (Builders.has_actions (Types.header_actions config));
            reflexivity|].
    split; [|split].
    + intros Hs.
      assert (E : cond (Types.header_subtitle config)
                       (fun subtitle => newline +++ subtitle) EmptyString
                  = EmptyString).
      { destruct (Types.header_subtitle config) as [[|c u]|];
          try discriminate Hs; reflexivity. }
      unfold header_section. rewrite E.
      destruct (Builders.has_actions (Types.header_actions config));
        reflexivity.
    + intros action actions E. rewrite E. reflexivity.
    + intros [E|E]; rewrite E; reflexivity.
  - intros params. rewrite Header_buildHeader_text.
    repeat split.
    + intros subtitle E _. rewrite E. reflexivity.
    + intros subtitle Ei Es _. rewrite Ei, Es. reflexivity.
Qed.

Lemma header_builders_witness :
  (exists block,
     Builders.buildHeader Samples.refresh_header = [ block ] /\
     section_text block = Some "📌 *Project Updates*" /\
     get block "accessory" = overflow_menu [ Builders.refresh_cta ]) /\
  section_text (Header.buildHeader Samples.full_header)
  = Some ("*📘 Roadmap*" +++ newline +++ "_Your calm command center_").
Proof.
  destruct header_builders as [Hbuilders Hheader]. split.
  - destruct (Hbuilders Samples.refresh_header) as (block & E & _ & _ & Ht & Ha & _).
    exists block. split; [exact E|].
    split; [apply Ht; reflexivity | apply (Ha _ _ eq_refl)].
  - destruct (Hheader Samples.full_header) as (_ & _ & _ & Hd).
    apply (Hd _ eq_refl eq_refl). discriminate.
Defined.

(* ================================================================== *)
(** ** The state token *)
(* ================================================================== *)

Section Token.

Import JSON.

(** An escaped character parses back to the character. *)
Lemma parse_chars_escape_char (c : ascii) (t : string) :
  parse_chars (escape_char c +++ t) = prepend (String c EmptyString) (parse_chars t).
Proof.
  destruct c as [[] [] [] [] [] [] [] []]; reflexivity.
Qed.

(** The characters of a quoted string parse back to the string. *)
Lemma parse_chars_escape (s rest : string) :
  parse_chars (escape s +++ String dquote rest) = Some (s, rest).
Proof.
  induction s as [|c s IH].
  - reflexivity.
  - cbn [escape]. rewrite append_assoc, parse_chars_escape_char, IH.
    reflexivity.
Qed.

Lemma quote_append (s rest : string) :
  quote s +++ rest = String dquote (escape s +++ String dquote rest).
Proof.
  unfold quote. cbn [String.append]. now rewrite append_assoc.
Qed.

(** A string value, with any fuel left. *)
Lemma parse_value_quote (fuel : nat) (s rest : string) :
  parse_value (S fuel) (quote s +++ rest) = Some (VStr s, rest).
Proof.
  rewrite quote_append.
  change (parse_value (S fuel) (String dquote (escape s +++ String dquote rest)))
    with (match parse_chars (escape s +++ String dquote rest) with
          | Some (t, rest') => Some (VStr t, rest')
          | None => None
          end).
  now rewrite parse_chars_escape.
Qed.

(** One member whose value is a string literal, and the character [d] after
    it. *)
Lemma parse_members_member (fuel : nat) (body body' k v rest : string) (d : ascii)
    (acc : list (string * value)) :
  parse_chars body = Some (k, String ":" (String dquote body')) ->
  parse_chars body' = Some (v, String d rest) ->
  is_ws d = false ->
  parse_members (S (S fuel)) (String dquote body) acc
  = if Ascii.eqb d ","
    then parse_members (S fuel) rest (assign k (VStr v) acc)
    else if Ascii.eqb d "}" then Some (VObj (assign k (VStr v) acc), rest)
    else None.
Proof.
  intros Hk Hv Hd.
  change (parse_members (S (S fuel)) (String dquote body) acc)
    with (match parse_chars body with
          | Some (k, rest1) =>
              match skip_ws rest1 with
              | String colon rest2 =>
                  if Ascii.eqb colon ":" then
                    match parse_value (S fuel) rest2 with
                    | Some (v, rest3) =>
                        match skip_ws rest3 with
                        | String d rest4 =>
                            if Ascii.eqb d "," then
                              parse_members (S fuel) rest4 (assign k v acc)
                            else if Ascii.eqb d "}" then
                              Some (VObj (assign k v acc), rest4)
                            else None
                        | EmptyString => None
                        end
                    | None => None
                    end
                  else None
              | EmptyString => None
              end
          | None => None
          end).
  rewrite Hk.
  change (skip_ws (String ":" (String dquote body')))
    with (String ":" (String dquote body')).
  cbv beta iota.
  change (Ascii.eqb ":" ":") with true. cbv beta iota.
  change (parse_value (S fuel) (String dquote body'))
    with (match parse_chars body' with
          | Some (t, rest') => Some (VStr t, rest')
          | None => None
          end).
  rewrite Hv. cbv beta iota.
  assert (E : skip_ws (String d rest) = String d rest)
    by (cbn [skip_ws]; now rewrite Hd).
  rewrite E. reflexivity.
Qed.

Lemma parse_members_quoted (fuel : nat) (k v rest : string) (d : ascii)
    (acc : list (string * value)) :
  is_ws d = false ->
  parse_members (S (S fuel)) (quote k +++ ":" +++ quote v +++ String d rest) acc
  = if Ascii.eqb d ","
    then parse_members (S fuel) rest (assign k (VStr v) acc)
    else if Ascii.eqb d "}" then Some (VObj (assign k (VStr v) acc), rest)
    else None.
Proof.
  intros Hd. rewrite quote_append.
  apply parse_members_member with (body' := escape v +++ String dquote (String d rest));
    [| apply parse_chars_escape | exact Hd].
  change (":" +++ quote v +++ String d rest)
    with (String ":" (quote v +++ String d rest)).
  rewrite quote_append. apply parse_chars_escape.
Qed.

(** The members of an object whose values are strings parse back, one unit
    of fuel for each member and one more being enough. *)
Lemma parse_members_members (l : list (string * string)) :
  forall k v extra rest acc,
    parse_members (S (S (length l + extra)))
                  (members ((k, v) :: l) +++ String "}" rest) acc
    = Some (VObj (fold_left (fun props kv => assign (fst kv) (VStr (snd kv)) props)
                            ((k, v) :: l) acc),
            rest).
Proof.
  induction l as [|[k' v'] l IH]; intros k v extra rest acc.
  - cbn [members fold_left fst snd].
    rewrite !append_assoc.
    now rewrite parse_members_quoted.
  - change (members ((k, v) :: (k', v') :: l))
      with (quote k +++ ":" +++ quote v +++ "," +++ members ((k', v') :: l)).
    rewrite !append_assoc.
    change ("," +++ members ((k', v') :: l) +++ String "}" rest)
      with (String "," (members ((k', v') :: l) +++ String "}" rest)).
    rewrite parse_members_quoted by reflexivity.
    change (Ascii.eqb "," ",") with true. cbv beta iota.
    cbn [length plus]. rewrite IH. reflexivity.
Qed.

Lemma length_append (a b : string) :
  String.length (a +++ b) = String.length a + String.length b.
Proof.
  induction a as [|c a IH]; simpl; [reflexivity | now rewrite IH].
Qed.

Lemma members_length (l : list (string * string)) :
  forall k v, length l < String.length (members ((k, v) :: l)).
Proof.
  induction l as [|[k' v'] l IH]; intros k v.
  - unfold members, quote. cbn [String.append String.length length]. lia.
  - change (members ((k, v) :: (k', v') :: l))
      with (quote k +++ ":" +++ quote v +++ "," +++ members ((k', v') :: l)).
    rewrite !length_append. specialize (IH k' v').
    remember (String.length (members ((k', v') :: l))) as m.
    unfold quote. simpl. lia.
Qed.

(** An opening brace before a member. *)
Lemma parse_value_object (fuel : nat) (body : string) :
  parse_value (S fuel) (String "{" (String dquote body))
  = parse_members fuel (String dquote body) [].
Proof.
  reflexivity.
Qed.

(** [JSON.parse] of an object text with string members. *)
Lemma parse_object_text (k v : string) (l : list (string * string)) :
  parse ("{" +++ members ((k, v) :: l) +++ "}")
  = Ok (VObj (fold_left (fun props kv => assign (fst kv) (VStr (snd kv)) props)
                        ((k, v) :: l) [])).
Proof.
  unfold parse.
  change ("{" +++ members ((k, v) :: l) +++ "}")
    with (String "{" (members ((k, v) :: l) +++ String "}" EmptyString)).
  cbn [String.length].
  pose proof (members_length l k v) as Hlen.
  rewrite length_append.
  destruct (String.length (members ((k, v) :: l))) as [|n] eqn:En; [lia|].
  cbn [String.length plus].
  replace (S (n + 1)) with (S (length l + S (n - length l))) by lia.
  assert (Hquote : exists body,
            members ((k, v) :: l) +++ String "}" EmptyString = String dquote body).
  { destruct l as [|[k' v'] l]; cbn [members]; unfold quote;
      eexists; reflexivity. }
  destruct Hquote as [body Hbody].
  rewrite Hbody, parse_value_object, <- Hbody.
  rewrite parse_members_members. reflexivity.
Qed.

(** The token of a state object, by the properties it has. *)
Lemma stringify_state_object (selectedProjectId activeTab : option string) :
  exists text,
    stringify (state_object selectedProjectId activeTab) = Some (String "{" text) /\
    parse (String "{" text) = Ok (defined (state_object selectedProjectId activeTab)).
Proof.
  destruct selectedProjectId as [id|]; destruct activeTab as [active|].
  - exists (members [ ("selectedProjectId", id); ("activeTab", active) ] +++ "}").
    split.
    + cbn [state_object of_opt stringify map somes flat_map app fst snd
             String.concat members].
      rewrite !append_assoc. reflexivity.
    + apply (parse_object_text "selectedProjectId" id [ ("activeTab", active) ]).
  - exists (members [ ("selectedProjectId", id) ] +++ "}").
    split.
    + cbn [state_object of_opt stringify map somes flat_map app fst snd
             String.concat members].
      rewrite !append_assoc. reflexivity.
    + apply (parse_object_text "selectedProjectId" id []).
  - exists (members [ ("activeTab", active) ] +++ "}").
    split.
    + cbn [state_object of_opt stringify map somes flat_map app fst snd
             String.concat members].
      rewrite !append_assoc. reflexivity.
    + apply (parse_object_text "activeTab" active []).
  - exists "}". split; reflexivity.
Qed.

(** Decoding the token of a state object. *)
Lemma getStateFromView_state_object (selectedProjectId activeTab : option string) :
  Home.getStateFromView
    (Some (view_with_state (state_object selectedProjectId activeTab)))
  = Ok (defined (state_object selectedProjectId activeTab)).
Proof.
  destruct (stringify_state_object selectedProjectId activeTab) as (text & Hs & Hp).
  unfold Home.getStateFromView, view_with_state.
  cbn [Home.private_metadata]. rewrite Hs.
  cbn [is_empty negb]. rewrite Hp. reflexivity.
Qed.

End Token.

(** C2: the state selectedProjectId "p1", activeTab "tasks", written with
    [JSON.stringify] and read back by [getStateFromView], is the same object;
    any state object comes back with the properties it has (a property that is
    [undefined] is not written, and reads as [undefined] again); and the state
    read back from the document of [buildHomeView] is the selected project's
    id and the active tab the document was built for. *)
Theorem state_token_round_trip :
  Home.getStateFromView
    (Some (view_with_state
             (VObj [ ("selectedProjectId", VStr "p1"); ("activeTab", VStr "tasks") ])))
  = Ok (VObj [ ("selectedProjectId", VStr "p1"); ("activeTab", VStr "tasks") ]) /\
  (forall selectedProjectId activeTab : option string,
     exists decoded,
       Home.getStateFromView
         (Some (view_with_state (state_object selectedProjectId activeTab)))
       = Ok decoded /\
       decoded = defined (state_object selectedProjectId activeTab) /\
       get decoded "selectedProjectId" = of_opt selectedProjectId /\
       get decoded "activeTab" = of_opt activeTab) /\
  (forall params,
     Home.getStateFromView (Some (Home.view_of (Views.buildHomeView params)))
     = Ok (defined (Views.state (Views.selectedProject params)
                                (Views.default (Views.activeTab params) "summary")))).
Proof.
  split; [|split].
  - apply (getStateFromView_state_object (Some "p1") (Some "tasks")).
  - intros selectedProjectId activeTab.
    exists (defined (state_object selectedProjectId activeTab)).
    split; [apply getStateFromView_state_object|].
    split; [reflexivity|].
    destruct selectedProjectId, activeTab; split; reflexivity.
  - intros params.
    apply (getStateFromView_state_object
             (option_map Models.project_id (Views.selectedProject params))
             (Some (Views.default (Views.activeTab params) "summary"))).
Qed.

(** C3: [getStateFromView] returns for every view, and never throws; for a
    view that is missing, has no token, has the empty token or has a token
    that [JSON.parse] rejects, it returns the empty object; for any other
    token it returns what [JSON.parse] returns. *)
Theorem getStateFromView_never_throws (view : option Home.View) :
  (exists state, Home.getStateFromView view = Ok state) /\
  (unusable_token view -> Home.getStateFromView view = Ok (VObj [])) /\
  (forall v text state,
     view = Some v ->
     Home.private_metadata v = Some text ->
     text <> EmptyString ->
     JSON.parse text = Ok state ->
     Home.getStateFromView view = Ok state).
Proof.
  unfold Home.getStateFromView, unusable_token.
  destruct view as [[[[|c text]|]]|]; cbn [Home.private_metadata is_empty negb].
  - split; [eexists; reflexivity|]. split; [reflexivity|].
    intros v t state [= <-] [= <-]. congruence.
  - destruct (JSON.parse (String c text)) as [state|error] eqn:E.
    + split; [eexists; reflexivity|]. split.
      * intros [H|[error H]]; discriminate H.
      * intros v t st [= <-] [= <-] _ H. rewrite E in H. now inversion H.
    + split; [eexists; reflexivity|]. split; [reflexivity|].
      intros v t st [= <-] [= <-] _ H. rewrite E in H. discriminate H.
  - split; [eexists; reflexivity|]. split; [reflexivity|].
    intros v t state [= <-]. discriminate.
  - split; [eexists; reflexivity|]. split; [reflexivity|].
    intros v t state. discriminate.
Qed.

Lemma getStateFromView_never_throws_witness :
  unusable_token (Some Samples.broken_view) /\
  Home.getStateFromView (Some Samples.broken_view) = Ok (VObj []) /\
  Home.getStateFromView None = Ok (VObj []).
Proof.
  assert (H : unusable_token (Some Samples.broken_view))
    by (right; exists "SyntaxError"; reflexivity).
  split; [exact H|]. split.
  - apply (proj1 (proj2 (getStateFromView_never_throws (Some Samples.broken_view)))).
    exact H.
  - apply (proj1 (proj2 (getStateFromView_never_throws None))). exact I.
Defined.

(* ================================================================== *)
(** ** Further properties: cards and card lists *)
(* ================================================================== *)

Section Cards.

Import Types.

(** [metaText] is empty exactly when neither the owner, nor the date, nor the
    status is a non-empty string. *)
Lemma metaText_empty (item : CardItem) :
  is_empty (Builders.metaText item) = negb (has_meta item).
Proof.
  unfold Builders.metaText, has_meta.
  remember (Builders.getStatusEmoji (meta_status (card_meta item))) as glyph.
  destruct (meta_owner (card_meta item)) as [[|o owner]|];
    destruct (meta_date (card_meta item)) as [[|d date]|];
    destruct (meta_status (card_meta item)) as [[|c status]|];
    cbn [and_then is_empty filter truthy negb orb String.append];
    repeat rewrite is_empty_append_r;
    cbn [negb filter join nullish is_empty String.append];
    repeat rewrite is_empty_append_r; reflexivity.
Qed.

Lemma separated_app (sep : value) (g : list value) (gs : list (list value))
    (h : list value) (hs : list (list value)) :
  separated sep ((g :: gs) ++ h :: hs)
  = separated sep (g :: gs) ++ sep :: separated sep (h :: hs).
Proof.
  revert g. induction gs as [|g' gs IH]; intros g.
  - reflexivity.
  - change (separated sep ((g :: g' :: gs) ++ h :: hs))
      with (g ++ sep :: separated sep ((g' :: gs) ++ h :: hs)).
    rewrite IH.
    change (separated sep (g :: g' :: gs))
      with (g ++ sep :: separated sep (g' :: gs)).
    rewrite <- app_assoc. reflexivity.
Qed.

Lemma separated_length (sep : value) (groups : list (list value)) :
  length (separated sep groups)
  = list_sum (map (@length value) groups) + (length groups - 1).
Proof.
  induction groups as [|g [|g' gs] IH].
  - reflexivity.
  - simpl. lia.
  - change (separated sep (g :: g' :: gs))
      with (g ++ sep :: separated sep (g' :: gs)).
    rewrite length_app. cbn [length]. rewrite IH. simpl. lia.
Qed.

Lemma block_ids_app (a b : list value) :
  block_ids (a ++ b) = block_ids a ++ block_ids b.
Proof.
  unfold block_ids. apply flat_map_app.
Qed.

Lemma block_ids_buildCard (item : CardItem) :
  block_ids (Builders.buildCard item) = [ "card_" +++ card_id item ].
Proof.
  unfold Builders.buildCard.
  destruct (negb (is_empty (Builders.metaText item)));
    destruct (Builders.has_actions (card_actions item)); reflexivity.
Qed.

Lemma block_ids_separated_cards (items : list CardItem) :
  block_ids (separated Builders.divider (map Builders.buildCard items))
  = map (fun item => "card_" +++ card_id item) items.
Proof.
  induction items as [|item [|next rest] IH].
  - reflexivity.
  - simpl. rewrite block_ids_buildCard. reflexivity.
  - change (separated Builders.divider
              (map Builders.buildCard (item :: next :: rest)))
      with (Builders.buildCard item
            ++ [ Builders.divider ]
            ++ separated Builders.divider (map Builders.buildCard (next :: rest))).
    rewrite !block_ids_app, block_ids_buildCard, IH. reflexivity.
Qed.

Lemma prefixed_injective (prefix a b : string) :
  prefix +++ a = prefix +++ b -> a = b.
Proof.
  induction prefix as [|c prefix IH]; simpl; intros H; [exact H|].
  injection H as H. now apply IH.
Qed.

Lemma prefixed_NoDup {A : Type} (prefix : string) (id : A -> string) (l : list A) :
  NoDup (map id l) -> NoDup (map (fun x => prefix +++ id x) l).
Proof.
  intros H. rewrite <- (map_map id (fun s => prefix +++ s)).
  apply NoDup_map_NoDup_ForallPairs; [|exact H].
  intros a b _ _. apply prefixed_injective.
Qed.

End Cards.

(** X1: a card is its section, then a context block exactly when the owner,
    the date or the status is a non-empty string, then an actions block
    exactly when the item has one action or more; so it has one to three
    blocks, and the section is alone for an item without meta and actions. *)
Theorem buildCard_blocks (item : Types.CardItem) :
  map (fun block => get block "type") (Builders.buildCard item)
  = [ VStr "section" ]
    ++ (if has_meta item then [ VStr "context" ] else [])
    ++ (if Builders.has_actions (Types.card_actions item)
        then [ VStr "actions" ] else []) /\
  length (Builders.buildCard item) = card_size item /\
  1 <= length (Builders.buildCard item) <= 3 /\
  context_text (Builders.buildCard item)
  = (if has_meta item then Some (Builders.metaText item) else None).
Proof.
  assert (Hlen : length (Builders.buildCard item) = card_size item).
  { unfold Builders.buildCard, card_size. rewrite metaText_empty, negb_involutive.
    destruct (has_meta item);
      destruct (Builders.has_actions (Types.card_actions item)); reflexivity. }
  split; [|split; [exact Hlen|split]].
  - unfold Builders.buildCard. rewrite metaText_empty, negb_involutive.
    destruct (has_meta item);
      destruct (Builders.has_actions (Types.card_actions item)); reflexivity.
  - rewrite Hlen. unfold card_size.
    destruct (has_meta item);
      destruct (Builders.has_actions (Types.card_actions item)); simpl; lia.
  - rewrite context_text_buildCard, metaText_empty.
    destruct (has_meta item); reflexivity.
Qed.

(** X2: [buildCardList] of two non-empty lists put end to end is the two
    card lists with one divider between them, and the number of blocks of a
    card list is the sum of the sizes of its cards plus one divider for each
    card but the last. *)
Theorem buildCardList_append :
  (forall x xs y ys,
     Builders.buildCardList ((x :: xs) ++ y :: ys)
     = Builders.buildCardList (x :: xs)
       ++ Builders.divider :: Builders.buildCardList (y :: ys)) /\
  (forall items,
     length (Builders.buildCardList items)
     = list_sum (map card_size items) + (length items - 1)).
Proof.
  split.
  - intros x xs y ys. rewrite !buildCardList_separated.
    rewrite map_app. apply (separated_app Builders.divider).
  - intros items. rewrite buildCardList_separated, separated_length.
    rewrite map_map, length_map. f_equal. f_equal.
    apply map_ext. intros item.
    unfold Builders.buildCard, card_size. rewrite metaText_empty, negb_involutive.
    destruct (has_meta item);
      destruct (Builders.has_actions (Types.card_actions item)); reflexivity.
Qed.

(** X3: the block ids of a card list are "card_" and the id of each item, in
    input order, one per card; when the items have distinct ids the block ids
    are distinct. *)
Theorem buildCardList_block_ids (items : list Types.CardItem) :
  block_ids (Builders.buildCardList items)
  = map (fun item => "card_" +++ Types.card_id item) items /\
  (NoDup (map Types.card_id items) ->
   NoDup (block_ids (Builders.buildCardList items))).
Proof.
  assert (E : block_ids (Builders.buildCardList items)
              = map (fun item => "card_" +++ Types.card_id item) items)
    by (rewrite buildCardList_separated; apply block_ids_separated_cards).
  split; [exact E|].
  intros H. rewrite E. now apply prefixed_NoDup.
Qed.

Lemma buildCardList_block_ids_witness :
  NoDup (block_ids (Builders.buildCardList Samples.three_cards)).
Proof.
  apply (proj2 (buildCardList_block_ids Samples.three_cards)).
  repeat constructor; simpl; intuition discriminate.
Defined.

(* ================================================================== *)
(** ** Further properties: the tabs of the CardItem family *)
(* ================================================================== *)

Section Content.

Import Types.

Lemma filter_idempotent {A : Type} (f : A -> bool) (l : list A) :
  filter f (filter f l) = filter f l.
Proof.
  induction l as [|x l IH]; [reflexivity|].
  simpl. destruct (f x) eqn:E; [|exact IH].
  simpl. now rewrite E, IH.
Qed.

(** [buildMyUpdatesContent] by the items it keeps. *)
Lemma buildMyUpdatesContent_kept (items : list CardItem) :
  Builders.buildMyUpdatesContent items
  = match filter mine items with
    | [] => no_updates_from_you
    | kept =>
        your_heading (length kept) :: Builders.divider
        :: separated Builders.divider (map Builders.buildCard kept)
    end.
Proof.
  unfold Builders.buildMyUpdatesContent.
  change (filter (fun item => same_value (meta_owner (card_meta item)) (Some "me"))
                 items)
    with (filter mine items).
  destruct (filter mine items) as [|item kept]; [reflexivity|].
  rewrite buildCardList_separated. reflexivity.
Qed.

Lemma same_value_eq (a b : option string) : same_value a b = true <-> a = b.
Proof.
  destruct a as [x|], b as [y|]; simpl; try (split; congruence).
  rewrite String.eqb_eq. split; congruence.
Qed.

Lemma existsb_same_value (x : option string) (seen : list (option string)) :
  existsb (same_value x) seen = true <-> In x seen.
Proof.
  rewrite existsb_exists. split.
  - intros (y & Hy & E). apply same_value_eq in E. now subst.
  - intros H. exists x. split; [exact H | now apply same_value_eq].
Qed.

(** The set built from a list, from the elements seen so far: no element
    twice, and the elements seen or met. *)
Lemma Set_of_spec (l : list (option string)) :
  forall seen,
    NoDup seen ->
    NoDup (Set_of l seen) /\
    forall x, In x (Set_of l seen) <-> In x seen \/ In x l.
Proof.
  induction l as [|y l IH]; intros seen Hseen; simpl.
  - split; [exact Hseen | tauto].
  - destruct (existsb (same_value y) seen) eqn:E.
    + apply existsb_same_value in E.
      destruct (IH seen Hseen) as [Hn Hin]. split; [exact Hn|].
      intros x. rewrite Hin. intuition (subst; auto).
    + assert (Hy : ~ In y seen).
      { intros H. apply existsb_same_value in H. congruence. }
      assert (Hseen' : NoDup (seen ++ [ y ])).
      { apply NoDup_app; [exact Hseen | repeat constructor; simpl; tauto |].
        intros a Ha [<-|[]]. contradiction. }
      destruct (IH (seen ++ [ y ]) Hseen') as [Hn Hin]. split; [exact Hn|].
      intros x. rewrite Hin, in_app_iff. simpl. tauto.
Qed.

(** [new Set(l).size] is the number of distinct elements of [l]. *)
Lemma Set_size_nodup (l : list (option string)) :
  Set_size l = length (nodup owner_eq_dec l).
Proof.
  unfold Set_size.
  destruct (Set_of_spec l [] (NoDup_nil _)) as [Hn Hin].
  apply Nat.le_antisymm; apply NoDup_incl_length;
    try exact Hn; try apply NoDup_nodup;
    intros x Hx.
  - apply nodup_In. apply Hin in Hx. simpl in Hx. tauto.
  - apply Hin. right. now apply nodup_In in Hx.
Qed.

Lemma nodup_length_le (l : list (option string)) :
  length (nodup owner_eq_dec l) <= length l.
Proof.
  induction l as [|x l IH]; simpl; [lia|].
  destruct (in_dec owner_eq_dec x l); simpl; lia.
Qed.

Lemma filter_length_le {A : Type} (f : A -> bool) (l : list A) :
  length (filter f l) <= length l.
Proof.
  induction l as [|x l IH]; simpl; [lia|].
  destruct (f x); simpl; lia.
Qed.

End Content.

(** X4: the my-updates tab shows the items whose owner is the string "me" and
    no other: its content is the same for the list and for the items of "me"
    in it, an item of another owner put anywhere changes nothing, without an
    item of "me" it is the "No updates from you" empty state, and otherwise
    the heading with their number, a divider and their cards in input
    order. *)
Theorem buildMyUpdatesContent_only_mine :
  (forall items,
     Builders.buildMyUpdatesContent (filter mine items)
     = Builders.buildMyUpdatesContent items) /\
  (forall before other after,
     mine other = false ->
     Builders.buildMyUpdatesContent (before ++ other :: after)
     = Builders.buildMyUpdatesContent (before ++ after)) /\
  (forall items,
     filter mine items = [] ->
     Builders.buildMyUpdatesContent items = no_updates_from_you) /\
  (forall items item kept,
     filter mine items = item :: kept ->
     Builders.buildMyUpdatesContent items
     = your_heading (S (length kept)) :: Builders.divider
       :: separated Builders.divider (map Builders.buildCard (item :: kept))).
Proof.
  split; [|split; [|split]].
  - intros items. rewrite !buildMyUpdatesContent_kept, filter_idempotent.
    reflexivity.
  - intros before other after H. rewrite !buildMyUpdatesContent_kept.
    rewrite !filter_app. simpl. rewrite H. reflexivity.
  - intros items H. rewrite buildMyUpdatesContent_kept, H. reflexivity.
  - intros items item kept H. rewrite buildMyUpdatesContent_kept, H. reflexivity.
Qed.

Lemma buildMyUpdatesContent_only_mine_witness :
  Builders.buildMyUpdatesContent [ Trials.complete_card; Trials.my_card ]
  = Builders.buildMyUpdatesContent [ Trials.my_card ] /\
  Builders.buildMyUpdatesContent [ Trials.complete_card ] = no_updates_from_you /\
  Builders.buildMyUpdatesContent [ Trials.complete_card; Trials.my_card ]
  = [ your_heading 1; Builders.divider ] ++ Builders.buildCard Trials.my_card.
Proof.
  destruct buildMyUpdatesContent_only_mine as (_ & Hother & Hnone & Hsome).
  split; [|split].
  - apply (Hother [] Trials.complete_card [ Trials.my_card ]). reflexivity.
  - apply Hnone. reflexivity.
  - apply (Hsome _ Trials.my_card []). reflexivity.
Defined.

(** X5: the admin tab always has five blocks, and its statistics read the
    number of items, the number of distinct owners among them (an item without
    owner counts for the owner [undefined]) and the number of items whose
    status is "pending"; neither of the last two is more than the first. *)
Theorem buildAdminContent_statistics (items : list Types.CardItem) :
  map (fun block => get block "type") (Builders.buildAdminContent items)
  = [ VStr "section"; VStr "divider"; VStr "section"; VStr "divider";
      VStr "actions" ] /\
  section_text (nth 2 (Builders.buildAdminContent items) VUndefined)
  = Some (statistics_text
            (length items)
            (length (nodup owner_eq_dec
                           (map (fun i => Types.meta_owner (Types.card_meta i)) items)))
            (length (filter is_pending items))) /\
  length (nodup owner_eq_dec
                (map (fun i => Types.meta_owner (Types.card_meta i)) items))
  <= length items /\
  length (filter is_pending items) <= length items.
Proof.
  split; [reflexivity|]. split; [|split].
  - unfold Builders.buildAdminContent. rewrite Set_size_nodup. reflexivity.
  - etransitivity; [apply nodup_length_le|]. now rewrite length_map.
  - apply filter_length_le.
Qed.

(* ================================================================== *)
(** ** Further properties: toggles, card actions and the home document *)
(* ================================================================== *)

(** A string starts with any prefix it is built with. *)
Lemma starts_with_append (p s : string) : starts_with p (p +++ s) = true.
Proof.
  unfold starts_with. induction p as [|c p IH]; simpl.
  - destruct s; reflexivity.
  - destruct (ascii_dec c c) as [_|Hc]; [exact IH | now contradiction Hc].
Qed.

(** X6: a toggle is one actions block with one button, followed by the
    expanded view when [isExpanded] holds and by the collapsed view
    otherwise, block for block; the button's id is "toggle_" and the toggle's
    id, it matches the pattern of the toggle handler, and the handler's
    [replace] gives the toggle's id back. *)
Theorem buildToggle_selects_view (config : Types.ToggleConfig) :
  exists bar button,
    Builders.buildToggle config
    = bar :: (if Types.isExpanded config
              then Types.expandedView config else Types.collapsedView config) /\
    has_type "actions" bar = true /\
    buttons bar = [ button ] /\
    get bar "block_id" = VStr ("toggle_" +++ Types.toggle_id config) /\
    action_id_of button = Some ("toggle_" +++ Types.toggle_id config) /\
    label_of button
    = Some (if Types.isExpanded config then "🔼 Collapse" else "🔽 Expand") /\
    starts_with "toggle_" ("toggle_" +++ Types.toggle_id config) = true /\
    option_map Example.toggleId (action_id_of button)
    = Some (Types.toggle_id config).
Proof.
  unfold Builders.buildToggle.
  destruct (Types.isExpanded config);
    do 2 eexists; (split; [reflexivity|]); repeat split;
    try apply starts_with_append; reflexivity.
Qed.

Section CardActions.

Import Types.

(** The prefix of the card action ids holds neither "view" nor "edit". *)
Lemma includes_card_action (id : string) :
  includes "view" ("card_action_" +++ id) = includes "view" id /\
  includes "edit" ("card_action_" +++ id) = includes "edit" id.
Proof.
  split; reflexivity.
Qed.

End CardActions.

(** X7: the button of an action of a card has the id "card_action_" and the
    action's id, which matches the pattern of the card action handler, and the
    card's id as its value; so what the handler logs depends on the action's id
    alone ("view" in it first, then "edit") and names the card; the buttons of
    a card with actions are those of its actions, in order. *)
Theorem card_buttons_name_the_card :
  (forall item action,
     action_id_of (Builders.card_button item action)
     = Some ("card_action_" +++ Types.action_id action) /\
     starts_with "card_action_" ("card_action_" +++ Types.action_id action) = true /\
     value_of (Builders.card_button item action) = Some (Types.card_id item) /\
     Example.card_action_log ("card_action_" +++ Types.action_id action)
                             (Types.card_id item)
     = logged_for (Types.action_id action) (Types.card_id item)) /\
  (forall item action actions,
     Types.card_actions item = Some (action :: actions) ->
     buttons (last_block (Builders.buildCard item))
     = map (Builders.card_button item) (action :: actions)).
Proof.
  split.
  - intros item action.
    split; [reflexivity|]. split; [apply starts_with_append|].
    split; [reflexivity|].
    unfold Example.card_action_log, logged_for.
    destruct (includes_card_action (Types.action_id action)) as [-> ->].
    reflexivity.
  - intros item action actions H. unfold Builders.buildCard. rewrite H.
    destruct (negb (is_empty (Builders.metaText item))); reflexivity.
Qed.

Lemma card_buttons_name_the_card_witness :
  map action_id_of (buttons (last_block (Builders.buildCard Trials.complete_card)))
  = [ Some "card_action_view"; Some "card_action_edit" ] /\
  Example.card_action_log "card_action_edit" "test-1"
  = Some "Editing update: test-1".
Proof.
  destruct card_buttons_name_the_card as [Hbutton Hbuttons]. split.
  - rewrite (Hbuttons Trials.complete_card _ _ eq_refl). reflexivity.
  - destruct (Hbutton Trials.complete_card
                {| Types.action_id := "edit"; Types.action_text := "Edit";
                   Types.action_style := Some "primary";
                   Types.action_confirm := None |}) as (_ & _ & _ & H).
    exact H.
Defined.

Section HomeDocument.

Import Types.

Lemma block_ids_buildContent (config : HomeTab) :
  block_ids (Builders.buildContent config)
  = map (fun item => "card_" +++ card_id item) (shown_cards config).
Proof.
  unfold Builders.buildContent, shown_cards.
  destruct (String.eqb (tab config) "overview").
  - unfold Builders.buildOverviewContent.
    destruct (items config) as [|item rest]; [reflexivity|].
    cbn [length Nat.eqb].
    destruct (5 <? S (length rest))%nat;
      rewrite ?block_ids_app, buildCardList_separated, block_ids_separated_cards;
      cbn [block_ids flat_map app get lookup String.eqb Ascii.eqb Bool.eqb];
      rewrite ?app_nil_r; reflexivity.
  - destruct (String.eqb (tab config) "my-updates").
    + rewrite buildMyUpdatesContent_kept.
      destruct (filter mine (items config)) as [|item kept] eqn:E; [reflexivity|].
      change (block_ids (your_heading (length (item :: kept)) :: Builders.divider
                         :: separated Builders.divider
                              (map Builders.buildCard (item :: kept))))
        with (block_ids (separated Builders.divider
                           (map Builders.buildCard (item :: kept)))).
      apply block_ids_separated_cards.
    + destruct (String.eqb (tab config) "admin"); reflexivity.
Qed.

Lemma NoDup_firstn {A : Type} (n : nat) (l : list A) :
  NoDup l -> NoDup (firstn n l).
Proof.
  intros H. rewrite <- (firstn_skipn n l) in H.
  now apply NoDup_app_remove_r in H.
Qed.

Lemma NoDup_map_filter {A B : Type} (f : A -> B) (keep : A -> bool) (l : list A) :
  NoDup (map f l) -> NoDup (map f (filter keep l)).
Proof.
  induction l as [|x l IH]; simpl; intros H; [constructor|].
  apply NoDup_cons_iff in H as [Hx Hl].
  destruct (keep x); [|now apply IH].
  simpl. constructor; [|now apply IH].
  intros Hin. apply Hx. apply in_map_iff in Hin as (y & E & Hy).
  apply in_map_iff. exists y. split; [exact E|].
  now apply filter_In in Hy.
Qed.

Lemma shown_cards_NoDup (config : HomeTab) :
  NoDup (map card_id (items config)) -> NoDup (map card_id (shown_cards config)).
Proof.
  intros H. unfold shown_cards.
  destruct (String.eqb (tab config) "overview").
  - rewrite <- firstn_map. now apply NoDup_firstn.
  - destruct (String.eqb (tab config) "my-updates"); [|constructor].
    now apply NoDup_map_filter.
Qed.

Lemma buildContent_length (config : HomeTab) :
  2 <= length (Builders.buildContent config).
Proof.
  unfold Builders.buildContent.
  destruct (String.eqb (tab config) "overview").
  - unfold Builders.buildOverviewContent.
    destruct (items config) as [|item rest]; [simpl; lia|].
    cbn [length Nat.eqb].
    destruct (5 <? S (length rest))%nat; rewrite ?length_app; simpl; lia.
  - destruct (String.eqb (tab config) "my-updates").
    + rewrite buildMyUpdatesContent_kept.
      destruct (filter mine (items config)); simpl; lia.
    + destruct (String.eqb (tab config) "admin"); simpl; lia.
Qed.

End HomeDocument.

(** X8: the blocks of [buildHome] are the header, the tab bar, a divider and
    the content of the tab, at least five blocks in all; their block ids are
    "home_header", "home_tabs" and "card_" with the id of each card shown (the
    first five items on the overview, the items of "me" on my-updates), and
    they are distinct when the items have distinct ids. *)
Theorem buildHome_block_ids (config : Types.HomeTab) :
  blocks_of (Builders.buildHome config)
  = Builders.buildHeader
      {| Types.header_icon := "📌"; Types.header_title := "Project Updates";
         Types.header_subtitle := Some "Track team progress and manage updates";
         Types.header_actions := Some [ Builders.refresh_cta ] |}
    ++ Builders.buildTabs (Types.tab config)
    ++ [ Builders.divider ]
    ++ Builders.buildContent config /\
  5 <= length (blocks_of (Builders.buildHome config)) /\
  block_ids (blocks_of (Builders.buildHome config))
  = "home_header" :: "home_tabs"
    :: map (fun item => "card_" +++ Types.card_id item) (shown_cards config) /\
  (NoDup (map Types.card_id (Types.items config)) ->
   NoDup (block_ids (blocks_of (Builders.buildHome config)))).
Proof.
  assert (Hids : block_ids (blocks_of (Builders.buildHome config))
                 = "home_header" :: "home_tabs"
                   :: map (fun item => "card_" +++ Types.card_id item)
                          (shown_cards config)).
  { change (blocks_of (Builders.buildHome config))
      with (Builders.buildHeader
              {| Types.header_icon := "📌"; Types.header_title := "Project Updates";
                 Types.header_subtitle :=
                   Some "Track team progress and manage updates";
                 Types.header_actions := Some [ Builders.refresh_cta ] |}
            ++ Builders.buildTabs (Types.tab config)
            ++ [ Builders.divider ]
            ++ Builders.buildContent config).
    rewrite !block_ids_app, block_ids_buildContent. reflexivity. }
  split; [reflexivity|]. split; [|split; [exact Hids|]].
  - change (blocks_of (Builders.buildHome config))
      with (Builders.buildHeader
              {| Types.header_icon := "📌"; Types.header_title := "Project Updates";
                 Types.header_subtitle :=
                   Some "Track team progress and manage updates";
                 Types.header_actions := Some [ Builders.refresh_cta ] |}
            ++ Builders.buildTabs (Types.tab config)
            ++ [ Builders.divider ]
            ++ Builders.buildContent config).
    rewrite !length_app. pose proof (buildContent_length config). simpl. lia.
  - intros H. rewrite Hids.
    pose proof (prefixed_NoDup "card_" Types.card_id _ (shown_cards_NoDup config H))
      as Hcards.
    constructor; [|constructor; [|exact Hcards]].
    + intros [E|Hin]; [discriminate E|].
      apply in_map_iff in Hin as (item & E & _). discriminate E.
    + intros Hin. apply in_map_iff in Hin as (item & E & _). discriminate E.
Qed.

Lemma buildHome_block_ids_witness :
  NoDup (block_ids (blocks_of (Builders.buildHome Trials.overview_home))).
Proof.
  apply (proj2 (proj2 (proj2 (buildHome_block_ids Trials.overview_home)))).
  repeat constructor; simpl; intuition discriminate.
Defined.

(* ================================================================== *)
(** ** Further properties: task and risk lists, navigation *)
(* ================================================================== *)

Section TaskFamily.

Import Models.

Lemma block_ids_buildTaskList (items : list Task) :
  block_ids (Cards.buildTaskList items)
  = map (fun t => "task_" +++ task_id t) items.
Proof.
  induction items as [|t rest IH]; [reflexivity|].
  change (Cards.buildTaskList (t :: rest))
    with (Cards.buildTaskCard t ++ Cards.buildTaskList rest).
  rewrite block_ids_app, IH. reflexivity.
Qed.

Lemma block_ids_buildRiskList (items : list Risk) :
  block_ids (Cards.buildRiskList items)
  = map (fun r => "risk_" +++ risk_id r) items.
Proof.
  induction items as [|r rest IH]; [reflexivity|].
  change (Cards.buildRiskList (r :: rest))
    with (Cards.buildRiskCard r ++ Cards.buildRiskList rest).
  rewrite block_ids_app, IH. reflexivity.
Qed.

Lemma buildTaskList_length (items : list Task) :
  length (Cards.buildTaskList items) = 3 * length items.
Proof.
  induction items as [|t rest IH]; [reflexivity|].
  change (Cards.buildTaskList (t :: rest))
    with (Cards.buildTaskCard t ++ Cards.buildTaskList rest).
  rewrite length_app, IH. simpl. lia.
Qed.

Lemma buildRiskList_length (items : list Risk) :
  length (Cards.buildRiskList items) = 3 * length items.
Proof.
  induction items as [|r rest IH]; [reflexivity|].
  change (Cards.buildRiskList (r :: rest))
    with (Cards.buildRiskCard r ++ Cards.buildRiskList rest).
  rewrite length_app, IH. simpl. lia.
Qed.

Lemma filter_map_swap {A B : Type} (f : B -> bool) (g : A -> B) (l : list A) :
  filter f (map g l) = map g (filter (fun x => f (g x)) l).
Proof.
  induction l as [|x l IH]; [reflexivity|].
  simpl. destruct (f (g x)); simpl; now rewrite IH.
Qed.

Lemma shown_selected_nav_row (selectedId : option string) (p : Project) :
  shown_selected (Nav.nav_row selectedId p) = is_selected selectedId p.
Proof.
  unfold shown_selected, is_selected, Nav.nav_row, accessory.
  cbn [get lookup String.eqb Ascii.eqb Bool.eqb].
  destruct (same_value selectedId (Some (project_id p))); reflexivity.
Qed.

(** The rows shown as selected are the rows of the projects that have the
    selected id. *)
Lemma selected_rows (projects : list Project) (selectedId : option string) :
  filter shown_selected (Nav.buildProjectNav projects selectedId)
  = map (Nav.nav_row selectedId) (filter (is_selected selectedId) projects).
Proof.
  rewrite buildProjectNav_rows.
  change (filter shown_selected
            (nav_label :: map (Nav.nav_row selectedId) projects
                          ++ [ Builders.divider ]))
    with (filter shown_selected
            (map (Nav.nav_row selectedId) projects ++ [ Builders.divider ])).
  rewrite filter_app, filter_map_swap.
  change (filter shown_selected [ Builders.divider ]) with (@nil value).
  rewrite app_nil_r. f_equal.
  apply filter_ext. intros p. apply shown_selected_nav_row.
Qed.

(** Among projects of distinct ids at most one has a given id. *)
Lemma selected_at_most_one (projects : list Project) (id : string) :
  NoDup (map project_id projects) ->
  length (filter (is_selected (Some id)) projects) <= 1.
Proof.
  induction projects as [|p rest IH]; cbn [map filter]; intros H; [simpl; lia|].
  apply NoDup_cons_iff in H as [Hp Hrest].
  destruct (is_selected (Some id) p) eqn:E; [|now apply IH].
  unfold is_selected in E. apply same_value_eq in E. injection E as ->.
  assert (Hnone : filter (is_selected (Some (project_id p))) rest = []).
  { clear IH Hrest. induction rest as [|q rest IH]; [reflexivity|].
    cbn [filter]. destruct (is_selected (Some (project_id p)) q) eqn:E.
    - unfold is_selected in E. apply same_value_eq in E. injection E as E.
      exfalso. apply Hp. simpl. left. now symmetry.
    - apply IH. intros Hin. apply Hp. simpl. now right. }
  rewrite Hnone. simpl. lia.
Qed.

Lemma selected_none (projects : list Project) :
  filter (is_selected None) projects = [].
Proof.
  induction projects as [|p rest IH]; [reflexivity | exact IH].
Qed.

End TaskFamily.

(** X9: [buildTaskList] and [buildRiskList] give three blocks for each record
    (section, context, divider), are compatible with putting two lists end to
    end, and their block ids are "task_" (or "risk_") and the id of each
    record, in input order; with distinct record ids the block ids are
    distinct. *)
Theorem task_and_risk_lists_blocks :
  (forall a b,
     Cards.buildTaskList (a ++ b) = Cards.buildTaskList a ++ Cards.buildTaskList b) /\
  (forall items,
     length (Cards.buildTaskList items) = 3 * length items /\
     block_ids (Cards.buildTaskList items)
     = map (fun t => "task_" +++ Models.task_id t) items /\
     (NoDup (map Models.task_id items) ->
      NoDup (block_ids (Cards.buildTaskList items)))) /\
  (forall a b,
     Cards.buildRiskList (a ++ b) = Cards.buildRiskList a ++ Cards.buildRiskList b) /\
  (forall items,
     length (Cards.buildRiskList items) = 3 * length items /\
     block_ids (Cards.buildRiskList items)
     = map (fun r => "risk_" +++ Models.risk_id r) items /\
     (NoDup (map Models.risk_id items) ->
      NoDup (block_ids (Cards.buildRiskList items)))).
Proof.
  split; [|split; [|split]].
  - intros a b. apply flat_map_app.
  - intros items. split; [apply buildTaskList_length|].
    split; [apply block_ids_buildTaskList|].
    intros H. rewrite block_ids_buildTaskList. now apply prefixed_NoDup.
  - intros a b. apply flat_map_app.
  - intros items. split; [apply buildRiskList_length|].
    split; [apply block_ids_buildRiskList|].
    intros H. rewrite block_ids_buildRiskList. now apply prefixed_NoDup.
Qed.

Lemma task_and_risk_lists_blocks_witness :
  NoDup (block_ids (Cards.buildTaskList Seed.tasks)) /\
  NoDup (block_ids (Cards.buildRiskList Seed.risks)).
Proof.
  destruct task_and_risk_lists_blocks as (_ & Htasks & _ & Hrisks). split.
  - apply (Htasks Seed.tasks). repeat constructor; simpl; intuition discriminate.
  - apply (Hrisks Seed.risks). repeat constructor; simpl; intuition discriminate.
Defined.

(** X10: the navigation rows shown as selected (button "Open") are the rows
    of the projects whose id is the selected id, in order: none without a
    selected id or when no project has it, and at most one when the projects
    have distinct ids. *)
Theorem nav_rows_shown_selected (projects : list Models.Project)
    (selectedId : option string) :
  filter shown_selected (Nav.buildProjectNav projects selectedId)
  = map (Nav.nav_row selectedId) (filter (is_selected selectedId) projects) /\
  (selectedId = None ->
   filter shown_selected (Nav.buildProjectNav projects selectedId) = []) /\
  ((forall p, In p projects -> selectedId <> Some (Models.project_id p)) ->
   filter shown_selected (Nav.buildProjectNav projects selectedId) = []) /\
  (NoDup (map Models.project_id projects) ->
   length (filter shown_selected (Nav.buildProjectNav projects selectedId)) <= 1).
Proof.
  split; [apply selected_rows|]. split; [|split].
  - intros ->. now rewrite selected_rows, selected_none.
  - intros H. rewrite selected_rows.
    replace (filter (is_selected selectedId) projects) with (@nil Models.Project);
      [reflexivity|].
    symmetry. induction projects as [|p rest IH]; [reflexivity|].
    simpl. destruct (is_selected selectedId p) eqn:E.
    + unfold is_selected in E. apply same_value_eq in E.
      exfalso. apply (H p); [now left | exact E].
    + apply IH. intros q Hq. apply H. now right.
  - intros H. rewrite selected_rows, length_map.
    destruct selectedId as [id|]; [now apply selected_at_most_one|].
    rewrite selected_none. simpl. lia.
Qed.

Lemma nav_rows_shown_selected_witness :
  filter shown_selected (Nav.buildProjectNav Seed.projects None) = [] /\
  filter shown_selected (Nav.buildProjectNav Seed.projects (Some "p9")) = [] /\
  length (filter shown_selected (Nav.buildProjectNav Seed.projects (Some "p2"))) <= 1.
Proof.
  split; [|split].
  - apply (proj1 (proj2 (nav_rows_shown_selected Seed.projects None))).
    reflexivity.
  - apply (proj1 (proj2 (proj2 (nav_rows_shown_selected Seed.projects (Some "p9"))))).
    simpl. intros p [<-|[<-|[]]]; discriminate.
  - apply (proj2 (proj2 (proj2 (nav_rows_shown_selected Seed.projects (Some "p2"))))).
    repeat constructor; simpl; intuition discriminate.
Defined.

(* ================================================================== *)
(** ** Further properties: the home view of the Task/Risk family *)
(* ================================================================== *)

Section HomeView.

Import Models.

(** The blocks of the document, part by part. *)
Lemma buildHomeView_blocks (params : Views.HomeViewParams) :
  blocks_of (Views.buildHomeView params)
  = Nav.buildProjectNav (Views.projects params)
                        (option_map project_id (Views.selectedProject params))
    ++ [ home_header (Views.selectedProject params); Builders.divider ]
    ++ tab_bar (Views.selectedProject params)
               (Views.default (Views.activeTab params) "summary")
    ++ Views.bodyBlocks (Views.selectedProject params)
                        (Views.default (Views.activeTab params) "summary")
                        (Views.default (Views.tasks params) [])
                        (Views.default (Views.risks params) []).
Proof.
  unfold Views.buildHomeView, blocks_of, tab_bar, home_header.
  destruct (Views.selectedProject params); reflexivity.
Qed.

Lemma block_ids_nav (projects : list Project) (selectedId : option string) :
  block_ids (Nav.buildProjectNav projects selectedId)
  = map (fun p => "nav_" +++ project_id p) projects.
Proof.
  rewrite buildProjectNav_rows.
  change (block_ids (nav_label :: map (Nav.nav_row selectedId) projects
                     ++ [ Builders.divider ]))
    with (block_ids (map (Nav.nav_row selectedId) projects ++ [ Builders.divider ])).
  rewrite block_ids_app. change (block_ids [ Builders.divider ]) with (@nil string).
  rewrite app_nil_r.
  induction projects as [|p rest IH]; [reflexivity|].
  change (block_ids (map (Nav.nav_row selectedId) (p :: rest)))
    with (("nav_" +++ project_id p)
          :: block_ids (map (Nav.nav_row selectedId) rest)).
  now rewrite IH.
Qed.

Lemma block_ids_bodyBlocks (selected : option Project) (activeTab : string)
    (tasks : list Task) (risks : list Risk) :
  block_ids (Views.bodyBlocks selected activeTab tasks risks)
  = body_ids selected activeTab tasks risks.
Proof.
  unfold Views.bodyBlocks, body_ids.
  destruct selected as [project|]; [|reflexivity].
  destruct (String.eqb_spec activeTab "summary") as [->|_]; [reflexivity|].
  destruct (String.eqb activeTab "tasks").
  - destruct tasks as [|t rest]; [reflexivity|].
    cbn [length Nat.eqb negb]. rewrite block_ids_app.
    apply block_ids_buildTaskList.
  - destruct (String.eqb activeTab "risks"); [|reflexivity].
    destruct risks as [|r rest]; [reflexivity|].
    cbn [length Nat.eqb negb]. rewrite block_ids_app.
    apply block_ids_buildRiskList.
Qed.

Lemma nav_has_no_actions_block (projects : list Project)
    (selectedId : option string) :
  Forall (fun block => has_type "actions" block = false)
         (Nav.buildProjectNav projects selectedId).
Proof.
  rewrite buildProjectNav_rows. constructor; [reflexivity|].
  apply Forall_app. split; [|repeat constructor].
  apply Forall_forall. intros block Hin.
  apply in_map_iff in Hin as (p & <- & _). reflexivity.
Qed.

End HomeView.

(** X11: without a selected project the blocks of [buildHomeView] are the
    navigation with no row selected, the "AI Project Hub" header, a divider
    and the "No project selected" section, whatever the active tab, the tasks
    and the risks; no block is an actions block (there is no tab bar); the
    token still holds the active tab, and only it. *)
Theorem buildHomeView_without_project (params : Views.HomeViewParams) :
  Views.selectedProject params = None ->
  blocks_of (Views.buildHomeView params)
  = Nav.buildProjectNav (Views.projects params) None
    ++ [ home_header None; Builders.divider; no_project_selected ] /\
  Forall (fun block => has_type "actions" block = false)
         (blocks_of (Views.buildHomeView params)) /\
  Home.getStateFromView (Some (Home.view_of (Views.buildHomeView params)))
  = Ok (VObj [ ("activeTab",
                VStr (Views.default (Views.activeTab params) "summary")) ]).
Proof.
  intros H. rewrite buildHomeView_blocks, H. split; [reflexivity|]. split.
  - apply Forall_app. split; [apply nav_has_no_actions_block|].
    repeat constructor.
  - unfold Views.buildHomeView. rewrite H.
    apply (getStateFromView_state_object
             None (Some (Views.default (Views.activeTab params) "summary"))).
Qed.

Lemma buildHomeView_without_project_witness :
  length (blocks_of (Views.buildHomeView Trials.nothing_selected)) = 7.
Proof.
  rewrite (proj1 (buildHomeView_without_project Trials.nothing_selected eq_refl)).
  reflexivity.
Defined.

(** X12: with a project selected, the body of the summary tab is two blocks
    and reads the numbers of tasks and of risks; the body of the tasks tab does
    not depend on the risks and is the "Tasks" row, a divider and the task
    list, or one "No tasks yet" section when there is no task; the risks tab
    is the same with the two exchanged; on these three tabs the body is never
    empty.  The summary is the "Project Summary" section with the project's
    description, or "_No description_" without one, and the context line of
    the two numbers; the "Tasks" row has the button "New Task" and the "No
    tasks yet" section the button "Add Task", both with the action id
    "task_new"; the "Risks" row has the button "New Risk" and the "No risks
    captured" section the button "Add Risk", both with the action id
    "risk_new". *)
Theorem bodyBlocks_by_tab (project : Models.Project)
    (tasks : list Models.Task) (risks : list Models.Risk) :
  let row := fun (text action_id label : string) =>
    VObj [ ("type", VStr "section");
           ("text", VObj [ ("type", VStr "mrkdwn"); ("text", VStr text) ]);
           ("accessory",
            VObj [ ("type", VStr "button");
                   ("action_id", VStr action_id);
                   ("text", VObj [ ("type", VStr "plain_text");
                                   ("text", VStr label) ]) ]) ] in
  let rule := VObj [ ("type", VStr "divider") ] in
  (length (Views.bodyBlocks (Some project) "summary" tasks risks) = 2 /\
   context_text (Views.bodyBlocks (Some project) "summary" tasks risks)
   = Some ("*Tasks:* " +++ string_of_nat (length tasks)
           +++ "  •  *Risks:* " +++ string_of_nat (length risks)) /\
   Views.bodyBlocks (Some project) "summary" tasks risks
   = [ VObj [ ("type", VStr "section");
              ("text",
               VObj [ ("type", VStr "mrkdwn");
                      ("text",
                       VStr ("*Project Summary*" +++ newline
                             +++ match Models.project_description project with
                                 | Some description => description
                                 | None => "_No description_"
                                 end)) ]) ];
       VObj [ ("type", VStr "context");
              ("elements",
               VArr [ VObj [ ("type", VStr "mrkdwn");
                             ("text",
                              VStr ("*Tasks:* " +++ string_of_nat (length tasks)
                                    +++ "  •  *Risks:* "
                                    +++ string_of_nat (length risks))) ] ]) ] ]) /\
  (Views.bodyBlocks (Some project) "tasks" tasks risks
   = Views.bodyBlocks (Some project) "tasks" tasks [] /\
   length (Views.bodyBlocks (Some project) "tasks" tasks risks)
   = 2 + Nat.max 1 (3 * length tasks) /\
   (forall t,
      skipn 2 (Views.bodyBlocks (Some project) "tasks" (t :: tasks) risks)
      = Cards.buildTaskList (t :: tasks)) /\
   Views.bodyBlocks (Some project) "tasks" tasks risks
   = row "*Tasks*" "task_new" "New Task" :: rule
     :: match tasks with
        | [] => [ row ("*No tasks yet*" +++ newline
                       +++ "_Add your first task to get rolling._")
                      "task_new" "Add Task" ]
        | _ :: _ => Cards.buildTaskList tasks
        end) /\
  (Views.bodyBlocks (Some project) "risks" tasks risks
   = Views.bodyBlocks (Some project) "risks" [] risks /\
   length (Views.bodyBlocks (Some project) "risks" tasks risks)
   = 2 + Nat.max 1 (3 * length risks) /\
   Views.bodyBlocks (Some project) "risks" tasks risks
   = row "*Risks*" "risk_new" "New Risk" :: rule
     :: match risks with
        | [] => [ row ("*No risks captured*" +++ newline
                       +++ "_Add the first risk to start mitigation planning._")
                      "risk_new" "Add Risk" ]
        | _ :: _ => Cards.buildRiskList risks
        end).
Proof.
  intros row rule.
  split; [split; [reflexivity | split; [reflexivity|]]|].
  { unfold Views.bodyBlocks. cbn [String.eqb Ascii.eqb Bool.eqb].
    destruct (Models.project_description project); reflexivity. }
  split.
  - split; [reflexivity|]. split; [|split; [reflexivity|]].
    + unfold Views.bodyBlocks. cbn [String.eqb Ascii.eqb Bool.eqb].
      destruct tasks as [|t rest]; [reflexivity|].
      cbn [length Nat.eqb negb]. rewrite length_app, buildTaskList_length.
      simpl. lia.
    + unfold Views.bodyBlocks. cbn [String.eqb Ascii.eqb Bool.eqb].
      destruct tasks as [|t rest]; reflexivity.
  - split; [reflexivity|]. split.
    + unfold Views.bodyBlocks. cbn [String.eqb Ascii.eqb Bool.eqb].
      destruct risks as [|r rest]; [reflexivity|].
      cbn [length Nat.eqb negb]. rewrite length_app, buildRiskList_length.
      simpl. lia.
    + unfold Views.bodyBlocks. cbn [String.eqb Ascii.eqb Bool.eqb].
      destruct risks as [|r rest]; reflexivity.
Qed.

(** X13: the block ids of a [buildHomeView] document are "nav_" and the id of
    each project, "hdr", "tabs" when a project is selected, and then "empty"
    without a project, "task_" and the id of each task on the tasks tab,
    "risk_" and the id of each risk on the risks tab; when the projects, the
    tasks and the risks have distinct ids, no block id occurs twice. *)
Theorem buildHomeView_block_ids (params : Views.HomeViewParams) :
  block_ids (blocks_of (Views.buildHomeView params))
  = map (fun p => "nav_" +++ Models.project_id p) (Views.projects params)
    ++ [ "hdr" ]
    ++ (match Views.selectedProject params with
        | Some _ => [ "tabs" ]
        | None => []
        end)
    ++ body_ids (Views.selectedProject params)
                (Views.default (Views.activeTab params) "summary")
                (Views.default (Views.tasks params) [])
                (Views.default (Views.risks params) []) /\
  (NoDup (map Models.project_id (Views.projects params)) ->
   NoDup (map Models.task_id (Views.default (Views.tasks params) [])) ->
   NoDup (map Models.risk_id (Views.default (Views.risks params) [])) ->
   NoDup (block_ids (blocks_of (Views.buildHomeView params)))).
Proof.
  assert (Hids : block_ids (blocks_of (Views.buildHomeView params))
            = map (fun p => "nav_" +++ Models.project_id p) (Views.projects params)
              ++ [ "hdr" ]
              ++ (match Views.selectedProject params with
                  | Some _ => [ "tabs" ]
                  | None => []
                  end)
              ++ body_ids (Views.selectedProject params)
                          (Views.default (Views.activeTab params) "summary")
                          (Views.default (Views.tasks params) [])
                          (Views.default (Views.risks params) [])).
  { rewrite buildHomeView_blocks, !block_ids_app, block_ids_nav,
      block_ids_bodyBlocks.
    destruct (Views.selectedProject params); reflexivity. }
  split; [exact Hids|].
  intros Hp Ht Hr. rewrite Hids.
  set (active := Views.default (Views.activeTab params) "summary").
  set (tasks := Views.default (Views.tasks params) []) in *.
  set (risks := Views.default (Views.risks params) []) in *.
  assert (Hbody : NoDup (body_ids (Views.selectedProject params) active tasks risks)).
  { unfold body_ids. destruct (Views.selectedProject params).
    - destruct (String.eqb active "tasks"); [now apply prefixed_NoDup|].
      destruct (String.eqb active "risks"); [now apply prefixed_NoDup|constructor].
    - repeat constructor. simpl. tauto. }
  assert (Hbody_in : forall x,
            In x (body_ids (Views.selectedProject params) active tasks risks) ->
            x = "empty" \/ (exists id, x = "task_" +++ id)
            \/ (exists id, x = "risk_" +++ id)).
  { intros x. unfold body_ids. destruct (Views.selectedProject params).
    - destruct (String.eqb active "tasks").
      + intros Hin. apply in_map_iff in Hin as (t & <- & _). right. left. eauto.
      + destruct (String.eqb active "risks"); [|intros []].
        intros Hin. apply in_map_iff in Hin as (r & <- & _). right. right. eauto.
    - intros [<-|[]]. now left. }
  apply NoDup_app; [now apply prefixed_NoDup| |].
  - apply NoDup_app; [repeat constructor; simpl; tauto| |].
    + apply NoDup_app; [destruct (Views.selectedProject params);
                        repeat constructor; simpl; tauto | exact Hbody |].
      intros x Hx Hin. apply Hbody_in in Hin.
      destruct (Views.selectedProject params); [|destruct Hx].
      destruct Hx as [<-|[]].
      destruct Hin as [E|[[id E]|[id E]]]; discriminate E.
    + intros x [<-|[]] Hin. apply in_app_or in Hin as [Hin|Hin].
      * destruct (Views.selectedProject params); [|destruct Hin].
        destruct Hin as [E|[]]. discriminate E.
      * apply Hbody_in in Hin.
        destruct Hin as [E|[[id E]|[id E]]]; discriminate E.
  - intros x Hx Hin. apply in_map_iff in Hx as (p & <- & _).
    apply in_app_or in Hin as [[E|[]]|Hin]; [discriminate E|].
    apply in_app_or in Hin as [Hin|Hin].
    + destruct (Views.selectedProject params); [|destruct Hin].
      destruct Hin as [E|[]]. discriminate E.
    + apply Hbody_in in Hin.
      destruct Hin as [E|[[id E]|[id E]]]; discriminate E.
Qed.

Lemma buildHomeView_block_ids_witness :
  NoDup (block_ids (blocks_of (Views.buildHomeView Trials.tasks_of_p1))).
Proof.
  apply (proj2 (buildHomeView_block_ids Trials.tasks_of_p1));
    repeat constructor; simpl; intuition discriminate.
Defined.

(** X14: the text of the header of src/ui/header.ts is the template as it is
    written, for every input: [trim] removes nothing, since the text starts
    with a star and ends with an underscore; so an absent subtitle, like an
    empty one, leaves a line break and two underscores after the title. *)
Theorem header_ts_text (params : Header.HeaderParams) :
  section_text (Header.buildHeader params)
  = Some ("*" +++ nullish (Header.icon params) "📘" +++ " "
          +++ Header.title params +++ "*" +++ newline
          +++ "_" +++ nullish (Header.subtitle params) EmptyString +++ "_") /\
  (truthy (Header.subtitle params) = false ->
   section_text (Header.buildHeader params)
   = Some ("*" +++ nullish (Header.icon params) "📘" +++ " "
           +++ Header.title params +++ "*" +++ newline +++ "__")).
Proof.
  rewrite Header_buildHeader_text. split; [reflexivity|].
  intros H. destruct (Header.subtitle params) as [[|c u]|];
    try discriminate H; reflexivity.
Qed.

Lemma header_ts_text_witness :
  section_text (Header.buildHeader Samples.title_only)
  = Some ("*📘 Roadmap*" +++ newline +++ "__").
Proof.
  rewrite (proj2 (header_ts_text Samples.title_only) eq_refl). reflexivity.
Defined.

(* ================================================================== *)
(** ** Further properties: the handlers of the home view *)
(* ================================================================== *)

Section ParserShape.

Import JSON.

(** The parser never gives [undefined]. *)
Lemma parse_value_defined (fuel : nat) :
  (forall s v r, parse_value fuel s = Some (v, r) -> v <> VUndefined) /\
  (forall s acc v r, parse_members fuel s acc = Some (v, r) -> v <> VUndefined) /\
  (forall s acc v r, parse_elements fuel s acc = Some (v, r) -> v <> VUndefined).
Proof.
  induction fuel as [|fuel (IHv & IHm & IHe)];
    [repeat split; intros; discriminate|].
  split; [|split].
  - intros s v r H. cbn [parse_value] in H.
    parse_cases H;
      try (injection H as <- <-; discriminate);
      try (now apply IHm in H); try (now apply IHe in H).
    all: unfold option_map in H; parse_cases H; injection H as <- <-; discriminate.
  - intros s acc v r H. cbn [parse_members] in H.
    parse_cases H;
      try (injection H as <- <-; discriminate);
      try (now apply IHm in H).
  - intros s acc v r H. cbn [parse_elements] in H.
    parse_cases H;
      try (injection H as <- <-; discriminate);
      try (now apply IHe in H).
Qed.

(** [getStateFromView] never returns [undefined]. *)
Lemma getStateFromView_defined (view : option Home.View) :
  Home.getStateFromView view <> Ok VUndefined.
Proof.
  unfold Home.getStateFromView.
  destruct view as [[[text|]]|]; cbn [Home.private_metadata]; try discriminate.
  destruct (negb (is_empty text)); [|discriminate].
  unfold parse.
  destruct (parse_value (S (String.length text)) text) as [[v r]|] eqn:E;
    [|discriminate].
  destruct (is_empty (skip_ws r)); [|discriminate].
  intros [= ->].
  exact (proj1 (parse_value_defined _) _ _ _ E eq_refl).
Qed.

End ParserShape.

Section HandlerLemmas.

Import Models.

Variable projects : list Project.
Variable tasks : list Task.
Variable risks : list Risk.

(** With distinct ids, a project of the store is found by its id. *)
Lemma getProjectById_found (p : Project) :
  NoDup (map project_id projects) ->
  In p projects ->
  Handlers.getProjectById projects (VStr (project_id p)) = Some p.
Proof.
  unfold Handlers.getProjectById.
  induction projects as [|q rest IH]; intros Hn Hin; [destruct Hin|].
  apply NoDup_cons_iff in Hn as [Hq Hrest].
  cbn [find is_str].
  destruct (String.eqb_spec (project_id p) (project_id q)) as [E|Hne].
  - destruct Hin as [->|Hin]; [reflexivity|].
    exfalso. apply Hq. rewrite <- E. now apply in_map.
  - destruct Hin as [->|Hin]; [now contradiction Hne | now apply IH].
Qed.

(** An id that no project has finds none. *)
Lemma getProjectById_unknown (id : value) :
  (forall p, In p projects -> id <> VStr (project_id p)) ->
  Handlers.getProjectById projects id = None.
Proof.
  unfold Handlers.getProjectById.
  induction projects as [|q rest IH]; intros H; [reflexivity|].
  cbn [find]. destruct (is_str id (project_id q)) eqn:E.
  - exfalso. apply (H q); [now left|].
    destruct id; try discriminate E. simpl in E.
    apply String.eqb_eq in E. now subst.
  - apply IH. intros p Hp. apply H. now right.
Qed.

(** The first project is found by its id, whatever the other ids are. *)
Lemma getProjectById_first (p : Project) :
  Handlers.first_project projects = Some p ->
  Handlers.getProjectById projects (VStr (project_id p)) = Some p.
Proof.
  unfold Handlers.first_project, Handlers.getProjectById.
  destruct projects as [|q rest]; [discriminate|].
  intros [= ->]. cbn [find is_str]. now rewrite String.eqb_refl.
Qed.

(** [getStateFromView] returns a value for every view. *)
Lemma getStateFromView_returns (view : option Home.View) :
  exists prev, Home.getStateFromView view = Ok prev.
Proof.
  unfold Home.getStateFromView.
  destruct view as [[[text|]]|]; cbn [Home.private_metadata].
  - destruct (negb (is_empty text)); [|eexists; reflexivity].
    destruct (JSON.parse text); eexists; reflexivity.
  - eexists; reflexivity.
  - eexists; reflexivity.
Qed.

(** A view without usable token decodes to the empty object. *)
Lemma getStateFromView_unusable (view : option Home.View) :
  unusable_token view -> Home.getStateFromView view = Ok (VObj []).
Proof.
  unfold Home.getStateFromView, unusable_token.
  destruct view as [[[[|c text]|]]|]; cbn [Home.private_metadata is_empty negb];
    try reflexivity.
  intros [H|[error H]]; [discriminate H|]. now rewrite H.
Qed.

(** The tab handler, from the state the view decodes to. *)
Lemma tab_view_from_state (clicked : option string) (view : option Home.View)
    (prev stored : value) :
  Home.getStateFromView view = Ok prev ->
  member prev "selectedProjectId" = Ok stored ->
  is_nullish stored = false ->
  Handlers.tab_view projects tasks risks clicked view
  = Ok (Views.buildHomeView
          (handler_params projects tasks risks
             (match Handlers.getProjectById projects stored with
              | Some p => Some p
              | None => Handlers.first_project projects
              end)
             clicked stored)).
Proof.
  intros Hprev Hstored Hnull. unfold Handlers.tab_view.
  rewrite Hprev. cbn [Runtime.bind]. rewrite Hstored. cbn [Runtime.bind].
  rewrite Hnull. reflexivity.
Qed.

(** The tab handler when the state holds no project id. *)
Lemma tab_view_without_id (clicked : option string) (view : option Home.View)
    (prev stored : value) (first : Project) :
  Home.getStateFromView view = Ok prev ->
  member prev "selectedProjectId" = Ok stored ->
  is_nullish stored = true ->
  Handlers.first_project projects = Some first ->
  Handlers.tab_view projects tasks risks clicked view
  = Ok (Views.buildHomeView
          (handler_params projects tasks risks (Some first) clicked
                          (VStr (project_id first)))).
Proof.
  intros Hprev Hstored Hnull Hfirst. unfold Handlers.tab_view.
  rewrite Hprev. cbn [Runtime.bind]. rewrite Hstored. cbn [Runtime.bind].
  rewrite Hnull. unfold Handlers.first_project_id. rewrite Hfirst.
  cbn [Runtime.bind]. rewrite (getProjectById_first first Hfirst). reflexivity.
Qed.

End HandlerLemmas.

(** X15: an action id matches at most one of the two patterns the home
    handlers are registered with.  The button of a navigation row has the id
    "nav_open_" and the project's id, which matches [/^nav_open_/] and not
    [/^tab_/], and the project's id as its value; the buttons of the tab bar
    have the id "tab_" and the tab, which matches [/^tab_/] and not
    [/^nav_open_/], and the tab as their value; the menus of the task and
    risk cards match neither. *)
Theorem action_ids_match_one_pattern :
  (forall id, starts_with "nav_open_" id && starts_with "tab_" id = false) /\
  (forall selectedId p,
     action_id_of (accessory (Nav.nav_row selectedId p))
     = Some ("nav_open_" +++ Models.project_id p) /\
     value_of (accessory (Nav.nav_row selectedId p)) = Some (Models.project_id p) /\
     starts_with "nav_open_" ("nav_open_" +++ Models.project_id p) = true /\
     starts_with "tab_" ("nav_open_" +++ Models.project_id p) = false) /\
  (forall active,
     map action_id_of (buttons (Tabs.buildProjectTabs active))
     = map (fun tab => Some ("tab_" +++ tab)) [ "summary"; "tasks"; "risks" ] /\
     map value_of (buttons (Tabs.buildProjectTabs active))
     = map Some [ "summary"; "tasks"; "risks" ]) /\
  (forall tab,
     starts_with "tab_" ("tab_" +++ tab) = true /\
     starts_with "nav_open_" ("tab_" +++ tab) = false) /\
  (forall t,
     action_id_of (accessory (hd VUndefined (Cards.buildTaskCard t)))
     = Some ("task_menu_" +++ Models.task_id t) /\
     starts_with "nav_open_" ("task_menu_" +++ Models.task_id t) = false /\
     starts_with "tab_" ("task_menu_" +++ Models.task_id t) = false) /\
  (forall r,
     action_id_of (accessory (hd VUndefined (Cards.buildRiskCard r)))
     = Some ("risk_menu_" +++ Models.risk_id r) /\
     starts_with "nav_open_" ("risk_menu_" +++ Models.risk_id r) = false /\
     starts_with "tab_" ("risk_menu_" +++ Models.risk_id r) = false).
Proof.
  split; [|split; [|split; [|split; [|split]]]].
  - intros [|c id]; [reflexivity|]. unfold starts_with. cbn [String.prefix].
    destruct (ascii_dec "n" c) as [<-|_]; [|reflexivity].
    apply andb_false_r.
  - intros selectedId p.
    split; [reflexivity|]. split; [reflexivity|].
    split; [apply starts_with_append | reflexivity].
  - intros active. split; reflexivity.
  - intros tab. split; [apply starts_with_append | reflexivity].
  - intros t. repeat split.
  - intros r. repeat split.
Qed.

(** X16: in a store of projects with distinct ids, the value of the button of
    a project's navigation row makes the navigation handler publish the view of
    that project on the summary tab, with the tasks and the risks whose
    [projectId] is the project's id; a value that is the id of no project
    makes it publish the view without a selected project. *)
Theorem nav_click_selects_the_project (projects : list Models.Project)
    (tasks : list Models.Task) (risks : list Models.Risk) :
  NoDup (map Models.project_id projects) ->
  (forall selectedId p,
     In p projects ->
     Handlers.nav_open_view projects tasks risks
       (of_opt (value_of (accessory (Nav.nav_row selectedId p))))
     = Views.buildHomeView
         (handler_params projects tasks risks (Some p) (Some "summary")
                         (VStr (Models.project_id p)))) /\
  (forall clicked,
     (forall p, In p projects -> clicked <> VStr (Models.project_id p)) ->
     Handlers.nav_open_view projects tasks risks clicked
     = Views.buildHomeView
         (handler_params projects tasks risks None (Some "summary") clicked) /\
     blocks_of (Handlers.nav_open_view projects tasks risks clicked)
     = Nav.buildProjectNav projects None
       ++ [ home_header None; Builders.divider; no_project_selected ]).
Proof.
  intros Hn. split.
  - intros selectedId p Hin. unfold Handlers.nav_open_view.
    change (of_opt (value_of (accessory (Nav.nav_row selectedId p))))
      with (VStr (Models.project_id p)).
    now rewrite (getProjectById_found projects p Hn Hin).
  - intros clicked H.
    assert (E : Handlers.nav_open_view projects tasks risks clicked
                = Views.buildHomeView
                    (handler_params projects tasks risks None (Some "summary")
                                    clicked)).
    { unfold Handlers.nav_open_view.
      now rewrite (getProjectById_unknown projects clicked H). }
    split; [exact E|]. rewrite E, buildHomeView_blocks. reflexivity.
Qed.

Lemma nav_click_selects_the_project_witness :
  Handlers.Registered.nav_open_view (VStr "p2")
  = Views.buildHomeView
      {| Views.projects := Seed.projects;
         Views.selectedProject := Some Seed.p2;
         Views.activeTab := Some "summary";
         Views.tasks := Some [ Seed.t3 ];
         Views.risks := Some [ Seed.r2 ] |}.
Proof.
  assert (Hn : NoDup (map Models.project_id Seed.projects))
    by (repeat constructor; simpl; intuition discriminate).
  apply (proj1 (nav_click_selects_the_project
                  Seed.projects Seed.tasks Seed.risks Hn) None Seed.p2).
  simpl. tauto.
Defined.

(** X17: in a store of projects with distinct ids, a click on a tab of a view
    that [buildHomeView] built for a project of the store makes the tab
    handler publish the view of the same project on the clicked tab, with the
    tasks and risks of that project; the token of the new view decodes to the
    project's id and the clicked tab. *)
Theorem tab_click_keeps_the_project (projects : list Models.Project)
    (tasks : list Models.Task) (risks : list Models.Risk)
    (previous : Views.HomeViewParams) (p : Models.Project) (clicked : string) :
  NoDup (map Models.project_id projects) ->
  In p projects ->
  Views.selectedProject previous = Some p ->
  Handlers.tab_view projects tasks risks (Some clicked)
    (Some (Home.view_of (Views.buildHomeView previous)))
  = Ok (Views.buildHomeView
          (handler_params projects tasks risks (Some p) (Some clicked)
                          (VStr (Models.project_id p)))) /\
  Home.getStateFromView
    (Some (Home.view_of
             (Views.buildHomeView
                (handler_params projects tasks risks (Some p) (Some clicked)
                                (VStr (Models.project_id p))))))
  = Ok (VObj [ ("selectedProjectId", VStr (Models.project_id p));
               ("activeTab", VStr clicked) ]).
Proof.
  intros Hn Hin Hp. split.
  - rewrite (tab_view_from_state projects tasks risks (Some clicked)
               (Some (Home.view_of (Views.buildHomeView previous)))
               (VObj [ ("selectedProjectId", VStr (Models.project_id p));
                       ("activeTab",
                        VStr (Views.default (Views.activeTab previous) "summary")) ])
               (VStr (Models.project_id p))).
    + now rewrite (getProjectById_found projects p Hn Hin).
    + unfold Views.buildHomeView. rewrite Hp.
      apply (getStateFromView_state_object
               (Some (Models.project_id p))
               (Some (Views.default (Views.activeTab previous) "summary"))).
    + reflexivity.
    + reflexivity.
  - apply (getStateFromView_state_object
             (Some (Models.project_id p)) (Some clicked)).
Qed.

Lemma tab_click_keeps_the_project_witness :
  Handlers.Registered.tab_view (Some "risks")
    (Some (Home.view_of (Views.buildHomeView Trials.tasks_of_p1)))
  = Ok (Views.buildHomeView
          {| Views.projects := Seed.projects;
             Views.selectedProject := Some Seed.p1;
             Views.activeTab := Some "risks";
             Views.tasks := Some [ Seed.t1; Seed.t2 ];
             Views.risks := Some [ Seed.r1 ] |}).
Proof.
  assert (Hn : NoDup (map Models.project_id Seed.projects))
    by (repeat constructor; simpl; intuition discriminate).
  apply (proj1 (tab_click_keeps_the_project
                  Seed.projects Seed.tasks Seed.risks Trials.tasks_of_p1
                  Seed.p1 "risks" Hn (or_introl eq_refl) eq_refl)).
Defined.

(** X18: when the view has no usable token, or its token holds no project
    id (the view was built without a selected project), the tab handler
    publishes the view of the first project of the store with that project's
    tasks and risks; when the token holds an id that no project has, it
    publishes the first project as well, but with the tasks and risks whose
    [projectId] is that unknown id. *)
Theorem tab_click_falls_back_to_first_project (projects : list Models.Project)
    (tasks : list Models.Task) (risks : list Models.Risk)
    (first : Models.Project) (clicked : option string) :
  Handlers.first_project projects = Some first ->
  (forall view,
     unusable_token view ->
     Handlers.tab_view projects tasks risks clicked view
     = Ok (Views.buildHomeView
             (handler_params projects tasks risks (Some first) clicked
                             (VStr (Models.project_id first))))) /\
  (forall previous,
     Views.selectedProject previous = None ->
     Handlers.tab_view projects tasks risks clicked
       (Some (Home.view_of (Views.buildHomeView previous)))
     = Ok (Views.buildHomeView
             (handler_params projects tasks risks (Some first) clicked
                             (VStr (Models.project_id first))))) /\
  (forall unknown activeTab,
     (forall p, In p projects -> unknown <> Models.project_id p) ->
     Handlers.tab_view projects tasks risks clicked
       (Some (view_with_state (state_object (Some unknown) activeTab)))
     = Ok (Views.buildHomeView
             (handler_params projects tasks risks (Some first) clicked
                             (VStr unknown)))).
Proof.
  intros Hfirst. split; [|split].
  - intros view H.
    apply (tab_view_without_id projects tasks risks clicked view
             (VObj []) VUndefined first);
      [now apply getStateFromView_unusable | reflexivity | reflexivity | exact Hfirst].
  - intros previous H.
    apply (tab_view_without_id projects tasks risks clicked _
             (VObj [ ("activeTab",
                      VStr (Views.default (Views.activeTab previous) "summary")) ])
             VUndefined first);
      [| reflexivity | reflexivity | exact Hfirst].
    unfold Views.buildHomeView. rewrite H.
    apply (getStateFromView_state_object
             None (Some (Views.default (Views.activeTab previous) "summary"))).
  - intros unknown activeTab H.
    rewrite (tab_view_from_state projects tasks risks clicked _
               (defined (state_object (Some unknown) activeTab)) (VStr unknown)).
    + rewrite (getProjectById_unknown projects (VStr unknown));
        [now rewrite Hfirst|].
      intros p Hp [= E]. exact (H p Hp E).
    + apply getStateFromView_state_object.
    + destruct activeTab; reflexivity.
    + reflexivity.
Qed.

Lemma tab_click_falls_back_to_first_project_witness :
  Handlers.Registered.tab_view (Some "tasks") (Some Samples.broken_view)
  = Ok (Views.buildHomeView Trials.tasks_of_p1) /\
  Handlers.Registered.tab_view (Some "tasks")
    (Some (view_with_state (state_object (Some "p9") None)))
  = Ok (Views.buildHomeView
          {| Views.projects := Seed.projects;
             Views.selectedProject := Some Seed.p1;
             Views.activeTab := Some "tasks";
             Views.tasks := Some [];
             Views.risks := Some [] |}).
Proof.
  destruct (tab_click_falls_back_to_first_project
              Seed.projects Seed.tasks Seed.risks Seed.p1 (Some "tasks") eq_refl)
    as (Hunusable & _ & Hunknown).
  split.
  - apply (Hunusable (Some Samples.broken_view)).
    right. exists "SyntaxError". reflexivity.
  - apply (Hunknown "p9" None).
    simpl. intros p [<-|[<-|[]]]; discriminate.
Defined.

(** X19: with a project in the store, the tab handler throws exactly when
    [getStateFromView] returns [null], that is when the token of the view is a
    JSON text for [null]: the [TypeError] of reading [selectedProjectId] from
    [null], outside the [try] of [getStateFromView]. *)
Theorem tab_click_throws_on_null_state (projects : list Models.Project)
    (tasks : list Models.Task) (risks : list Models.Risk)
    (clicked : option string) (view : option Home.View) :
  projects <> [] ->
  ((exists error, Handlers.tab_view projects tasks risks clicked view = Throw error)
   <-> Home.getStateFromView view = Ok VNull) /\
  (Home.getStateFromView view = Ok VNull
   <-> exists v text,
         view = Some v /\ Home.private_metadata v = Some text /\
         JSON.parse text = Ok VNull) /\
  (Home.getStateFromView view = Ok VNull ->
   Handlers.tab_view projects tasks risks clicked view = Throw "TypeError").
Proof.
  intros Hne.
  assert (Hfirst : exists first, Handlers.first_project projects = Some first).
  { destruct projects as [|q rest]; [congruence | eexists; reflexivity]. }
  destruct Hfirst as [first Hfirst].
  assert (Hthrow : Home.getStateFromView view = Ok VNull ->
                   Handlers.tab_view projects tasks risks clicked view
                   = Throw "TypeError").
  { intros H. unfold Handlers.tab_view. rewrite H. reflexivity. }
  split; [|split; [|exact Hthrow]].
  - split; [|intros H; eexists; now apply Hthrow].
    intros [error H].
    destruct (getStateFromView_returns view) as [prev Hprev].
    destruct (is_nullish prev) eqn:Hnull.
    + destruct prev; try discriminate Hnull; [|exact Hprev].
      exfalso. exact (getStateFromView_defined view Hprev).
    + exfalso.
      assert (Hm : member prev "selectedProjectId"
                   = Ok (get prev "selectedProjectId"))
        by (unfold member; now rewrite Hnull).
      destruct (is_nullish (get prev "selectedProjectId")) eqn:En.
      * rewrite (tab_view_without_id projects tasks risks clicked view
                   _ _ first Hprev Hm En Hfirst) in H.
        discriminate H.
      * rewrite (tab_view_from_state projects tasks risks clicked view
                   _ _ Hprev Hm En) in H.
        discriminate H.
  - unfold Home.getStateFromView.
    destruct view as [[[[|c text]|]]|]; cbn [Home.private_metadata is_empty negb].
    + split; [discriminate|]. intros (v & t & [= <-] & [= <-] & H).
      discriminate H.
    + destruct (JSON.parse (String c text)) as [state|error] eqn:E.
      * split.
        -- intros [= ->].
           exists {| Home.private_metadata := Some (String c text) |},
                  (String c text).
           split; [reflexivity|]. split; [reflexivity | exact E].
        -- intros (v & t & [= <-] & [= <-] & H). rewrite E in H. exact H.
      * split; [discriminate|].
        intros (v & t & [= <-] & [= <-] & H). rewrite E in H. discriminate H.
    + split; [discriminate|]. intros (v & t & [= <-] & H & _). discriminate H.
    + split; [discriminate|]. intros (v & t & H & _). discriminate H.
Qed.

Lemma tab_click_throws_on_null_state_witness :
  Handlers.Registered.tab_view (Some "tasks") (Some Trials.null_view)
  = Throw "TypeError".
Proof.
  apply (proj2 (proj2 (tab_click_throws_on_null_state
                         Seed.projects Seed.tasks Seed.risks (Some "tasks")
                         (Some Trials.null_view) ltac:(discriminate)))).
  reflexivity.
Defined.

(** X20: opening the home publishes what a click on the summary tab without
    any previous view publishes: the view of the first project of the store
    on the summary tab with that project's tasks and risks; in a store without
    project both throw. *)
Theorem home_opened_is_summary_of_first_project (projects : list Models.Project)
    (tasks : list Models.Task) (risks : list Models.Risk) :
  Handlers.home_opened_view projects tasks risks
  = Handlers.tab_view projects tasks risks (Some "summary") None /\
  (forall first,
     Handlers.first_project projects = Some first ->
     Handlers.home_opened_view projects tasks risks
     = Ok (Views.buildHomeView
             (handler_params projects tasks risks (Some first) (Some "summary")
                             (VStr (Models.project_id first))))) /\
  (projects = [] ->
   Handlers.home_opened_view projects tasks risks = Throw "TypeError").
Proof.
  assert (Hopened : forall first,
            Handlers.first_project projects = Some first ->
            Handlers.home_opened_view projects tasks risks
            = Ok (Views.buildHomeView
                    (handler_params projects tasks risks (Some first)
                       (Some "summary") (VStr (Models.project_id first))))).
  { intros first H. unfold Handlers.home_opened_view, Handlers.first_project_id.
    rewrite H. reflexivity. }
  split; [|split; [exact Hopened|]].
  - destruct (Handlers.first_project projects) as [first|] eqn:Hfirst.
    + rewrite (Hopened first eq_refl).
      symmetry.
      apply (tab_view_without_id projects tasks risks (Some "summary") None
               (VObj []) VUndefined first); try reflexivity. exact Hfirst.
    + unfold Handlers.home_opened_view, Handlers.tab_view,
        Handlers.first_project_id.
      rewrite Hfirst. reflexivity.
  - intros ->. reflexivity.
Qed.

Lemma home_opened_is_summary_of_first_project_witness :
  Handlers.Registered.home_opened_view
  = Ok (Views.buildHomeView
          {| Views.projects := Seed.projects;
             Views.selectedProject := Some Seed.p1;
             Views.activeTab := Some "summary";
             Views.tasks := Some [ Seed.t1; Seed.t2 ];
             Views.risks := Some [ Seed.r1 ] |}).
Proof.
  apply (proj1 (proj2 (home_opened_is_summary_of_first_project
                         Seed.projects Seed.tasks Seed.risks)) Seed.p1).
  reflexivity.
Defined.

(* ================================================================== *)
(** ** Further properties: the overview and the tab ids *)
(* ================================================================== *)

Section Overview.

Import Types.

Lemma buildCardList_length_le (items : list CardItem) :
  length (Builders.buildCardList items) <= 4 * length items - 1.
Proof.
  rewrite buildCardList_separated, separated_length, map_map, length_map.
  assert (H : list_sum (map (fun item => length (Builders.buildCard item)) items)
              <= 3 * length items).
  { induction items as [|item rest IH]; [simpl; lia|].
    assert (Hc : length (Builders.buildCard item) <= 3).
    { unfold Builders.buildCard.
      destruct (negb (is_empty (Builders.metaText item)));
        destruct (Builders.has_actions (card_actions item)); simpl; lia. }
    change (length (Builders.buildCard item)
            + list_sum (map (fun item => length (Builders.buildCard item)) rest)
            <= 3 * S (length rest)).
    lia. }
  lia.
Qed.

End Overview.

(** X21: the overview reads the number of items and the first five items
    only: two lists of the same length with the same first five items give the
    same content; its block ids are those of the first five cards; and it
    never has more than 22 blocks, however many items there are. *)
Theorem buildOverviewContent_is_bounded :
  (forall items items',
     length items = length items' ->
     firstn 5 items = firstn 5 items' ->
     Builders.buildOverviewContent items = Builders.buildOverviewContent items') /\
  (forall items,
     block_ids (Builders.buildOverviewContent items)
     = map (fun item => "card_" +++ Types.card_id item) (firstn 5 items)) /\
  (forall items, length (Builders.buildOverviewContent items) <= 22).
Proof.
  split; [|split].
  - intros items items' Hlen Hfirst. unfold Builders.buildOverviewContent.
    now rewrite Hlen, Hfirst.
  - intros items.
    apply (block_ids_buildContent
             {| Types.tab := "overview"; Types.items := items |}).
  - intros items. unfold Builders.buildOverviewContent.
    destruct (length items =? 0)%nat; [simpl; lia|].
    pose proof (buildCardList_length_le (firstn 5 items)) as H.
    pose proof (firstn_le_length 5 items) as H5.
    destruct (5 <? length items)%nat; rewrite ?length_app; cbn [length]; lia.
Qed.

Lemma buildOverviewContent_is_bounded_witness :
  Builders.buildOverviewContent Samples.seven_cards
  = Builders.buildOverviewContent
      (firstn 5 Samples.seven_cards ++ [ Trials.complete_card; Trials.my_card ]).
Proof.
  apply (proj1 buildOverviewContent_is_bounded); reflexivity.
Defined.

(** X22: whatever the active tab, the buttons of [buildTabs] have the action
    ids "tab_overview", "tab_my_updates" and "tab_admin" (the computed key
    finds an entry of [DESIGN_TOKENS.ACTION_IDS] for each tab, so no id is
    [undefined]), the values "overview", "my-updates" and "admin", and the
    icon and the name of the tab as label; only the style depends on the
    active tab. *)
Theorem buildTabs_action_ids (activeTab : string) :
  exists bar,
    Builders.buildTabs activeTab = [ bar ] /\
    get bar "block_id" = VStr "home_tabs" /\
    map action_id_of (buttons bar)
    = [ Some Types.DESIGN_TOKENS.ACTION_IDS.TAB_OVERVIEW;
        Some Types.DESIGN_TOKENS.ACTION_IDS.TAB_MY_UPDATES;
        Some Types.DESIGN_TOKENS.ACTION_IDS.TAB_ADMIN ] /\
    map value_of (buttons bar)
    = [ Some "overview"; Some "my-updates"; Some "admin" ] /\
    map label_of (buttons bar)
    = [ Some "🧭 Overview"; Some "👤 My Updates"; Some "⚙️ Admin" ] /\
    map (without "style") (buttons bar)
    = map (without "style")
          (buttons (hd VUndefined (Builders.buildTabs EmptyString))).
Proof.
  eexists. split; [reflexivity|]. repeat split; reflexivity.
Qed.
